(** * Blog platform backend: authorization pipeline and soft-delete CRUD

    A shallow embedding of the services, controllers, validators and
    middlewares of the blog backend, with the document store modelled as
    three insertion-ordered collections and every handler as a function
    that returns the effects it performs on the Express response. *)

From Stdlib Require Import String Ascii ZArith List Bool.
From stdpp Require Import base option list strings gmap.
Import ListNotations.

#[local] Set Warnings "-register-all".
Local Open Scope string_scope.
Local Open Scope list_scope.

(** ** Values shared by all layers *)

(** Identifiers are the rendering of the store's ObjectId: 24 hexadecimal
    digits, the letters in lower case.  Mongoose casts every string that it
    is handed as an identifier to an ObjectId before it queries: another
    spelling of the same digits names the same ObjectId, and a string that
    is no ObjectId makes the call reject with a cast error.  The cast is
    not modelled.  The model compares identifiers as strings, which is the
    store's comparison on renderings, and the properties of calls that take
    an identifier from outside are stated for identifiers in this form. *)
Definition ObjectId := string.

Definition is_lower_hex (c : ascii) : bool :=
  let n := N_of_ascii c in
  ((48 <=? n) && (n <=? 57) || (97 <=? n) && (n <=? 102))%N.

(** The string is the rendering of an ObjectId. *)
Definition canonical (id : string) : bool :=
  (String.length id =? 24)%nat && forallb is_lower_hex (list_ascii_of_string id).

(** Strings are sequences of bytes.  On text within ASCII a byte is a
    character, which is where the length, the white space and the letter
    case of the model are those of the libraries; the properties that
    depend on them are stated for such text. *)
Definition ascii_text (s : string) : bool :=
  forallb (fun c => (N_of_ascii c <? 128)%N) (list_ascii_of_string s).

(** Text of printable ASCII characters: no control character either. *)
Definition printable (s : string) : bool :=
  forallb (fun c => let n := N_of_ascii c in ((32 <=? n) && (n <? 127))%N)
          (list_ascii_of_string s).

(** [Date] values are milliseconds since the epoch. *)
Definition Date := Z.

(** The string enum [UserRole]. *)
Module UserRole.
Definition ADMIN : string := "admin".
Definition USER : string := "user".
End UserRole.

(** Errors a promise can reject with.  [ReferenceError] is the only one the
    services throw themselves; the two others come from the store. *)
Inductive Error :=
| ReferenceError (msg : string)
| ValidationError (path : string)
| MongoServerError (msg : string).

Inductive Result (A : Type) :=
| Ok (a : A)
| Throw (e : Error).
Arguments Ok {A} a.
Arguments Throw {A} e.

(** The two values a handler cannot compute: the clock read by [new Date()]
    and the identifier the driver assigns to a created document. *)
Record Env := { now : Date; fresh : ObjectId }.

(** ** Documents *)

Record UserDocument := {
  u_id : ObjectId;
  u_name : string;
  u_email : string;
  u_password : string;
  u_roles : list string;
  u_createdAt : Date;
  u_updatedAt : Date;
  u_deletedAt : option Date
}.

Record PostDocument := {
  p_id : ObjectId;
  p_title : string;
  p_content : string;
  p_author : ObjectId;
  p_genre : string;
  p_comments : list ObjectId;
  p_createdAt : Date;
  p_updatedAt : Date;
  p_deletedAt : option Date
}.

Record CommentDocument := {
  c_id : ObjectId;
  c_content : string;
  c_author : ObjectId;
  c_post : ObjectId;
  c_createdAt : Date;
  c_updatedAt : Date;
  c_deletedAt : option Date
}.

(** What every [mongoose.Document] of this schema family offers: its [_id],
    its [deletedAt] field, and the update [{ deletedAt: d }], which with
    [timestamps: true] also refreshes [updatedAt]. *)
Class Document (D : Type) := {
  doc_id : D -> ObjectId;
  deletedAt : D -> option Date;
  set_deletedAt : Date -> D -> D
}.

#[export] Instance UserDoc : Document UserDocument := {
  doc_id := u_id;
  deletedAt := u_deletedAt;
  set_deletedAt d u :=
    {| u_id := u_id u; u_name := u_name u; u_email := u_email u;
       u_password := u_password u; u_roles := u_roles u;
       u_createdAt := u_createdAt u; u_updatedAt := d;
       u_deletedAt := Some d |}
}.

#[export] Instance PostDoc : Document PostDocument := {
  doc_id := p_id;
  deletedAt := p_deletedAt;
  set_deletedAt d p :=
    {| p_id := p_id p; p_title := p_title p; p_content := p_content p;
       p_author := p_author p; p_genre := p_genre p;
       p_comments := p_comments p; p_createdAt := p_createdAt p;
       p_updatedAt := d; p_deletedAt := Some d |}
}.

#[export] Instance CommentDoc : Document CommentDocument := {
  doc_id := c_id;
  deletedAt := c_deletedAt;
  set_deletedAt d c :=
    {| c_id := c_id c; c_content := c_content c; c_author := c_author c;
       c_post := c_post c; c_createdAt := c_createdAt c;
       c_updatedAt := d; c_deletedAt := Some d |}
}.

(** ** The model layer: the Mongoose calls the services make *)

Module Model.
Section Collection.
Context {D : Type} `{Document D}.

(** The query [{ _id: id }], for an identifier in the form in which the
    store renders it. *)
Definition by_id (id : ObjectId) (d : D) : bool := String.eqb (doc_id d) id.

(** The query [{ deletedAt: null }]. *)
Definition not_deleted (d : D) : bool :=
  match deletedAt d with None => true | Some _ => false end.

(** [Model.find(q)]: every matching document, in insertion order. *)
Definition find (q : D -> bool) (coll : list D) : list D := List.filter q coll.

(** [Model.findOne(q)]. *)
Definition findOne (q : D -> bool) (coll : list D) : option D := List.find q coll.

(** [Model.findById(id)]: no condition on [deletedAt]. *)
Definition findById (id : ObjectId) (coll : list D) : option D :=
  findOne (by_id id) coll.

(** [Model.updateOne(q, u)]: the first match is updated, the others and
    the order are kept. *)
Fixpoint updateOne (q : D -> bool) (u : D -> D) (coll : list D) : list D :=
  match coll with
  | [] => []
  | d :: rest => if q d then u d :: rest else d :: updateOne q u rest
  end.

(** [Model.findByIdAndUpdate(id, u)] without [new: true]: resolves to the
    document as it was before the update, or to [null]. *)
Definition findByIdAndUpdate (id : ObjectId) (u : D -> D) (coll : list D)
  : option D * list D :=
  (findById id coll, updateOne (by_id id) u coll).

(** [Model.findOneAndUpdate(q, u, { returnOriginal: false })]: resolves to
    the document as it is after the update, or to [null]. *)
Definition findOneAndUpdate (q : D -> bool) (u : D -> D) (coll : list D)
  : option D * list D :=
  (option_map u (findOne q coll), updateOne q u coll).

(** [Model.create(doc)]. *)
Definition insert (d : D) (coll : list D) : list D := coll ++ [d].

End Collection.
End Model.

(** The three collections of the database [blog-db]. *)
Record Db := {
  users : list UserDocument;
  posts : list PostDocument;
  comments : list CommentDocument
}.

Definition set_users (f : list UserDocument -> list UserDocument) (db : Db) : Db :=
  {| users := f (users db); posts := posts db; comments := comments db |}.
Definition set_posts (f : list PostDocument -> list PostDocument) (db : Db) : Db :=
  {| users := users db; posts := f (posts db); comments := comments db |}.
Definition set_comments (f : list CommentDocument -> list CommentDocument) (db : Db) : Db :=
  {| users := users db; posts := posts db; comments := f (comments db) |}.

(** A service call: it reads and writes the store and resolves or rejects. *)
Definition Service (A : Type) := Db -> Result A * Db.

(** ** Populated views *)

(** [populate('author', 'name')]. *)
Record AuthorRef := { ar_id : ObjectId; ar_name : string }.
(** [populate('comments', 'content author')]. *)
Record CommentRef := { cr_id : ObjectId; cr_content : string; cr_author : ObjectId }.
(** [populate('post', 'title')]. *)
Record PostRef := { pr_id : ObjectId; pr_title : string }.

Record PopulatedPost := {
  pp_doc : PostDocument;
  pp_author : option AuthorRef;
  pp_comments : list CommentRef
}.

Record PopulatedComment := {
  pc_doc : CommentDocument;
  pc_author : option AuthorRef;
  pc_post : option PostRef
}.

Definition populate_author (db : Db) (id : ObjectId) : option AuthorRef :=
  match Model.findById id (users db) with
  | Some u => Some {| ar_id := u_id u; ar_name := u_name u |}
  | None => None
  end.

(** References whose document is gone are dropped from a populated array. *)
Fixpoint populate_comments (db : Db) (ids : list ObjectId) : list CommentRef :=
  match ids with
  | [] => []
  | id :: rest =>
      match Model.findById id (comments db) with
      | Some c => {| cr_id := c_id c; cr_content := c_content c;
                     cr_author := c_author c |} :: populate_comments db rest
      | None => populate_comments db rest
      end
  end.

Definition populate_post_ref (db : Db) (id : ObjectId) : option PostRef :=
  match Model.findById id (posts db) with
  | Some p => Some {| pr_id := p_id p; pr_title := p_title p |}
  | None => None
  end.

Definition populate_post (db : Db) (p : PostDocument) : PopulatedPost :=
  {| pp_doc := p;
     pp_author := populate_author db (p_author p);
     pp_comments := populate_comments db (p_comments p) |}.

Definition populate_comment (db : Db) (c : CommentDocument) : PopulatedComment :=
  {| pc_doc := c;
     pc_author := populate_author db (c_author c);
     pc_post := populate_post_ref db (c_post c) |}.

(** ** Promises over the store *)

Definition ret {A} (a : A) : Service A := fun db => (Ok a, db).
Definition throw {A} (e : Error) : Service A := fun db => (Throw e, db).
Definition bind {A B} (m : Service A) (k : A -> Service B) : Service B :=
  fun db =>
    match m db with
    | (Ok a, db1) => k a db1
    | (Throw e, db1) => (Throw e, db1)
    end.
(** A read of the store. *)
Definition query {A} (f : Db -> A) : Service A := fun db => (Ok (f db), db).
(** A write to the store. *)
Definition modify (f : Db -> Db) : Service unit := fun db => (Ok tt, f db).

Declare Scope service_scope.
Delimit Scope service_scope with service.
Notation "'await' x <- m ; k" := (bind m (fun x => k))
  (at level 10, x name, m at level 100, k at level 200) : service_scope.

(** ** Interfaces *)

Record PostInput := {
  pi_title : string;
  pi_content : string;
  pi_author : ObjectId;
  pi_genre : string;
  pi_comments : list ObjectId
}.

Record CommentInput := {
  ci_content : string;
  ci_author : ObjectId;
  ci_post : ObjectId
}.

(** The partial inputs of [update]: a field is [None] where the key is
    absent. *)
Record PostInputUpdate := {
  piu_title : option string;
  piu_content : option string;
  piu_genre : option string
}.

Record CommentInputUpdate := { ciu_content : option string }.

(** ** Schemas: what [Model.create] does with an input *)

(** The paths declared [required: true] with [type: String] that hold the
    empty string; Mongoose rejects the document when there is one. *)
Definition missing_paths (fields : list (string * string)) : list string :=
  List.map fst (List.filter (fun f => String.eqb (snd f) "") fields).

Module PostModel.
Definition document (env : Env) (i : PostInput) : PostDocument :=
  {| p_id := fresh env; p_title := pi_title i; p_content := pi_content i;
     p_author := pi_author i; p_genre := pi_genre i;
     p_comments := pi_comments i;
     p_createdAt := now env; p_updatedAt := now env; p_deletedAt := None |}.

Definition create (env : Env) (i : PostInput) : Service PostDocument :=
  match missing_paths [("title", pi_title i); ("content", pi_content i);
                       ("genre", pi_genre i)] with
  | [] => (await _ <- modify (set_posts (Model.insert (document env i)));
           ret (document env i))%service
  | p :: ps => throw (ValidationError (String.concat ", " (p :: ps)))
  end.

(** The update [{ $push: { comments: id } }]. *)
Definition push_comment (d : Date) (id : ObjectId) (p : PostDocument) : PostDocument :=
  {| p_id := p_id p; p_title := p_title p; p_content := p_content p;
     p_author := p_author p; p_genre := p_genre p;
     p_comments := p_comments p ++ [id];
     p_createdAt := p_createdAt p; p_updatedAt := d;
     p_deletedAt := p_deletedAt p |}.

(** The update [{ $pull: { comments: id } }]: every occurrence goes. *)
Definition pull_comment (d : Date) (id : ObjectId) (p : PostDocument) : PostDocument :=
  {| p_id := p_id p; p_title := p_title p; p_content := p_content p;
     p_author := p_author p; p_genre := p_genre p;
     p_comments := List.filter (fun c => negb (String.eqb c id)) (p_comments p);
     p_createdAt := p_createdAt p; p_updatedAt := d;
     p_deletedAt := p_deletedAt p |}.

(** The update document of [update]: the keys present replace the stored
    values; update validators are off, so any string is accepted. *)
Definition apply_update (d : Date) (u : PostInputUpdate) (p : PostDocument) : PostDocument :=
  {| p_id := p_id p;
     p_title := default (p_title p) (piu_title u);
     p_content := default (p_content p) (piu_content u);
     p_author := p_author p;
     p_genre := default (p_genre p) (piu_genre u);
     p_comments := p_comments p;
     p_createdAt := p_createdAt p; p_updatedAt := d;
     p_deletedAt := p_deletedAt p |}.
End PostModel.

Module CommentModel.
Definition document (env : Env) (i : CommentInput) : CommentDocument :=
  {| c_id := fresh env; c_content := ci_content i; c_author := ci_author i;
     c_post := ci_post i;
     c_createdAt := now env; c_updatedAt := now env; c_deletedAt := None |}.

Definition create (env : Env) (i : CommentInput) : Service CommentDocument :=
  match missing_paths [("content", ci_content i)] with
  | [] => (await _ <- modify (set_comments (Model.insert (document env i)));
           ret (document env i))%service
  | p :: ps => throw (ValidationError (String.concat ", " (p :: ps)))
  end.

Definition apply_update (d : Date) (u : CommentInputUpdate) (c : CommentDocument)
  : CommentDocument :=
  {| c_id := c_id c; c_content := default (c_content c) (ciu_content u);
     c_author := c_author c; c_post := c_post c;
     c_createdAt := c_createdAt c; c_updatedAt := d;
     c_deletedAt := c_deletedAt c |}.
End CommentModel.

(** ** The store's regular expressions

    [$regex] hands the pattern to the store's Perl-compatible engine.  The
    model covers the patterns built from ordinary characters, the wildcard
    [.] and backslash-escaped punctuation, over ASCII subjects; groups,
    alternation, classes, anchors and quantifiers are recognised and left
    uninterpreted. *)

Module Regex.

Inductive Atom :=
| Lit (c : ascii)
| AnyChar.

Inductive Compiled :=
| Pattern (atoms : list Atom)
| Invalid (reason : string)
| Unsupported.

Definition code (c : ascii) : N := N_of_ascii c.

(** The characters with a special meaning outside a character class,
    together with the two closing brackets. *)
Definition is_meta (c : ascii) : bool :=
  existsb (Ascii.eqb c)
    ["\"; "^"; "$"; "."; "["; "]"; "|"; "("; ")"; "?"; "*"; "+"; "{"; "}"]%char.

Definition is_alnum (c : ascii) : bool :=
  let n := code c in
  ((48 <=? n) && (n <=? 57) || (65 <=? n) && (n <=? 90)
   || (97 <=? n) && (n <=? 122))%N.

Definition cons_atom (a : Atom) (r : Compiled) : Compiled :=
  match r with
  | Pattern atoms => Pattern (a :: atoms)
  | other => other
  end.

Fixpoint compile (pattern : string) : Compiled :=
  match pattern with
  | EmptyString => Pattern []
  | String c rest =>
      if Ascii.eqb c "\" then
        match rest with
        | EmptyString => Invalid "\ at end of pattern"
        | String e rest' =>
            if is_alnum e then Unsupported else cons_atom (Lit e) (compile rest')
        end
      else if Ascii.eqb c "." then cons_atom AnyChar (compile rest)
      else if is_meta c then Unsupported
      else cons_atom (Lit c) (compile rest)
  end.

(** Case folding of the option [i] within ASCII: the letters A-Z fold to
    a-z.  The engine folds and matches characters; the model folds and
    matches bytes, which is the same on ASCII patterns and subjects. *)
Definition fold_case (c : ascii) : ascii :=
  let n := code c in
  if ((65 <=? n) && (n <=? 90))%N then ascii_of_N (n + 32) else c.

Definition matches_atom (a : Atom) (c : ascii) : bool :=
  match a with
  | Lit x => Ascii.eqb (fold_case x) (fold_case c)
  | AnyChar => negb (Ascii.eqb c "010")
  end.

(** The atoms match a prefix of the subject. *)
Fixpoint match_here (atoms : list Atom) (subject : string) : bool :=
  match atoms with
  | [] => true
  | a :: rest =>
      match subject with
      | EmptyString => false
      | String c subject' => matches_atom a c && match_here rest subject'
      end
  end.

(** An unanchored pattern matches when it matches at some position. *)
Fixpoint search (atoms : list Atom) (subject : string) : bool :=
  match_here atoms subject
  || match subject with
     | EmptyString => false
     | String _ subject' => search atoms subject'
     end.

End Regex.

(** ** Services *)

Module PostService.

Definition create (env : Env) (postInput : PostInput) : Service PostDocument :=
  (await userExist <- query (fun db => Model.findById (pi_author postInput) (users db));
   match userExist with
   | None => throw (ReferenceError "User not found")
   | Some _ => PostModel.create env postInput
   end)%service.

Definition getAll : Service (list PopulatedPost) :=
  query (fun db => List.map (populate_post db) (Model.find Model.not_deleted (posts db))).

Definition getById (id : ObjectId) : Service (option PopulatedPost) :=
  query (fun db => option_map (populate_post db) (Model.findById id (posts db))).

Definition delete (env : Env) (id : ObjectId) : Service bool :=
  (await result <- (fun db =>
       let r := Model.findByIdAndUpdate id (set_deletedAt (now env)) (posts db) in
       (Ok (fst r), set_posts (fun _ => snd r) db));
   ret (match result with Some _ => true | None => false end))%service.

(** [None] stands for a pattern that the regular-expression model leaves
    uninterpreted. *)
Definition getByGenre (genre : string) : option (Service (list PostDocument)) :=
  match Regex.compile genre with
  | Regex.Pattern re =>
      Some (query (fun db =>
        Model.find (fun p => Regex.search re (p_genre p) && Model.not_deleted p)
                   (posts db)))
  | Regex.Invalid reason =>
      Some (throw (MongoServerError ("Regular expression is invalid: " +:+ reason)))
  | Regex.Unsupported => None
  end.

Definition update (env : Env) (id : ObjectId) (postInput : PostInputUpdate)
  : Service (option PostDocument) :=
  fun db =>
    let r := Model.findOneAndUpdate (Model.by_id id)
               (PostModel.apply_update (now env) postInput) (posts db) in
    (Ok (fst r), set_posts (fun _ => snd r) db).

Definition getByAuthorId (userId : ObjectId) : Service (list PopulatedPost) :=
  (await userExists <- query (fun db => Model.findById userId (users db));
   match userExists with
   | None => throw (ReferenceError "User not found")
   | Some _ =>
       query (fun db => List.map (populate_post db)
                (Model.find (fun p => String.eqb (p_author p) userId && Model.not_deleted p)
                            (posts db)))
   end)%service.

End PostService.

Module CommentService.

Definition create (env : Env) (commentInput : CommentInput) : Service CommentDocument :=
  (await userExist <- query (fun db => Model.findById (ci_author commentInput) (users db));
   await postExist <- query (fun db => Model.findById (ci_post commentInput) (posts db));
   match userExist with
   | None => throw (ReferenceError "User not found")
   | Some _ =>
   match postExist with
   | None => throw (ReferenceError "Post not found")
   | Some _ =>
       await created <- CommentModel.create env commentInput;
       await _ <- modify (set_posts (Model.updateOne
                    (fun p => Model.by_id (ci_post commentInput) p && Model.not_deleted p)
                    (PostModel.push_comment (now env) (c_id created))));
       ret created
   end end)%service.

Definition getAll : Service (list PopulatedComment) :=
  query (fun db => List.map (populate_comment db) (Model.find Model.not_deleted (comments db))).

Definition getById (id : ObjectId) : Service (option PopulatedComment) :=
  query (fun db => option_map (populate_comment db) (Model.findById id (comments db))).

Definition delete (env : Env) (id : ObjectId) : Service bool :=
  (await result <- (fun db =>
       let r := Model.findByIdAndUpdate id (set_deletedAt (now env)) (comments db) in
       (Ok (fst r), set_comments (fun _ => snd r) db));
   match result with
   | None => ret false
   | Some c =>
       await _ <- modify (set_posts (Model.updateOne (Model.by_id (c_post c))
                    (PostModel.pull_comment (now env) (c_id c))));
       ret true
   end)%service.

Definition update (env : Env) (id : ObjectId) (commentInput : CommentInputUpdate)
  : Service (option CommentDocument) :=
  fun db =>
    let r := Model.findOneAndUpdate (Model.by_id id)
               (CommentModel.apply_update (now env) commentInput) (comments db) in
    (Ok (fst r), set_comments (fun _ => snd r) db).

Definition getByAuthorId (userId : ObjectId) : Service (list PopulatedComment) :=
  (await userExists <- query (fun db => Model.findById userId (users db));
   match userExists with
   | None => throw (ReferenceError "User not found")
   | Some _ =>
       query (fun db => List.map (populate_comment db)
                (Model.find (fun c => String.eqb (c_author c) userId && Model.not_deleted c)
                            (comments db)))
   end)%service.

End CommentService.

(** The user service.  Its source file is missing from the repository
    sources; the two methods that the properties below rest on are
    modelled from the spec's section on resource services, with the store
    calls that the service's test-suite pins. *)
Module UserService.

(** Modelled from the spec: [UserService.delete], the soft delete that sets
    [deletedAt] to the current time and tells whether an entity was found;
    the test-suite pins [findByIdAndUpdate(id, { deletedAt })]. *)
Definition delete (env : Env) (id : ObjectId) : Service bool :=
  (await result <- (fun db =>
       let r := Model.findByIdAndUpdate id (set_deletedAt (now env)) (users db) in
       (Ok (fst r), set_users (fun _ => snd r) db));
   ret (match result with Some _ => true | None => false end))%service.

(** [select('-password')] leaves the hash out of the result, rendered here
    as the empty string; [select('+password')] keeps it. *)
Definition select_password (keep : bool) (u : UserDocument) : UserDocument :=
  {| u_id := u_id u; u_name := u_name u; u_email := u_email u;
     u_password := if keep then u_password u else "";
     u_roles := u_roles u; u_createdAt := u_createdAt u;
     u_updatedAt := u_updatedAt u; u_deletedAt := u_deletedAt u |}.

(** Modelled from the spec: [UserService.findByEmail], the lookup of a user
    by email that can include the normally excluded password hash; the
    test-suite pins [findOne({ email })] and the two [select] calls. *)
Definition findByEmail (email : string) (password : bool) : Service (option UserDocument) :=
  query (fun db => option_map (select_password password)
           (Model.findOne (fun u => String.eqb (u_email u) email) (users db))).

End UserService.

(** ** JSON values and the Express request and response *)

Inductive Json :=
| JUndefined
| JNull
| JBool (b : bool)
| JNum (n : Z)
| JStr (s : string)
| JArr (items : list Json)
| JObj (fields : list (string * Json))
(** [res.json(value)] on a document, a populated document or a caught
    error serialises the value through the library's own [toJSON].  The
    layout of the result (the order of the keys, the version key [__v], the
    ISO form of the dates, the own properties of an error object) is the
    library's and is left uninterpreted: the payload records which value
    was handed to [res.json]. *)
| json_of_post (p : PostDocument)
| json_of_comment (c : CommentDocument)
| json_of_populated_post (v : PopulatedPost)
| json_of_populated_comment (v : PopulatedComment)
| json_of_error (e : Error).

(** The body [{ message: msg }]. *)
Definition message_body (msg : string) : Json := JObj [("message", JStr msg)].

(** What a decoded token may carry under [roles]. *)
Inductive Roles :=
| RolesUndefined
| RolesNull
| RolesNotArray (v : Json)
| RolesArray (items : list string).

(** The principal a verified token yields, attached as [req.user]. *)
Record Principal := { user_id : option string; user_roles : Roles }.

(** The parts of an Express request that the handlers read.  String-valued
    body fields live in [body]; [body_comments] is the array-valued field
    [comments] of a post body. *)
Record Request := {
  authorization : option string;
  params : gmap string string;
  body : gmap string string;
  body_comments : list ObjectId;
  user : option Principal
}.

(** What a handler does to the outside world, in the order it does it:
    calls on the response object, the call of [next], and calls into the
    token library and the services. *)
Inductive Effect :=
| Status (code : nat)
| SendJson (payload : Json)
| Send
| NextCalled
| JwtVerify (token secret : string)
| ServiceCall (method : string).

Definition count_next (trace : list Effect) : nat :=
  List.length (List.filter (fun e => match e with NextCalled => true | _ => false end) trace).

Definition service_calls (trace : list Effect) : list string :=
  List.flat_map (fun e => match e with ServiceCall m => [m] | _ => [] end) trace.

Definition jwt_verify_calls (trace : list Effect) : list (string * string) :=
  List.flat_map (fun e => match e with JwtVerify t s => [(t, s)] | _ => [] end) trace.

(** [process.env.JWT_SECRET || "defaultSecret"]. *)
Definition secret_or_default (JWT_SECRET : option string) : string :=
  match JWT_SECRET with
  | Some s => if String.eqb s "" then "defaultSecret" else s
  | None => "defaultSecret"
  end.

(** ** Controllers *)

(** [x !== y] on values that are a string or [undefined]. *)
Definition strict_neq (x y : option string) : bool :=
  match x, y with
  | Some a, Some b => negb (String.eqb a b)
  | None, None => false
  | _, _ => true
  end.

(** A field read through a TypeScript cast: [undefined] where absent, which
    the store treats like the empty string on a required path and like an
    identifier of no document on a reference. *)
Definition field (b : gmap string string) (k : string) : string :=
  default "" (b !! k).

(** The controllers hand [req.body] itself to the services, under the type
    of the input interface.  [Model.create] reads every path of the schema
    from it, so a body with further keys ([_id], [deletedAt], the
    timestamps, [__v]) is stored with them.  The model reads the fields of
    the interface only: it covers the bodies that carry no other key. *)
Definition as_PostInput (req : Request) : PostInput :=
  {| pi_title := field (body req) "title"; pi_content := field (body req) "content";
     pi_author := field (body req) "author"; pi_genre := field (body req) "genre";
     pi_comments := body_comments req |}.

(** Likewise for the body of a comment. *)
Definition as_CommentInput (req : Request) : CommentInput :=
  {| ci_content := field (body req) "content"; ci_author := field (body req) "author";
     ci_post := field (body req) "post" |}.

(** [!req.user || req.user.id !== author]. *)
Definition author_mismatch (req : Request) : bool :=
  match user req with
  | None => true
  | Some u => strict_neq (user_id u) (body req !! "author")
  end.

Module PostController.

Definition create (env : Env) (req : Request) (db : Db) : list Effect * Db :=
  if author_mismatch req then
    ([Status 403; SendJson (message_body "Author mismatch")], db)
  else
    match PostService.create env (as_PostInput req) db with
    | (Ok newPost, db') =>
        ([ServiceCall "postsService.create"; Status 201; SendJson (json_of_post newPost)], db')
    | (Throw (ReferenceError _), db') =>
        ([ServiceCall "postsService.create"; Status 400;
          SendJson (message_body "User not found")], db')
    | (Throw e, db') =>
        ([ServiceCall "postsService.create"; Status 500; SendJson (json_of_error e)], db')
    end.

Definition delete (env : Env) (req : Request) (db : Db) : list Effect * Db :=
  let id := field (params req) "id" in
  match PostService.delete env id db with
  | (Ok false, db') =>
      ([ServiceCall "postsService.delete"; Status 404;
        SendJson (message_body ("Post with id " +:+ id +:+ " not found"))], db')
  | (Ok true, db') => ([ServiceCall "postsService.delete"; Status 204; Send], db')
  | (Throw e, db') =>
      ([ServiceCall "postsService.delete"; Status 500; SendJson (json_of_error e)], db')
  end.

Definition getAll (req : Request) (db : Db) : list Effect * Db :=
  match PostService.getAll db with
  | (Ok posts, db') =>
      ([ServiceCall "postsService.getAll";
        SendJson (JArr (List.map json_of_populated_post posts))], db')
  | (Throw e, db') =>
      ([ServiceCall "postsService.getAll"; Status 500; SendJson (json_of_error e)], db')
  end.

Definition getOne (req : Request) (db : Db) : list Effect * Db :=
  let id := field (params req) "id" in
  match PostService.getById id db with
  | (Ok None, db') =>
      ([ServiceCall "postsService.getById"; Status 404;
        SendJson (message_body ("Post with id " +:+ id +:+ " not found"))], db')
  | (Ok (Some post), db') =>
      ([ServiceCall "postsService.getById"; SendJson (json_of_populated_post post)], db')
  | (Throw e, db') =>
      ([ServiceCall "postsService.getById"; Status 500; SendJson (json_of_error e)], db')
  end.

Definition getByAuthorId (req : Request) (db : Db) : list Effect * Db :=
  let userId := field (params req) "userId" in
  match PostService.getByAuthorId userId db with
  | (Ok posts, db') =>
      ([ServiceCall "postsService.getByAuthorId";
        SendJson (JArr (List.map json_of_populated_post posts))], db')
  | (Throw (ReferenceError _), db') =>
      ([ServiceCall "postsService.getByAuthorId"; Status 400;
        SendJson (message_body "User not found")], db')
  | (Throw e, db') =>
      ([ServiceCall "postsService.getByAuthorId"; Status 500;
        SendJson (json_of_error e)], db')
  end.

(** [None] where the genre is a pattern that the regular-expression model
    leaves uninterpreted. *)
Definition getByGenre (req : Request) (db : Db) : option (list Effect * Db) :=
  let genre := field (params req) "genre" in
  match PostService.getByGenre genre with
  | None => None
  | Some run =>
      Some match run db with
           | (Ok posts, db') =>
               ([ServiceCall "postsService.getByGenre";
                 SendJson (JArr (List.map json_of_post posts))], db')
           | (Throw e, db') =>
               ([ServiceCall "postsService.getByGenre"; Status 500;
                 SendJson (json_of_error e)], db')
           end
  end.

End PostController.

Module CommentController.

Definition create (env : Env) (req : Request) (db : Db) : list Effect * Db :=
  if author_mismatch req then
    ([Status 403; SendJson (message_body "Author mismatch")], db)
  else
    match CommentService.create env (as_CommentInput req) db with
    | (Ok newComment, db') =>
        ([ServiceCall "commentsService.create"; Status 201;
          SendJson (json_of_comment newComment)], db')
    | (Throw (ReferenceError _), db') =>
        ([ServiceCall "commentsService.create"; Status 400;
          SendJson (message_body "User not found")], db')
    | (Throw e, db') =>
        ([ServiceCall "commentsService.create"; Status 500; SendJson (json_of_error e)], db')
    end.

Definition delete (env : Env) (req : Request) (db : Db) : list Effect * Db :=
  let id := field (params req) "id" in
  match CommentService.delete env id db with
  | (Ok false, db') =>
      ([ServiceCall "commentsService.delete"; Status 404;
        SendJson (message_body ("Comment with id " +:+ id +:+ " not found"))], db')
  | (Ok true, db') => ([ServiceCall "commentsService.delete"; Status 204; Send], db')
  | (Throw e, db') =>
      ([ServiceCall "commentsService.delete"; Status 500; SendJson (json_of_error e)], db')
  end.

Definition getAll (req : Request) (db : Db) : list Effect * Db :=
  match CommentService.getAll db with
  | (Ok comments, db') =>
      ([ServiceCall "commentsService.getAll";
        SendJson (JArr (List.map json_of_populated_comment comments))], db')
  | (Throw e, db') =>
      ([ServiceCall "commentsService.getAll"; Status 500; SendJson (json_of_error e)], db')
  end.

Definition getOne (req : Request) (db : Db) : list Effect * Db :=
  let id := field (params req) "id" in
  match CommentService.getById id db with
  | (Ok None, db') =>
      ([ServiceCall "commentsService.getById"; Status 404;
        SendJson (message_body ("Comment with id " +:+ id +:+ " not found"))], db')
  | (Ok (Some comment), db') =>
      ([ServiceCall "commentsService.getById";
        SendJson (json_of_populated_comment comment)], db')
  | (Throw e, db') =>
      ([ServiceCall "commentsService.getById"; Status 500; SendJson (json_of_error e)], db')
  end.

Definition getByAuthorId (req : Request) (db : Db) : list Effect * Db :=
  let userId := field (params req) "userId" in
  match CommentService.getByAuthorId userId db with
  | (Ok comments, db') =>
      ([ServiceCall "commentsService.getByAuthorId";
        SendJson (JArr (List.map json_of_populated_comment comments))], db')
  | (Throw (ReferenceError _), db') =>
      ([ServiceCall "commentsService.getByAuthorId"; Status 400;
        SendJson (message_body "User not found")], db')
  | (Throw e, db') =>
      ([ServiceCall "commentsService.getByAuthorId"; Status 500;
        SendJson (json_of_error e)], db')
  end.

End CommentController.

(** ** Middlewares *)

(** [header.split(" ")]: the fields between single spaces. *)
Fixpoint split_spaces (s : string) : list string :=
  match s with
  | EmptyString => [EmptyString]
  | String c rest =>
      if Ascii.eqb c " " then EmptyString :: split_spaces rest
      else match split_spaces rest with
           | first :: others => String c first :: others
           | [] => [String c EmptyString]
           end
  end.

(** The token verifier. *)
Module AuthMiddleware.
Section WithTokenLibrary.
(** [jwt.verify(token, secret)]: the decoded payload, or [None] where the
    library throws. *)
Variable jwt_verify : string -> string -> option Principal.
(** [process.env.JWT_SECRET]. *)
Variable JWT_SECRET : option string.

Definition token_of (req : Request) : option string :=
  match authorization req with
  | Some header => nth_error (split_spaces header) 1
  | None => None
  end.

Definition attach (decoded : Principal) (req : Request) : Request :=
  {| authorization := authorization req; params := params req; body := body req;
     body_comments := body_comments req; user := Some decoded |}.

(** Modelled from the spec: [authMiddleware], whose source file
    (auth.middleware) is missing from the repository sources.  The
    outcomes are those of the spec's section on the token verifier:
    without a token, 401 "Access denied. No token provided." before the
    token library is touched; with a token that the library rejects, 403
    "Invalid token."; with one that it accepts, the decoded payload
    attached as [req.user] and [next].  For a header of the shape
    [Bearer <token>] the token is the one that the spec names.  On the
    other headers the spec and the middleware's test-suite part ways: the
    spec has each of them answered with 401, while the suite expects 403
    "Invalid token." for "Basic user:password" under a library that
    rejects, and a call of [jwt.verify] on "lowercasebearer" for
    "bearer lowercasebearer".  The token is taken to be the second
    space-separated field of the header, the reading under which every
    case of the suite comes out as the suite expects.  What the middleware
    does with a header of another scheme beyond those two cases is not
    determined by the sources, and no property below rests on it. *)
Definition authMiddleware (req : Request) : Request * list Effect :=
  match token_of req with
  | None | Some EmptyString =>
      (req, [Status 401; SendJson (message_body "Access denied. No token provided.")])
  | Some token =>
      let secret := secret_or_default JWT_SECRET in
      match jwt_verify token secret with
      | Some decoded => (attach decoded req, [JwtVerify token secret; NextCalled])
      | None =>
          (req, [JwtVerify token secret; Status 403; SendJson (message_body "Invalid token.")])
      end
  end.

End WithTokenLibrary.
End AuthMiddleware.

(** The role gate. *)
Module PreAuthorize.

(** Modelled from the spec: [checkRole], whose source file
    (preAuthorize.middleware) is missing from the repository sources; the
    three cases are those of the spec's section on the role gate, with the
    messages that the gate's test-suite asserts. *)
Definition checkRole (requiredRole : string) (req : Request) : Request * list Effect :=
  match user req with
  | None => (req, [Status 403; SendJson (message_body "Access denied. No roles found.")])
  | Some u =>
      match user_roles u with
      | RolesArray roles =>
          if existsb (String.eqb requiredRole) roles
          then (req, [NextCalled])
          else (req, [Status 403; SendJson (message_body "Access denied.")])
      | _ => (req, [Status 403; SendJson (message_body "Access denied. No roles found.")])
      end
  end.

End PreAuthorize.

(** ** Field validation *)

Module Validator.

Inductive Location := InBody | InParams.

Inductive Check :=
| IsLength (min max : nat)
| IsMongoId.

(** One validation chain: [body(path)] or [param(path)], then [optional()]
    and [trim()] where present, one check, and [withMessage]. *)
Record Rule := {
  location : Location;
  path : string;
  optional : bool;
  trim : bool;
  check : Check;
  withMessage : string
}.

(** An entry of [validationResult(req).array()]. *)
Record Violation := {
  v_type : string;
  v_path : string;
  v_msg : string;
  v_value : option string
}.

(** The white space of [\s] within ASCII; the characters of [\s] beyond
    ASCII are not modelled. *)
Definition is_space (c : ascii) : bool :=
  let n := N_of_ascii c in ((9 <=? n) && (n <=? 13) || (n =? 32))%N.

Fixpoint ltrim (l : list ascii) : list ascii :=
  match l with
  | [] => []
  | c :: rest => if is_space c then ltrim rest else l
  end.

Definition trim_string (s : string) : string :=
  string_of_list_ascii (rev (ltrim (rev (ltrim (list_ascii_of_string s))))).

(** The string a check or sanitizer works on: an absent value counts as
    the empty string. *)
Definition toString (value : option string) : string := default "" value.

Definition is_hex (c : ascii) : bool :=
  let n := N_of_ascii c in
  ((48 <=? n) && (n <=? 57) || (65 <=? n) && (n <=? 70)
   || (97 <=? n) && (n <=? 102))%N.

(** [isHexadecimal]: the pattern [/^(0x|0h)?[0-9A-F]+$/i]. *)
Definition isHexadecimal (s : string) : bool :=
  let digits l := match l with [] => false | _ :: _ => forallb is_hex l end in
  let chars := list_ascii_of_string s in
  digits chars ||
  match chars with
  | z :: x :: rest =>
      Ascii.eqb z "0"
      && existsb (Ascii.eqb x) ["x"; "X"; "h"; "H"]%char
      && digits rest
  | _ => false
  end.

(** [isMongoId]: [isHexadecimal(str) && str.length === 24]. *)
Definition isMongoId (s : string) : bool :=
  isHexadecimal s && (String.length s =? 24)%nat.

(** [isLength({ min, max })] counts characters; the model counts bytes,
    which is the same count on text within ASCII. *)
Definition isLength (min max : nat) (s : string) : bool :=
  ((min <=? String.length s) && (String.length s <=? max))%nat.

Definition passes (c : Check) (s : string) : bool :=
  match c with
  | IsLength min max => isLength min max s
  | IsMongoId => isMongoId s
  end.

Definition get (l : Location) (p : string) (req : Request) : option string :=
  match l with
  | InBody => body req !! p
  | InParams => params req !! p
  end.

Definition set (l : Location) (p : string) (v : string) (req : Request) : Request :=
  match l with
  | InBody =>
      {| authorization := authorization req; params := params req;
         body := <[p := v]> (body req); body_comments := body_comments req;
         user := user req |}
  | InParams =>
      {| authorization := authorization req; params := <[p := v]> (params req);
         body := body req; body_comments := body_comments req;
         user := user req |}
  end.

(** Running one chain as a middleware: an optional chain is skipped when
    its field is absent; a sanitizer replaces the field in the request by
    its sanitized value; the check sees the sanitized value and, when it
    fails, a violation is recorded. *)
Definition run_chain (st : Request * list Violation) (r : Rule)
  : Request * list Violation :=
  let (req, errors) := st in
  match get (location r) (path r) req, optional r with
  | None, true => (req, errors)
  | value, _ =>
      let sanitized :=
        if trim r then Some (trim_string (toString value)) else value in
      let req' :=
        if trim r then set (location r) (path r) (trim_string (toString value)) req
        else req in
      if passes (check r) (toString sanitized) then (req', errors)
      else (req', errors ++ [ {| v_type := "field"; v_path := path r;
                                 v_msg := withMessage r; v_value := sanitized |} ])
  end.

Definition run (rules : list Rule) (req : Request) : Request * list Violation :=
  fold_left run_chain rules (req, []).

Definition json_of_value (v : option string) : Json :=
  match v with Some s => JStr s | None => JUndefined end.

(** Modelled from the spec: the [{ field, message, value }] triple that
    [handleValidationErrors] builds from an entry; an entry that is not a
    field error is reported under "unknown" without a value, as the
    middleware's test-suite asserts. *)
Definition format (e : Violation) : Json :=
  let is_field := String.eqb (v_type e) "field" in
  JObj [("field", if is_field then JStr (v_path e) else JStr "unknown");
        ("message", JStr (v_msg e));
        ("value", if is_field then json_of_value (v_value e) else JUndefined)].

(** Modelled from the spec: [handleValidationErrors], whose source file
    (handle.middleware) is missing from the repository sources; on any
    violation it answers 400 with the uniform envelope and does not call
    [next], otherwise it calls [next] and leaves the request alone. *)
Definition handleValidationErrors (errors : list Violation) (req : Request)
  : Request * list Effect :=
  match errors with
  | [] => (req, [NextCalled])
  | _ :: _ =>
      (req, [Status 400;
             SendJson (JObj [("message", JStr "Validation errors");
                             ("errors", JArr (List.map format errors))])])
  end.

(** A validation array of a route: its chains, then
    [handleValidationErrors]. *)
Definition validate (rules : list Rule) (req : Request) : Request * list Effect :=
  let (req', errors) := run rules req in handleValidationErrors errors req'.

Definition chain (l : Location) (p : string) (opt tr : bool) (c : Check) (msg : string) : Rule :=
  {| location := l; path := p; optional := opt; trim := tr; check := c;
     withMessage := msg |}.

End Validator.

Module postValidations.
Import Validator.

Definition create : list Rule :=
  [ chain InBody "title" false true (IsLength 1 100)
      "Title must be between 1 and 100 characters";
    chain InBody "content" false true (IsLength 1 5000)
      "Content must be between 1 and 5000 characters";
    chain InBody "author" false false IsMongoId "Invalid user ID format";
    chain InBody "genre" false true (IsLength 1 20)
      "Genre must be between 1 and 20 characters" ].

Definition update : list Rule :=
  [ chain InBody "title" true true (IsLength 1 100)
      "Title must be between 1 and 100 characters";
    chain InBody "genre" true true (IsLength 1 20)
      "Genre must be between 1 and 20 characters";
    chain InBody "content" true true (IsLength 1 5000)
      "Content must be between 1 and 5000 characters" ].

Definition id : list Rule :=
  [ chain InParams "id" false false IsMongoId "Invalid post ID format" ].

Definition userId : list Rule :=
  [ chain InParams "userId" false false IsMongoId "Invalid user ID format" ].

End postValidations.

Module commentValidations.
Import Validator.

Definition create : list Rule :=
  [ chain InBody "content" false true (IsLength 1 100)
      "Content must be between 1 and 100 characters";
    chain InBody "author" false false IsMongoId "Invalid user ID format";
    chain InBody "post" false false IsMongoId "Invalid post ID format" ].

Definition update : list Rule :=
  [ chain InBody "content" false true (IsLength 1 100)
      "Content must be between 1 and 100 characters" ].

Definition id : list Rule :=
  [ chain InParams "id" false false IsMongoId "Invalid comment ID format" ].

Definition userId : list Rule :=
  [ chain InParams "userId" false false IsMongoId "Invalid user ID format" ].

End commentValidations.

(** ** Authentication service *)

Record UserLoginInput := { email : string; password : string }.
Record UserLoginOutput := { out_id : string; out_roles : list string; token : string }.

(** The authentication service. *)
Module AuthService.
Section WithLibraries.
(** [bcrypt.compare(plain, hash)]. *)
Variable bcrypt_compare : string -> string -> bool.
(** [jwt.sign(payload, secret, { expiresIn })]. *)
Variable jwt_sign : Json -> string -> string -> string.
Variable JWT_SECRET : option string.

Definition payload (u : UserDocument) : Json :=
  JObj [("id", JStr (u_id u)); ("roles", JArr (List.map JStr (u_roles u)))].

(** Modelled from the spec: [AuthService.generateToken], whose source file
    is missing from the repository sources; a pure function from the
    user's id and roles to a token signed with the configured secret and a
    one-hour expiry, with the [jwt.sign] call that the test-suite pins. *)
Definition generateToken (u : UserDocument) : string :=
  jwt_sign (payload u) (secret_or_default JWT_SECRET) "1h".

(** Modelled from the spec: [AuthService.login], whose source file is
    missing from the repository sources; the lookup by email including the
    hash, the comparison, and the two failures with the same error follow
    the spec's section on the auth service and the service's test-suite. *)
Definition login (userLogin : UserLoginInput) : Service UserLoginOutput :=
  (await userExists <- UserService.findByEmail (email userLogin) true;
   match userExists with
   | None => throw (ReferenceError "Not Authorized")
   | Some u =>
       if bcrypt_compare (password userLogin) (u_password u)
       then ret {| out_id := u_id u; out_roles := u_roles u;
                   token := generateToken u |}
       else throw (ReferenceError "Not Authorized")
   end)%service.

End WithLibraries.
End AuthService.

(** ** Routers *)

(** The middlewares that the routers put in front of a controller. *)
Inductive Guard :=
| authMiddleware
| checkRole (role : string)
| validations (rules : list Validator.Rule).

Record Route := {
  verb : string;
  pattern : string;
  guards : list Guard;
  controller : string
}.

Module postRouter.
Definition router : list Route :=
  [ {| verb := "GET"; pattern := "/user/:userId";
       guards := [authMiddleware; checkRole UserRole.ADMIN;
                  validations postValidations.userId];
       controller := "postController.getByAuthorId" |};
    {| verb := "GET"; pattern := "/genre/:genre";
       guards := [authMiddleware];
       controller := "postController.getByGenre" |};
    {| verb := "GET"; pattern := "/";
       guards := [authMiddleware];
       controller := "postController.getAll" |};
    {| verb := "GET"; pattern := "/:id";
       guards := [authMiddleware; checkRole UserRole.ADMIN;
                  validations postValidations.id];
       controller := "postController.getOne" |};
    {| verb := "POST"; pattern := "/";
       guards := [authMiddleware; checkRole UserRole.ADMIN;
                  validations postValidations.create];
       controller := "postController.create" |};
    {| verb := "PUT"; pattern := "/:id";
       guards := [authMiddleware; checkRole UserRole.ADMIN;
                  validations postValidations.id; validations postValidations.update];
       controller := "postController.update" |};
    {| verb := "DELETE"; pattern := "/:id";
       guards := [authMiddleware; checkRole UserRole.ADMIN;
                  validations postValidations.id];
       controller := "postController.delete" |} ].
End postRouter.

Module commentRouter.
Definition router : list Route :=
  [ {| verb := "GET"; pattern := "/user/:userId";
       guards := [authMiddleware; checkRole UserRole.USER;
                  validations commentValidations.userId];
       controller := "commentController.getByAuthorId" |};
    {| verb := "GET"; pattern := "/";
       guards := [authMiddleware; checkRole UserRole.ADMIN];
       controller := "commentController.getAll" |};
    {| verb := "GET"; pattern := "/:id";
       guards := [authMiddleware; validations commentValidations.id];
       controller := "commentController.getOne" |};
    {| verb := "POST"; pattern := "/";
       guards := [authMiddleware; checkRole UserRole.USER;
                  validations commentValidations.create];
       controller := "commentController.create" |};
    {| verb := "PUT"; pattern := "/:id";
       guards := [authMiddleware; checkRole UserRole.USER;
                  validations commentValidations.id;
                  validations commentValidations.update];
       controller := "commentController.update" |};
    {| verb := "DELETE"; pattern := "/:id";
       guards := [authMiddleware; checkRole UserRole.USER;
                  validations commentValidations.id];
       controller := "commentController.delete" |} ].
End commentRouter.

(** Express runs the handlers of a route in order; a handler that does not
    call [next] ends the request. *)
Module Express.
Section WithTokenLibrary.
Variable jwt_verify : string -> string -> option Principal.
Variable JWT_SECRET : option string.

Definition run_guard (g : Guard) (req : Request) : Request * list Effect :=
  match g with
  | authMiddleware => AuthMiddleware.authMiddleware jwt_verify JWT_SECRET req
  | checkRole role => PreAuthorize.checkRole role req
  | validations rules => Validator.validate rules req
  end.

(** The request as the controller receives it, or [None] when a guard has
    answered; with the effects of the guards that ran. *)
Fixpoint run_guards (gs : list Guard) (req : Request) : option Request * list Effect :=
  match gs with
  | [] => (Some req, [])
  | g :: rest =>
      let (req', trace) := run_guard g req in
      if (0 <? count_next trace)%nat
      then let (reached, trace') := run_guards rest req' in (reached, trace ++ trace')
      else (None, trace)
  end.

End WithTokenLibrary.
End Express.

(** ** Seeding of the store at start-up *)

Record UserInput := {
  ui_name : string;
  ui_email : string;
  ui_password : string;
  ui_roles : list string
}.

Module UserModel.
Definition document (env : Env) (i : UserInput) : UserDocument :=
  {| u_id := fresh env; u_name := ui_name i; u_email := ui_email i;
     u_password := ui_password i; u_roles := ui_roles i;
     u_createdAt := now env; u_updatedAt := now env; u_deletedAt := None |}.

(** [enum: Object.values(UserRole)] on the elements of [roles]. *)
Definition valid_role (r : string) : bool :=
  String.eqb r UserRole.ADMIN || String.eqb r UserRole.USER.

(** [UserModel.create]: the schema validation of the required paths and of
    the role enum, then the insertion, which the unique index on [email]
    refuses for an email that a stored user already has. *)
Definition create (env : Env) (i : UserInput) : Service UserDocument :=
  match missing_paths [("name", ui_name i); ("email", ui_email i);
                       ("password", ui_password i)]
        ++ (if forallb valid_role (ui_roles i) then [] else ["roles"]) with
  | [] =>
      (await clash <- query (fun db =>
           Model.findOne (fun u => String.eqb (u_email u) (ui_email i)) (users db));
       match clash with
       | Some _ => throw (MongoServerError "E11000 duplicate key error")
       | None =>
           await _ <- modify (set_users (Model.insert (document env i)));
           ret (document env i)
       end)%service
  | p :: ps => throw (ValidationError (String.concat ", " (p :: ps)))
  end.
End UserModel.

(** What the start-up writes to the console. *)
Inductive LogLine :=
| Info (line : string)
| Failure (e : Error).

Module ConnectionDB.
Section WithBcrypt.
(** [bcrypt.hash(plain, rounds)]. *)
Variable bcrypt_hash : string -> nat -> string.

Definition adminEmail : string := "admin@demo.com".
Definition userEmail : string := "user@demo.com".

Definition by_email (e : string) (u : UserDocument) : bool := String.eqb (u_email u) e.

(** The first block of the callback of [mongoose.connect(...).then]: the
    admin account is looked up by email and created when the lookup finds
    nothing.  The service resolves to the line logged. *)
Definition seedAdmin (env : Env) : Service LogLine :=
  (await admin <- query (fun db => Model.findOne (by_email adminEmail) (users db));
   match admin with
   | None =>
       await created <- UserModel.create env
                          {| ui_name := "Admin"; ui_email := adminEmail;
                             ui_password := bcrypt_hash "Admin123" 10;
                             ui_roles := [UserRole.ADMIN] |};
       ret (Info ("Admin: " +:+ u_id created))
   | Some _ => ret (Info ("Admin already exists with " +:+ adminEmail))
   end)%service.

(** The second block: the same for the user account. *)
Definition seedUser (env : Env) : Service LogLine :=
  (await user <- query (fun db => Model.findOne (by_email userEmail) (users db));
   match user with
   | None =>
       await created <- UserModel.create env
                          {| ui_name := "User"; ui_email := userEmail;
                             ui_password := bcrypt_hash "User123" 10;
                             ui_roles := [UserRole.USER] |};
       ret (Info ("User: " +:+ u_id created))
   | Some _ => ret (Info ("User already exists with " +:+ userEmail))
   end)%service.

(** The whole promise [db], with its
    [.catch((error) => console.error(error))]: a rejection ends the
    callback, is logged, and leaves the store as the failed step left it. *)
Definition db (envAdmin envUser : Env) (store : Db) : list LogLine * Db :=
  match seedAdmin envAdmin store with
  | (Throw e, store1) => ([Info "Connected to MongoDB"; Failure e], store1)
  | (Ok line1, store1) =>
      match seedUser envUser store1 with
      | (Throw e, store2) => ([Info "Connected to MongoDB"; line1; Failure e], store2)
      | (Ok line2, store2) => ([Info "Connected to MongoDB"; line1; line2], store2)
      end
  end.

End WithBcrypt.
End ConnectionDB.

(** ** A small store and a few requests to run the handlers on *)

Module Sample.

Definition alice_id : ObjectId := "64b0000000000000000000a1".
Definition bob_id : ObjectId := "64b0000000000000000000b2".
Definition post1_id : ObjectId := "64b0000000000000000001f1".
Definition post2_id : ObjectId := "64b0000000000000000002f2".
Definition comment1_id : ObjectId := "64b0000000000000000001c1".
Definition unknown_id : ObjectId := "64b000000000000000000fff".

(** An active user. *)
Definition alice : UserDocument :=
  {| u_id := alice_id; u_name := "Alice"; u_email := "user@demo.com";
     u_password := "hash(User123)"; u_roles := [UserRole.USER];
     u_createdAt := 10%Z; u_updatedAt := 10%Z; u_deletedAt := None |}.

(** A soft-deleted user. *)
Definition bob : UserDocument :=
  {| u_id := bob_id; u_name := "Bob"; u_email := "bob@demo.com";
     u_password := "hash(Bob123)"; u_roles := [UserRole.USER];
     u_createdAt := 11%Z; u_updatedAt := 50%Z; u_deletedAt := Some 50%Z |}.

(** An active post that lists one comment. *)
Definition post1 : PostDocument :=
  {| p_id := post1_id; p_title := "Rocq"; p_content := "Proofs";
     p_author := alice_id; p_genre := "Tech"; p_comments := [comment1_id];
     p_createdAt := 20%Z; p_updatedAt := 30%Z; p_deletedAt := None |}.

(** A soft-deleted post. *)
Definition post2 : PostDocument :=
  {| p_id := post2_id; p_title := "Soup"; p_content := "Recipe";
     p_author := alice_id; p_genre := "Cooking"; p_comments := [];
     p_createdAt := 21%Z; p_updatedAt := 60%Z; p_deletedAt := Some 60%Z |}.

Definition comment1 : CommentDocument :=
  {| c_id := comment1_id; c_content := "Nice"; c_author := alice_id;
     c_post := post1_id; c_createdAt := 30%Z; c_updatedAt := 30%Z;
     c_deletedAt := None |}.

Definition db : Db :=
  {| users := [alice; bob]; posts := [post1; post2]; comments := [comment1] |}.

Definition env : Env := {| now := 1000%Z; fresh := "64b0000000000000000009e9" |}.
Definition later : Env := {| now := 2000%Z; fresh := "64b0000000000000000009ea" |}.

Definition request (auth : option string) (ps bd : list (string * string))
  (u : option Principal) : Request :=
  {| authorization := auth; params := list_to_map ps; body := list_to_map bd;
     body_comments := []; user := u |}.

Definition alice_principal : Principal :=
  {| user_id := Some alice_id; user_roles := RolesArray [UserRole.USER] |}.

(** A token library that accepts exactly one token. *)
Definition jwt_verify (token secret : string) : option Principal :=
  if String.eqb token "good.token" && String.eqb secret "defaultSecret"
  then Some alice_principal else None.

Definition bcrypt_compare (plain hash : string) : bool :=
  String.eqb ("hash(" +:+ plain +:+ ")") hash.

Definition jwt_sign (payload : Json) (secret expiresIn : string) : string :=
  "signed:" +:+ secret +:+ ":" +:+ expiresIn.

End Sample.

(** ** Vocabulary of the properties *)

(** The update [{ deletedAt: d }] keeps the identifier and sets the field. *)
Class DocumentLaws (D : Type) `{Document D} := {
  doc_id_set_deletedAt : forall d x, doc_id (set_deletedAt d x) = doc_id x;
  deletedAt_set_deletedAt : forall d x, deletedAt (set_deletedAt d x) = Some d
}.

(** What [delete(id)] does on one collection when it is handed the
    rendering of an ObjectId: it resolves, to [true] exactly when the
    collection holds a document with the identifier; on [false] the store is
    as before; on [true] the document found is the one now stored with
    [deletedAt] set to the current time, so that a further [delete] of the
    same identifier resolves to [true] again. *)
Definition soft_delete_spec {D : Type} `{Document D}
  (coll : Db -> list D) (delete : Env -> ObjectId -> Service bool) : Prop :=
  forall env id db, canonical id = true -> exists b db',
    delete env id db = (Ok b, db') /\
    (b = true <-> exists d, In d (coll db) /\ doc_id d = id) /\
    (b = false -> db' = db) /\
    (b = true -> exists d, Model.findById id (coll db) = Some d /\
                  Model.findById id (coll db') = Some (set_deletedAt (now env) d)) /\
    (b = true -> forall env', fst (delete env' id db') = Ok true).

(** The header field contains a space. *)
Fixpoint has_space (s : string) : bool :=
  match s with
  | EmptyString => false
  | String c rest => Ascii.eqb c " " || has_space rest
  end.



(** A genre of ASCII characters none of which has a meaning in the pattern
    syntax. *)
Fixpoint plain (s : string) : bool :=
  match s with
  | EmptyString => true
  | String c rest =>
      negb (Regex.is_meta c) && (Regex.code c <? 128)%N && plain rest
  end.


Module ValidatorSpec.
Import Validator.

(** The field a chain works on. *)
Definition target (r : Rule) : Location * string := (location r, path r).

(** An optional chain is skipped on a request that lacks its field. *)
Definition skipped (req : Request) (r : Rule) : bool :=
  optional r && match get (location r) (path r) req with None => true | Some _ => false end.

(** The value that the check of a chain is applied to. *)
Definition sanitized (req : Request) (r : Rule) : option string :=
  if trim r then Some (trim_string (toString (get (location r) (path r) req)))
  else get (location r) (path r) req.

(** The request violates the rule: the chain is not skipped and its check
    fails on the sanitized value. *)
Definition violates (req : Request) (r : Rule) : bool :=
  negb (skipped req r) && negb (passes (check r) (toString (sanitized req r))).

(** The [{ field, message, value }] triple reported for a violated rule. *)
Definition entry (req : Request) (r : Rule) : Json :=
  JObj [("field", JStr (path r)); ("message", JStr (withMessage r));
        ("value", json_of_value (sanitized req r))].

Definition envelope (entries : list Json) : Json :=
  JObj [("message", JStr "Validation errors"); ("errors", JArr entries)].

(** What the sanitizer of one chain leaves in the request. *)
Definition sanitize_one (req : Request) (r : Rule) : Request :=
  if skipped req r then req
  else if trim r
       then set (location r) (path r)
                (trim_string (toString (get (location r) (path r) req))) req
       else req.

Definition sanitize (rules : list Rule) (req : Request) : Request :=
  fold_left sanitize_one rules req.

(** The values that the chains of the array look at are text within
    ASCII, where the lengths and the white space of the model are those of
    the validation library. *)
Definition ascii_fields (rules : list Rule) (req : Request) : bool :=
  forallb (fun r => ascii_text (toString (get (location r) (path r) req))) rules.

(** No sanitizer has anything to remove from the request. *)
Definition clean (req : Request) (r : Rule) : Prop :=
  trim r = true ->
  skipped req r = true \/
  exists s, get (location r) (path r) req = Some s /\ trim_string s = s.

End ValidatorSpec.

(** The body carries keys of the input interface and no other. *)
Definition only_keys (allowed : list string) (m : gmap string string) : bool :=
  forallb (fun kv => existsb (String.eqb (fst kv)) allowed) (map_to_list m).

(** Identifiers are unique within each collection, as the store's [_id]
    index has it. *)
Definition unique_ids (db : Db) : Prop :=
  List.NoDup (List.map u_id (users db)) /\
  List.NoDup (List.map p_id (posts db)) /\
  List.NoDup (List.map c_id (comments db)).


(** The list a call resolves to; nothing where it rejects. *)
Definition resolved {A : Type} (r : Result (list A) * Db) : list A :=
  match fst r with
  | Ok l => l
  | Throw _ => []
  end.

(** The two accounts that the start-up creates, given the hash function. *)
Definition adminInput (bcrypt_hash : string -> nat -> string) : UserInput :=
  {| ui_name := "Admin"; ui_email := ConnectionDB.adminEmail;
     ui_password := bcrypt_hash "Admin123" 10; ui_roles := [UserRole.ADMIN] |}.

Definition userInput (bcrypt_hash : string -> nat -> string) : UserInput :=
  {| ui_name := "User"; ui_email := ConnectionDB.userEmail;
     ui_password := bcrypt_hash "User123" 10; ui_roles := [UserRole.USER] |}.

(** * Properties *)

(** ** The inputs that the properties are stated for *)

(** The rendering of an ObjectId passes [isMongoId], so a request with such
    an identifier gets through the validation of the routes.  The check
    lets more through: other spellings of the digits, which the driver
    casts to the same ObjectId, and the prefixed form, which it refuses. *)
Lemma canonical_isMongoId (id : string) :
  canonical id = true -> Validator.isMongoId id = true.
Proof.
  unfold canonical, Validator.isMongoId, Validator.isHexadecimal.
  intros Hc. apply andb_true_iff in Hc. destruct Hc as [Hlen Hhex].
  rewrite Hlen, andb_true_r. apply orb_true_iff. left.
  assert (Hall : forallb Validator.is_hex (list_ascii_of_string id) = true).
  { apply forallb_forall. intros c Hin.
    pose proof (proj1 (forallb_forall _ _) Hhex c Hin) as Hlow.
    unfold is_lower_hex in Hlow. unfold Validator.is_hex.
    apply orb_true_iff in Hlow. destruct Hlow as [-> | ->]; [reflexivity|].
    apply orb_true_r. }
  destruct (list_ascii_of_string id) as [|c l] eqn:E; [|exact Hall].
  destruct id; [discriminate Hlen|discriminate E].
Qed.

Example identifiers_and_isMongoId :
  canonical Sample.alice_id = true /\
  canonical "64B0000000000000000000A1" = false /\
  Validator.isMongoId "64B0000000000000000000A1" = true /\
  canonical "0x64b00000000000000000a1" = false /\
  Validator.isMongoId "0x64b00000000000000000a1" = true /\
  canonical "me" = false /\
  Validator.isMongoId "me" = false.
Proof. repeat split. Qed.

Lemma printable_ascii_text (s : string) : printable s = true -> ascii_text s = true.
Proof.
  unfold printable, ascii_text. intros Hp. apply forallb_forall. intros c Hin.
  pose proof (proj1 (forallb_forall _ _) Hp c Hin) as Hc. simpl in Hc.
  apply andb_true_iff in Hc. destruct Hc as [_ Hc].
  apply N.ltb_lt in Hc. apply N.ltb_lt. lia.
Qed.

(** A body with a [deletedAt] key is not one of the interface. *)
Example only_keys_examples :
  only_keys ["content"; "author"; "post"]
    (list_to_map [("content", "Hi"); ("author", Sample.alice_id)]) = true /\
  only_keys ["content"; "author"; "post"]
    (list_to_map [("content", "Hi"); ("deletedAt", "2020-01-01")]) = false.
Proof. split; reflexivity. Qed.

(** ** The model layer *)

#[export] Instance UserDocLaws : DocumentLaws UserDocument.
Proof. split; reflexivity. Qed.
#[export] Instance PostDocLaws : DocumentLaws PostDocument.
Proof. split; reflexivity. Qed.
#[export] Instance CommentDocLaws : DocumentLaws CommentDocument.
Proof. split; reflexivity. Qed.

Section ModelFacts.
Context {D : Type} `{DocumentLaws D}.

Lemma not_deleted_true (d : D) : Model.not_deleted d = true <-> deletedAt d = None.
Proof. unfold Model.not_deleted. destruct (deletedAt d); split; congruence. Qed.

Lemma find_not_deleted_In (coll : list D) (d : D) :
  In d (Model.find Model.not_deleted coll) <-> In d coll /\ deletedAt d = None.
Proof. unfold Model.find. rewrite filter_In, not_deleted_true. reflexivity. Qed.

Lemma by_id_true (id : ObjectId) (d : D) : Model.by_id id d = true <-> doc_id d = id.
Proof. unfold Model.by_id. apply String.eqb_eq. Qed.

Lemma findById_Some (id : ObjectId) (coll : list D) (d : D) :
  Model.findById id coll = Some d -> In d coll /\ doc_id d = id.
Proof.
  unfold Model.findById, Model.findOne. intros Hf.
  apply find_some in Hf. rewrite by_id_true in Hf. exact Hf.
Qed.

Lemma findById_None (id : ObjectId) (coll : list D) :
  Model.findById id coll = None <-> forall d, In d coll -> doc_id d <> id.
Proof.
  unfold Model.findById, Model.findOne. split.
  - intros Hf d Hin Hid. apply (find_none _ _ Hf) in Hin.
    apply by_id_true in Hid. congruence.
  - intros Hall. induction coll as [|d coll IH]; [reflexivity|]. simpl.
    destruct (Model.by_id id d) eqn:E.
    + apply by_id_true in E. exfalso. apply (Hall d); [left; reflexivity | exact E].
    + apply IH. intros d' Hin. apply Hall. right. exact Hin.
Qed.

Lemma findById_is_Some (id : ObjectId) (coll : list D) :
  (exists d, Model.findById id coll = Some d) <-> exists d, In d coll /\ doc_id d = id.
Proof.
  split.
  - intros [d Hd]. exists d. apply findById_Some. exact Hd.
  - intros [d [Hin Hid]]. destruct (Model.findById id coll) eqn:E; [eauto|].
    exfalso. rewrite findById_None in E. exact (E d Hin Hid).
Qed.

Lemma updateOne_no_match (q : D -> bool) (u : D -> D) (coll : list D) :
  (forall d, In d coll -> q d = false) -> Model.updateOne q u coll = coll.
Proof.
  induction coll as [|d coll IH]; intros Hq; [reflexivity|]. simpl.
  rewrite (Hq d) by (left; reflexivity). f_equal. apply IH.
  intros d' Hin. apply Hq. right. exact Hin.
Qed.

Lemma updateOne_findById_None (id : ObjectId) (u : D -> D) (coll : list D) :
  Model.findById id coll = None -> Model.updateOne (Model.by_id id) u coll = coll.
Proof.
  intros Hf. apply updateOne_no_match. intros d Hin.
  rewrite findById_None in Hf. specialize (Hf d Hin).
  destruct (Model.by_id id d) eqn:E; [|reflexivity].
  apply by_id_true in E. contradiction.
Qed.

(** After [findByIdAndUpdate(id, { deletedAt: t })] the document is still
    found under its identifier, now carrying the date. *)
Lemma findById_after_soft_delete (id : ObjectId) (t : Date) (coll : list D) :
  Model.findById id (Model.updateOne (Model.by_id id) (set_deletedAt t) coll)
  = option_map (set_deletedAt t) (Model.findById id coll).
Proof.
  unfold Model.findById, Model.findOne.
  induction coll as [|d coll IH]; [reflexivity|]. simpl.
  destruct (Model.by_id id d) eqn:E; simpl.
  - unfold Model.by_id in *. rewrite doc_id_set_deletedAt, E. reflexivity.
  - rewrite E. exact IH.
Qed.

End ModelFacts.

(** Identifiers are unique within a collection, so the document found under
    an identifier is the only one carrying it. *)
Lemma findById_unique {D : Type} `{DocumentLaws D} (id : ObjectId) (coll : list D) (d : D) :
  List.NoDup (List.map doc_id coll) ->
  Model.findById id coll = Some d ->
  forall d', In d' coll -> doc_id d' = id -> d' = d.
Proof.
  unfold Model.findById, Model.findOne.
  induction coll as [|x coll IH]; simpl; intros Hnd Hf d' Hin Hid; [contradiction|].
  inversion Hnd as [|? ? Hnotin Hnd']; subst.
  destruct (Model.by_id (doc_id d') x) eqn:E.
  - injection Hf as <-. destruct Hin as [->|Hin]; [reflexivity|].
    exfalso. apply Hnotin. apply by_id_true in E. rewrite E.
    apply in_map. exact Hin.
  - destruct Hin as [->|Hin].
    + unfold Model.by_id in E. rewrite String.eqb_refl in E. discriminate.
    + apply (IH Hnd' Hf d' Hin eq_refl).
Qed.

Lemma set_posts_id (db : Db) : set_posts (fun _ => posts db) db = db.
Proof. destruct db; reflexivity. Qed.
Lemma set_comments_id (db : Db) : set_comments (fun _ => comments db) db = db.
Proof. destruct db; reflexivity. Qed.
Lemma set_users_id (db : Db) : set_users (fun _ => users db) db = db.
Proof. destruct db; reflexivity. Qed.

(** ** Soft delete and the read queries *)

(** C1, counterexample.  The post [Sample.post2] carries a [deletedAt] date
    and [getById] still resolves to it, not to [null]. *)
Lemma C1_getById_returns_soft_deleted_post :
  p_deletedAt Sample.post2 = Some 60%Z /\
  fst (PostService.getById Sample.post2_id Sample.db)
  = Ok (Some (populate_post Sample.db Sample.post2)).
Proof. split; reflexivity. Qed.

(** C1, as amended.  For posts and comments, the two resources whose
    service is in the sources: [getAll] leaves the store untouched and
    resolves to exactly the documents whose [deletedAt] is null.
    [getById], handed the rendering of an ObjectId, looks at the
    identifier only and never writes: it resolves to [null] exactly when
    no document of the collection has the identifier; when one has it, it
    resolves to the populated form of a document with that identifier,
    soft-deleted or not, which is that very document where identifiers are
    unique. *)
Theorem C1_getAll_filters_getById_does_not (db : Db) (id : ObjectId) :
  canonical id = true ->
  (exists ps, PostService.getAll db = (Ok ps, db) /\
     forall p, In p (List.map pp_doc ps) <-> In p (posts db) /\ p_deletedAt p = None) /\
  (exists cs, CommentService.getAll db = (Ok cs, db) /\
     forall c, In c (List.map pc_doc cs) <-> In c (comments db) /\ c_deletedAt c = None) /\
  (PostService.getById id db = (Ok None, db) <->
     forall p, In p (posts db) -> p_id p <> id) /\
  (forall p, In p (posts db) -> p_id p = id ->
     exists q, In q (posts db) /\ p_id q = id /\
       PostService.getById id db = (Ok (Some (populate_post db q)), db) /\
       (List.NoDup (List.map p_id (posts db)) -> q = p)) /\
  (CommentService.getById id db = (Ok None, db) <->
     forall c, In c (comments db) -> c_id c <> id) /\
  (forall c, In c (comments db) -> c_id c = id ->
     exists q, In q (comments db) /\ c_id q = id /\
       CommentService.getById id db = (Ok (Some (populate_comment db q)), db) /\
       (List.NoDup (List.map c_id (comments db)) -> q = c)).
Proof.
  intros _. split; [|split; [|split; [|split; [|split]]]].
  - eexists. split; [reflexivity|]. intros p.
    rewrite map_map. simpl. rewrite map_id.
    pose proof (find_not_deleted_In (posts db) p) as X. exact X.
  - eexists. split; [reflexivity|]. intros c.
    rewrite map_map. simpl. rewrite map_id.
    pose proof (find_not_deleted_In (comments db) c) as X. exact X.
  - unfold PostService.getById, query.
    pose proof (findById_None id (posts db)) as HN. rewrite <- HN.
    destruct (Model.findById id (posts db)); simpl; split; congruence.
  - intros p Hin Hid. unfold PostService.getById, query.
    destruct (Model.findById id (posts db)) as [q|] eqn:E.
    + pose proof (findById_Some id (posts db) q E) as [Hq Hqid].
      exists q. split; [exact Hq|]. split; [exact Hqid|]. split; [reflexivity|].
      intros Hnd. symmetry.
      exact (findById_unique id (posts db) q Hnd E p Hin Hid).
    + exfalso. pose proof (proj1 (findById_None id (posts db)) E p Hin) as Hne.
      exact (Hne Hid).
  - unfold CommentService.getById, query.
    pose proof (findById_None id (comments db)) as HN. rewrite <- HN.
    destruct (Model.findById id (comments db)); simpl; split; congruence.
  - intros c Hin Hid. unfold CommentService.getById, query.
    destruct (Model.findById id (comments db)) as [q|] eqn:E.
    + pose proof (findById_Some id (comments db) q E) as [Hq Hqid].
      exists q. split; [exact Hq|]. split; [exact Hqid|]. split; [reflexivity|].
      intros Hnd. symmetry.
      exact (findById_unique id (comments db) q Hnd E c Hin Hid).
    + exfalso. pose proof (proj1 (findById_None id (comments db)) E c Hin) as Hne.
      exact (Hne Hid).
Qed.

(** C1 on the sample store: [getById] of the soft-deleted [Sample.post2]
    resolves to that post. *)
Lemma C1_witness :
  PostService.getById Sample.post2_id Sample.db
  = (Ok (Some (populate_post Sample.db Sample.post2)), Sample.db).
Proof.
  destruct (C1_getAll_filters_getById_does_not Sample.db Sample.post2_id eq_refl)
    as (_ & _ & _ & Hfound & _).
  destruct (Hfound Sample.post2) as (q & _ & _ & Hrun & Hsame).
  - right. left. reflexivity.
  - reflexivity.
  - rewrite Hrun, Hsame; [reflexivity|].
    repeat (apply List.NoDup_cons || apply List.NoDup_nil); simpl; intuition discriminate.
Defined.

(** The three [delete] methods share their shape, and so do the proofs:
    case on whether [findById] finds the identifier in the collection, with
    [reset] the fact that writing a collection back unchanged leaves the
    store as it was. *)
Ltac soft_delete_cases id coll env reset :=
  let HS := fresh "HS" in
  let HA := fresh "HA" in
  let E := fresh "E" in
  let d := fresh "d" in
  pose proof (findById_is_Some id coll) as HS;
  pose proof (findById_after_soft_delete id (now env) coll) as HA;
  destruct (Model.findById id coll) as [d|] eqn:E;
  [ exists true; eexists; split; [reflexivity|]; split; [|split; [|split]];
    [ split; [intros _; apply (proj1 HS); eauto | reflexivity]
    | discriminate
    | intros _; exists d; split; [reflexivity | exact HA]
    | intros _ ?; simpl; simpl in HA; rewrite HA; reflexivity ]
  | exists false; eexists; split; [reflexivity|]; split; [|split; [|split]];
    [ split; [discriminate|]; intros Hex; apply (proj2 HS) in Hex;
      destruct Hex; discriminate
    | intros _; rewrite (updateOne_findById_None id _ coll E); apply reset
    | discriminate
    | discriminate ] ].

Lemma UserService_delete_spec : soft_delete_spec users UserService.delete.
Proof.
  intros env id db _. unfold UserService.delete, bind, ret. simpl.
  soft_delete_cases id (users db) env set_users_id.
Qed.

Lemma PostService_delete_spec : soft_delete_spec posts PostService.delete.
Proof.
  intros env id db _. unfold PostService.delete, bind, ret. simpl.
  soft_delete_cases id (posts db) env set_posts_id.
Qed.

Lemma CommentService_delete_spec : soft_delete_spec comments CommentService.delete.
Proof.
  intros env id db _. unfold CommentService.delete, bind, ret, modify. simpl.
  soft_delete_cases id (comments db) env set_comments_id.
Qed.

(** C2, counterexample.  Deleting the comment of the sample store twice
    through the controller answers 204 both times: the second call finds
    the soft-deleted document again. *)
Lemma C2_second_delete_answers_204 :
  let req := Sample.request None [("id", Sample.comment1_id)] [] None in
  let first := CommentController.delete Sample.env req Sample.db in
  fst first = [ServiceCall "commentsService.delete"; Status 204; Send] /\
  fst (CommentController.delete Sample.later req (snd first))
  = [ServiceCall "commentsService.delete"; Status 204; Send] /\
  fst (CommentService.delete Sample.later Sample.comment1_id (snd first)) = Ok true.
Proof. vm_compute. repeat split. Qed.

(** C2, as amended.  In each of the three services [delete(id)], handed
    the rendering of an ObjectId, resolves to [true] exactly when a
    document with that identifier exists, already soft-deleted or not, and
    then stamps it with the current time; it resolves to [false], leaving
    the store as it was, exactly when there is none.  The comment
    controller answers 204 in the first case and 404 in the second, so a
    repeated DELETE of an existing comment answers 204 again. *)
Theorem C2_delete_true_iff_document_exists :
  soft_delete_spec users UserService.delete /\
  soft_delete_spec posts PostService.delete /\
  soft_delete_spec comments CommentService.delete /\
  (forall env req db,
     let id := field (params req) "id" in
     canonical id = true ->
     ((exists c, In c (comments db) /\ c_id c = id) ->
        fst (CommentController.delete env req db)
        = [ServiceCall "commentsService.delete"; Status 204; Send] /\
        forall env',
          fst (CommentController.delete env' req (snd (CommentController.delete env req db)))
          = [ServiceCall "commentsService.delete"; Status 204; Send]) /\
     ((forall c, In c (comments db) -> c_id c <> id) ->
        CommentController.delete env req db
        = ([ServiceCall "commentsService.delete"; Status 404;
            SendJson (message_body ("Comment with id " +:+ id +:+ " not found"))], db))).
Proof.
  split; [exact UserService_delete_spec|].
  split; [exact PostService_delete_spec|].
  split; [exact CommentService_delete_spec|].
  intros env req db id Hid.
  destruct (CommentService_delete_spec env id db Hid)
    as (b & db' & Hrun & Hiff & Hfalse & _ & Hagain).
  unfold CommentController.delete. fold id. rewrite Hrun. split.
  - intros Hex. apply Hiff in Hex. subst b. split; [reflexivity|].
    intros env'. cbn [snd]. specialize (Hagain eq_refl env').
    destruct (CommentService.delete env' id db') as [[[|]|e] db2]; simpl in Hagain;
      try discriminate.
    reflexivity.
  - intros Hnone. destruct b.
    + destruct (proj1 Hiff eq_refl) as (c & Hin & Hc). exfalso. exact (Hnone c Hin Hc).
    + rewrite (Hfalse eq_refl). reflexivity.
Qed.

(** C2 on the sample store: the DELETE of the one comment answers 204, and
    so does its repetition. *)
Lemma C2_witness :
  let req := Sample.request None [("id", Sample.comment1_id)] [] None in
  fst (CommentController.delete Sample.env req Sample.db)
  = [ServiceCall "commentsService.delete"; Status 204; Send] /\
  fst (CommentController.delete Sample.later req
         (snd (CommentController.delete Sample.env req Sample.db)))
  = [ServiceCall "commentsService.delete"; Status 204; Send].
Proof.
  intros req.
  destruct C2_delete_true_iff_document_exists as (_ & _ & _ & Hcontroller).
  destruct (Hcontroller Sample.env req Sample.db) as [Hfound _].
  - reflexivity.
  - destruct Hfound as [Hfirst Hagain].
    + exists Sample.comment1. split; [left; reflexivity|reflexivity].
    + split; [exact Hfirst|exact (Hagain Sample.later)].
Defined.

(** ** Reference checks on creation *)

Lemma missing_paths_one (name value : string) :
  missing_paths [(name, value)] = if String.eqb value "" then [name] else [].
Proof. unfold missing_paths. simpl. destruct (String.eqb value ""); reflexivity. Qed.

Lemma PostModel_create_throw_keeps_store env i db e db' :
  PostModel.create env i db = (Throw e, db') -> db' = db.
Proof.
  unfold PostModel.create.
  destruct (missing_paths _) as [|p ps]; unfold bind, modify, ret, throw; simpl;
    congruence.
Qed.

Lemma PostModel_create_not_reference env i db msg :
  fst (PostModel.create env i db) <> Throw (ReferenceError msg).
Proof.
  unfold PostModel.create.
  destruct (missing_paths _) as [|p ps]; unfold bind, modify, ret, throw; simpl;
    congruence.
Qed.

Lemma CommentModel_create_cases env i db :
  (ci_content i <> "" /\
   CommentModel.create env i db
   = (Ok (CommentModel.document env i),
      set_comments (Model.insert (CommentModel.document env i)) db)) \/
  (ci_content i = "" /\
   CommentModel.create env i db = (Throw (ValidationError "content"), db)).
Proof.
  unfold CommentModel.create. rewrite missing_paths_one.
  destruct (String.eqb (ci_content i) "") eqn:E.
  - right. apply String.eqb_eq in E. split; [exact E|reflexivity].
  - left. apply String.eqb_neq in E. split; [exact E|reflexivity].
Qed.

(** C3, counterexample.  The author [Sample.bob] is soft-deleted, the parent
    post [Sample.post2] is soft-deleted, and still neither creation fails:
    the post and the comment are persisted. *)
Lemma C3_soft_deleted_references_pass :
  let postInput := {| pi_title := "T"; pi_content := "C"; pi_author := Sample.bob_id;
                      pi_genre := "G"; pi_comments := [] |} in
  let commentInput := {| ci_content := "C"; ci_author := Sample.bob_id;
                         ci_post := Sample.post2_id |} in
  u_deletedAt Sample.bob = Some 50%Z /\
  p_deletedAt Sample.post2 = Some 60%Z /\
  fst (PostService.create Sample.env postInput Sample.db)
  = Ok (PostModel.document Sample.env postInput) /\
  fst (CommentService.create Sample.env commentInput Sample.db)
  = Ok (CommentModel.document Sample.env commentInput) /\
  In (CommentModel.document Sample.env commentInput)
     (comments (snd (CommentService.create Sample.env commentInput Sample.db))).
Proof. vm_compute. repeat split. right. left. reflexivity. Qed.

(** C3, as amended.  Handed renderings of ObjectIds as references:
    [Post.create] fails with the reference error "User not found" exactly
    when no user document has the author's identifier; [Comment.create]
    fails with a reference error exactly when no user document has the
    author's identifier ("User not found") or no post document has the
    parent's identifier ("Post not found").  A soft-deleted user or post
    still counts as existing.  Whenever either creation fails, the store is
    left exactly as it was: no record is created and no post's [comments]
    list is touched. *)
Theorem C3_create_fails_on_missing_reference (env : Env) (db : Db) :
  (forall i, canonical (pi_author i) = true ->
     ((forall u, In u (users db) -> u_id u <> pi_author i) ->
        PostService.create env i db = (Throw (ReferenceError "User not found"), db)) /\
     (forall msg, fst (PostService.create env i db) = Throw (ReferenceError msg) ->
        forall u, In u (users db) -> u_id u <> pi_author i) /\
     (forall e db', PostService.create env i db = (Throw e, db') -> db' = db)) /\
  (forall i, canonical (ci_author i) = true -> canonical (ci_post i) = true ->
     ((forall u, In u (users db) -> u_id u <> ci_author i) ->
        CommentService.create env i db = (Throw (ReferenceError "User not found"), db)) /\
     ((exists u, In u (users db) /\ u_id u = ci_author i) ->
      (forall p, In p (posts db) -> p_id p <> ci_post i) ->
        CommentService.create env i db = (Throw (ReferenceError "Post not found"), db)) /\
     (forall msg, fst (CommentService.create env i db) = Throw (ReferenceError msg) ->
        (forall u, In u (users db) -> u_id u <> ci_author i) \/
        (forall p, In p (posts db) -> p_id p <> ci_post i)) /\
     (forall e db', CommentService.create env i db = (Throw e, db') -> db' = db)).
Proof.
  split.
  - intros i _. pose proof (findById_None (pi_author i) (users db)) as HN.
    unfold PostService.create, bind, query, throw. simpl. split; [|split].
    + intros Hmiss. apply HN in Hmiss. rewrite Hmiss. reflexivity.
    + intros msg Hthrow.
      destruct (Model.findById (pi_author i) (users db)) eqn:E.
      * exfalso. exact (PostModel_create_not_reference _ _ _ _ Hthrow).
      * apply HN. reflexivity.
    + intros e db'. destruct (Model.findById (pi_author i) (users db)).
      * apply PostModel_create_throw_keeps_store.
      * congruence.
  - intros i _ _. pose proof (findById_None (ci_author i) (users db)) as HNu.
    pose proof (findById_None (ci_post i) (posts db)) as HNp.
    pose proof (findById_is_Some (ci_author i) (users db)) as HSu.
    unfold CommentService.create, bind, query, throw, modify, ret. simpl.
    split; [|split; [|split]].
    + intros Hmiss. apply HNu in Hmiss. rewrite Hmiss. reflexivity.
    + intros Hu Hmiss. apply HSu in Hu. destruct Hu as [u Hu].
      apply HNp in Hmiss. rewrite Hu, Hmiss. reflexivity.
    + intros msg Hthrow.
      destruct (Model.findById (ci_author i) (users db)) eqn:Eu;
        [|left; apply HNu; reflexivity].
      destruct (Model.findById (ci_post i) (posts db)) eqn:Ep;
        [|right; apply HNp; reflexivity].
      exfalso.
      destruct (CommentModel_create_cases env i db) as [[_ Hc]|[_ Hc]];
        rewrite Hc in Hthrow; simpl in Hthrow; discriminate.
    + intros e db'.
      destruct (Model.findById (ci_author i) (users db)); [|congruence].
      destruct (Model.findById (ci_post i) (posts db)); [|congruence].
      destruct (CommentModel_create_cases env i db) as [[_ Hc]|[_ Hc]];
        rewrite Hc; simpl; congruence.
Qed.

(** C3 on the sample store: an author without a document stops the
    creation of a comment, and one with a document but a parent post
    without one does so too; the store stays as it was. *)
Lemma C3_witness :
  CommentService.create Sample.env
    {| ci_content := "Hi"; ci_author := Sample.unknown_id; ci_post := Sample.post1_id |}
    Sample.db
  = (Throw (ReferenceError "User not found"), Sample.db) /\
  CommentService.create Sample.env
    {| ci_content := "Hi"; ci_author := Sample.alice_id; ci_post := Sample.unknown_id |}
    Sample.db
  = (Throw (ReferenceError "Post not found"), Sample.db).
Proof.
  destruct (C3_create_fails_on_missing_reference Sample.env Sample.db) as [_ Hcomment].
  split.
  - apply (Hcomment {| ci_content := "Hi"; ci_author := Sample.unknown_id;
                       ci_post := Sample.post1_id |} eq_refl eq_refl).
    intros u [<-|[<-|[]]]; discriminate.
  - apply (Hcomment {| ci_content := "Hi"; ci_author := Sample.alice_id;
                       ci_post := Sample.unknown_id |} eq_refl eq_refl).
    + exists Sample.alice. split; [left; reflexivity|reflexivity].
    + intros q [<-|[<-|[]]]; discriminate.
Defined.

(** C10.  When the author exists and the parent post exists but is
    soft-deleted, [Comment.create] does not fail: it resolves to the new
    comment, which carries the identifier that the store assigns, the
    content, the author and the parent of the input, and no [deletedAt];
    this comment is appended to the comments collection, while the posts
    collection stays exactly as it was, so the parent's [comments] list
    does not receive the new identifier. *)
Theorem C10_comment_on_soft_deleted_post_is_unlisted
  (env : Env) (i : CommentInput) (db : Db) (u : UserDocument) (p : PostDocument) :
  List.NoDup (List.map p_id (posts db)) ->
  Model.findById (ci_author i) (users db) = Some u ->
  Model.findById (ci_post i) (posts db) = Some p ->
  p_deletedAt p <> None ->
  ci_content i <> "" ->
  let created := CommentModel.document env i in
  (c_id created = fresh env /\ c_content created = ci_content i /\
   c_author created = ci_author i /\ c_post created = ci_post i /\
   c_post created = p_id p /\ c_deletedAt created = None) /\
  CommentService.create env i db
  = (Ok created,
     {| users := users db; posts := posts db;
        comments := comments db ++ [created] |}) /\
  Model.findById (ci_post i) (posts (snd (CommentService.create env i db))) = Some p /\
  posts (snd (CommentService.create env i db)) = posts db.
Proof.
  intros Hnd Hu Hp Hdel Hcontent created.
  assert (Hrun : CommentService.create env i db
                 = (Ok created,
                    {| users := users db; posts := posts db;
                       comments := comments db ++ [created] |})).
  { unfold CommentService.create, bind, query, modify, ret. simpl.
    rewrite Hu, Hp.
    destruct (CommentModel_create_cases env i db) as [[_ Hc]|[Hc _]]; [|contradiction].
    rewrite Hc. simpl. unfold set_posts, set_comments, Model.insert. simpl. f_equal.
    f_equal. apply updateOne_no_match. intros q Hin.
    destruct (Model.by_id (ci_post i) q) eqn:E; [|reflexivity]. simpl.
    apply by_id_true in E.
    pose proof (findById_unique (ci_post i) (posts db) p Hnd Hp q Hin E) as ->.
    unfold Model.not_deleted. simpl. destruct (p_deletedAt p); [reflexivity|contradiction]. }
  split; [|split; [exact Hrun | rewrite Hrun; split; [exact Hp|]]].
  - repeat split. symmetry. exact (proj2 (findById_Some _ _ _ Hp)).
  - reflexivity.
Qed.

(** C10 on the sample store: a comment by Alice on the soft-deleted
    [Sample.post2]. *)
Lemma C10_witness :
  let i := {| ci_content := "Late"; ci_author := Sample.alice_id;
              ci_post := Sample.post2_id |} in
  let created := CommentModel.document Sample.env i in
  c_post created = Sample.post2_id /\
  CommentService.create Sample.env i Sample.db
  = (Ok created,
     {| users := users Sample.db; posts := posts Sample.db;
        comments := comments Sample.db ++ [created] |}) /\
  Model.findById (ci_post i) (posts (snd (CommentService.create Sample.env i Sample.db)))
  = Some Sample.post2.
Proof.
  intros i created.
  destruct (C10_comment_on_soft_deleted_post_is_unlisted Sample.env i Sample.db
              Sample.alice Sample.post2)
    as ((_ & _ & _ & Hpost & _) & Hrun & Hparent & _).
  - vm_compute. repeat constructor; simpl; intuition discriminate.
  - reflexivity.
  - reflexivity.
  - discriminate.
  - discriminate.
  - split; [exact Hpost|]. split; [exact Hrun|exact Hparent].
Defined.

(** ** Ownership check of the controllers *)

Lemma strict_neq_true (x y : option string) : strict_neq x y = true <-> x <> y.
Proof.
  destruct x as [a|], y as [b|]; simpl; split; try congruence; try discriminate.
  - intros Hne Heq. injection Heq as ->. rewrite String.eqb_refl in Hne. discriminate.
  - intros Hne. destruct (String.eqb a b) eqn:E; [|reflexivity].
    apply String.eqb_eq in E. congruence.
Qed.

Lemma author_mismatch_true (req : Request) :
  author_mismatch req = true <->
  (user req = None \/ exists u, user req = Some u /\ user_id u <> body req !! "author").
Proof.
  unfold author_mismatch. destruct (user req) as [u|].
  - rewrite strict_neq_true. split.
    + intros Hne. right. exists u. split; [reflexivity|exact Hne].
    + intros [Hnone|[u' [Hu Hne]]]; [discriminate|]. injection Hu as <-. exact Hne.
  - split; [intros _; left; reflexivity | reflexivity].
Qed.

(** C6.  When no principal is attached, or the principal's id (a string or
    [undefined]) is not the body's [author], both [create] controllers
    answer 403 with [{ message: "Author mismatch" }], make no call into a
    service, and leave the store as it was. *)
Theorem C6_author_mismatch_rejected (env : Env) (req : Request) (db : Db) :
  (user req = None \/
   exists u, user req = Some u /\ user_id u <> body req !! "author") ->
  PostController.create env req db
  = ([Status 403; SendJson (message_body "Author mismatch")], db) /\
  CommentController.create env req db
  = ([Status 403; SendJson (message_body "Author mismatch")], db) /\
  service_calls (fst (PostController.create env req db)) = [] /\
  service_calls (fst (CommentController.create env req db)) = [].
Proof.
  intros Hmis. apply author_mismatch_true in Hmis.
  unfold PostController.create, CommentController.create. rewrite Hmis.
  repeat split.
Qed.

(** C6 on a principal whose id is [undefined]. *)
Lemma C6_witness :
  let req := Sample.request None []
               [("content", "Hi"); ("author", Sample.bob_id); ("post", Sample.post1_id)]
               (Some {| user_id := None; user_roles := RolesArray [UserRole.USER] |}) in
  PostController.create Sample.env req Sample.db
  = ([Status 403; SendJson (message_body "Author mismatch")], Sample.db) /\
  CommentController.create Sample.env req Sample.db
  = ([Status 403; SendJson (message_body "Author mismatch")], Sample.db) /\
  service_calls (fst (PostController.create Sample.env req Sample.db)) = [] /\
  service_calls (fst (CommentController.create Sample.env req Sample.db)) = [].
Proof.
  apply (C6_author_mismatch_rejected Sample.env
           (Sample.request None []
              [("content", "Hi"); ("author", Sample.bob_id); ("post", Sample.post1_id)]
              (Some {| user_id := None; user_roles := RolesArray [UserRole.USER] |}))
           Sample.db).
  right. eexists. split; [reflexivity|]. vm_compute. discriminate.
Defined.

(** The check is not vacuous: a principal who is the author reaches the
    service. *)
Lemma author_match_reaches_service :
  let req := Sample.request None []
               [("content", "Hi"); ("author", Sample.alice_id); ("post", Sample.post1_id)]
               (Some Sample.alice_principal) in
  service_calls (fst (CommentController.create Sample.env req Sample.db))
  = ["commentsService.create"].
Proof. vm_compute. reflexivity. Qed.

(** ** Role gate *)

(** C5.  The gate has three outcomes.  Without a principal, or with roles
    that are undefined, null or not an array, it answers 403 with
    "Access denied. No roles found.".  With an array of roles that lacks
    the required one it answers 403 with "Access denied.".  With an array
    that contains the required role, any number of times and among any
    others, it calls [next] exactly once and sends nothing.  The request
    is returned as it came in every case. *)
Theorem C5_role_gate_three_cases (requiredRole : string) (req : Request) :
  ((user req = None \/
    exists u, user req = Some u /\ forall roles, user_roles u <> RolesArray roles) ->
     PreAuthorize.checkRole requiredRole req
     = (req, [Status 403; SendJson (message_body "Access denied. No roles found.")])) /\
  (forall u roles,
     user req = Some u -> user_roles u = RolesArray roles -> ~ In requiredRole roles ->
     PreAuthorize.checkRole requiredRole req
     = (req, [Status 403; SendJson (message_body "Access denied.")])) /\
  (forall u roles,
     user req = Some u -> user_roles u = RolesArray roles -> In requiredRole roles ->
     PreAuthorize.checkRole requiredRole req = (req, [NextCalled]) /\
     count_next (snd (PreAuthorize.checkRole requiredRole req)) = 1).
Proof.
  assert (Hmem : forall roles,
             existsb (String.eqb requiredRole) roles = true <-> In requiredRole roles).
  { intros roles. rewrite existsb_exists. split.
    - intros [r [Hin Heq]]. apply String.eqb_eq in Heq. subst. exact Hin.
    - intros Hin. exists requiredRole. split; [exact Hin|apply String.eqb_refl]. }
  unfold PreAuthorize.checkRole. split; [|split].
  - intros [Hnone|[u [Hu Hroles]]].
    + rewrite Hnone. reflexivity.
    + rewrite Hu. destruct (user_roles u) as [| |v|roles]; try reflexivity.
      exfalso. exact (Hroles roles eq_refl).
  - intros u roles Hu Hr Hnot. rewrite Hu, Hr.
    destruct (existsb (String.eqb requiredRole) roles) eqn:E; [|reflexivity].
    apply Hmem in E. contradiction.
  - intros u roles Hu Hr Hin. rewrite Hu, Hr.
    apply Hmem in Hin. rewrite Hin. split; reflexivity.
Qed.

(** The gate on the shapes its test-suite exercises. *)
Example checkRole_examples :
  let with_roles r := Sample.request None [] []
                        (Some {| user_id := Some "user123"; user_roles := r |}) in
  snd (PreAuthorize.checkRole UserRole.USER (Sample.request None [] [] None))
  = [Status 403; SendJson (message_body "Access denied. No roles found.")] /\
  snd (PreAuthorize.checkRole UserRole.USER (with_roles RolesNull))
  = [Status 403; SendJson (message_body "Access denied. No roles found.")] /\
  snd (PreAuthorize.checkRole UserRole.ADMIN (with_roles (RolesNotArray (JStr "admin"))))
  = [Status 403; SendJson (message_body "Access denied. No roles found.")] /\
  snd (PreAuthorize.checkRole UserRole.USER (with_roles (RolesArray [])))
  = [Status 403; SendJson (message_body "Access denied.")] /\
  snd (PreAuthorize.checkRole UserRole.ADMIN (with_roles (RolesArray [UserRole.USER])))
  = [Status 403; SendJson (message_body "Access denied.")] /\
  snd (PreAuthorize.checkRole UserRole.USER
         (with_roles (RolesArray [UserRole.USER; UserRole.USER; UserRole.ADMIN])))
  = [NextCalled].
Proof. vm_compute. repeat split. Qed.

(** ** Token verifier *)

Lemma append_cons (c : ascii) (s t : string) : String c s +:+ t = String c (s +:+ t).
Proof. reflexivity. Qed.

(** [split] never yields the empty array. *)
Lemma split_spaces_nonempty (s : string) : split_spaces s <> [].
Proof.
  induction s as [|c s IH]; simpl; [discriminate|].
  destruct (Ascii.eqb c " "); [discriminate|].
  destruct (split_spaces s); [contradiction|discriminate].
Qed.

(** A header without a space is a single field. *)
Lemma split_spaces_single (s : string) :
  has_space s = false -> split_spaces s = [s].
Proof.
  induction s as [|c s IH]; simpl; intros Hs; [reflexivity|].
  apply orb_false_iff in Hs. destruct Hs as [Hc Hs].
  rewrite Hc, (IH Hs). reflexivity.
Qed.

(** The first field ends at the first space. *)
Lemma split_spaces_first (f tail : string) :
  has_space f = false ->
  split_spaces (f +:+ String " " tail) = f :: split_spaces tail.
Proof.
  induction f as [|c f IH]; intros Hf.
  - reflexivity.
  - simpl in Hf. apply orb_false_iff in Hf. destruct Hf as [Hc Hf].
    rewrite append_cons. simpl. rewrite Hc, (IH Hf). reflexivity.
Qed.

Lemma split_spaces_head (t rest : string) :
  has_space t = false ->
  (rest = "" \/ exists r, rest = String " " r) ->
  exists others, split_spaces (t +:+ rest) = t :: others.
Proof.
  intros Ht [->|[r ->]].
  - exists []. replace (t +:+ "") with t.
    + apply split_spaces_single. exact Ht.
    + clear Ht. induction t as [|c t IH]; [reflexivity|].
      rewrite append_cons, <- IH. reflexivity.
  - eexists. apply split_spaces_first. exact Ht.
Qed.

(** C4, counterexample.  The two headers of another scheme than [Bearer]
    that the middleware's test-suite exercises, under the secret and the
    all-rejecting token library of the suite.  For "bearer lowercasebearer"
    the token library is called, on "lowercasebearer"; for
    "Basic user:password" the answer is 403 "Invalid token." and [next] is
    not called.  Neither is answered with 401. *)
Lemma C4_non_bearer_scheme_is_not_401 :
  let run header :=
    snd (AuthMiddleware.authMiddleware (fun _ _ => None) (Some "testSecret")
           (Sample.request (Some header) [] [] None)) in
  jwt_verify_calls (run "bearer lowercasebearer") = [("lowercasebearer", "testSecret")] /\
  In (Status 403) (run "bearer lowercasebearer") /\
  ~ In (Status 401) (run "bearer lowercasebearer") /\
  In (Status 403) (run "Basic user:password") /\
  In (SendJson (message_body "Invalid token.")) (run "Basic user:password") /\
  ~ In (Status 401) (run "Basic user:password") /\
  count_next (run "Basic user:password") = 0.
Proof.
  vm_compute. repeat split; try (intuition discriminate); auto.
Qed.

(** C4, as amended.  Whatever the token library and the secret.  When the
    [Authorization] header is absent, or has no second space-separated
    field (the empty string, "Bearer" alone), or has an empty one
    ("Bearer " and anything that goes on with a further space), the
    verifier answers 401 "Access denied. No token provided.", leaves the
    request as it was and makes no call of [jwt.verify].  When the header
    is "Bearer " followed by a non-empty token without a space, the token
    is passed to [jwt.verify] exactly once, with the configured secret, and
    the answer is never 401: it is 403 "Invalid token." when the library
    rejects the token, and the request goes on with the decoded payload
    attached when it accepts.  The two headers of another scheme that the
    test-suite exercises are not answered with 401 either: for
    "bearer lowercasebearer" the library is called on "lowercasebearer",
    and for "Basic user:password" a library that rejects every token makes
    the answer 403 "Invalid token." without a call of [next]. *)
Theorem C4_missing_token_never_verifies
  (jwt_verify : string -> string -> option Principal) (JWT_SECRET : option string) :
  let secret := secret_or_default JWT_SECRET in
  let run := AuthMiddleware.authMiddleware jwt_verify JWT_SECRET in
  (forall req,
     (authorization req = None \/
      exists f, has_space f = false /\
        (authorization req = Some f \/
         exists rest, (rest = "" \/ exists r, rest = String " " r) /\
                      authorization req = Some (f +:+ " " +:+ rest))) ->
     run req
     = (req, [Status 401; SendJson (message_body "Access denied. No token provided.")]) /\
     jwt_verify_calls (snd (run req)) = []) /\
  (forall req t,
     has_space t = false -> t <> "" ->
     authorization req = Some ("Bearer " +:+ t) ->
     jwt_verify_calls (snd (run req)) = [(t, secret)] /\
     ~ In (Status 401) (snd (run req)) /\
     (jwt_verify t secret = None ->
        run req = (req, [JwtVerify t secret; Status 403;
                         SendJson (message_body "Invalid token.")])) /\
     (forall decoded, jwt_verify t secret = Some decoded ->
        run req = (AuthMiddleware.attach decoded req, [JwtVerify t secret; NextCalled]))) /\
  (forall req, authorization req = Some "bearer lowercasebearer" ->
     jwt_verify_calls (snd (run req)) = [("lowercasebearer", secret)] /\
     ~ In (Status 401) (snd (run req))) /\
  (forall req, authorization req = Some "Basic user:password" ->
     (forall token s, jwt_verify token s = None) ->
     In (Status 403) (snd (run req)) /\
     In (SendJson (message_body "Invalid token.")) (snd (run req)) /\
     ~ In (Status 401) (snd (run req)) /\
     count_next (snd (run req)) = 0 /\
     fst (run req) = req).
Proof.
  intros secret run.
  assert (Hfield : forall req f t,
            has_space f = false -> has_space t = false -> t <> "" ->
            authorization req = Some (f +:+ " " +:+ t) ->
            (jwt_verify t secret = None ->
               run req = (req, [JwtVerify t secret; Status 403;
                                SendJson (message_body "Invalid token.")])) /\
            (forall decoded, jwt_verify t secret = Some decoded ->
               run req = (AuthMiddleware.attach decoded req,
                          [JwtVerify t secret; NextCalled]))).
  { intros req f t Hf Ht Hne Hauth.
    assert (Htok : AuthMiddleware.token_of req = Some t).
    { unfold AuthMiddleware.token_of. rewrite Hauth.
      change (f +:+ " " +:+ t) with (f +:+ String " " t).
      rewrite (split_spaces_first f _ Hf). simpl.
      rewrite (split_spaces_single t Ht). reflexivity. }
    subst run secret. unfold AuthMiddleware.authMiddleware. rewrite Htok.
    destruct t as [|c t]; [contradiction|].
    split.
    - intros ->. reflexivity.
    - intros decoded ->. reflexivity. }
  assert (Hcalls : forall req f t,
            has_space f = false -> has_space t = false -> t <> "" ->
            authorization req = Some (f +:+ " " +:+ t) ->
            jwt_verify_calls (snd (run req)) = [(t, secret)] /\
            ~ In (Status 401) (snd (run req))).
  { intros req f t Hf Ht Hne Hauth.
    destruct (Hfield req f t Hf Ht Hne Hauth) as [Hno Hyes].
    destruct (jwt_verify t secret) as [decoded|] eqn:E.
    - rewrite (Hyes decoded eq_refl). split; [reflexivity|].
      intros [H|[H|[]]]; discriminate.
    - rewrite (Hno eq_refl). split; [reflexivity|].
      intros [H|[H|[H|[]]]]; discriminate. }
  split; [|split; [|split]].
  - intros req Hshape.
    assert (Htok : AuthMiddleware.token_of req = None \/
                   AuthMiddleware.token_of req = Some "").
    { unfold AuthMiddleware.token_of.
      destruct Hshape as [-> | (f & Hf & [-> | (rest & Hrest & ->)])].
      - left. reflexivity.
      - left. rewrite (split_spaces_single f Hf). reflexivity.
      - right. change (f +:+ " " +:+ rest) with (f +:+ String " " rest).
        rewrite (split_spaces_first f rest Hf). simpl.
        destruct (split_spaces_head "" rest eq_refl Hrest) as [others Ho].
        change ("" +:+ rest) with rest in Ho. rewrite Ho. reflexivity. }
    subst run. unfold AuthMiddleware.authMiddleware.
    destruct Htok as [-> | ->]; split; reflexivity.
  - intros req t Ht Hne Hauth.
    destruct (Hcalls req "Bearer" t eq_refl Ht Hne Hauth) as [Hc H401].
    destruct (Hfield req "Bearer" t eq_refl Ht Hne Hauth) as [Hno Hyes].
    split; [exact Hc|]. split; [exact H401|]. split; [exact Hno|exact Hyes].
  - intros req Hauth.
    apply (Hcalls req "bearer" "lowercasebearer"); [reflexivity|reflexivity|discriminate|].
    exact Hauth.
  - intros req Hauth Hreject.
    destruct (Hfield req "Basic" "user:password") as [Hno _];
      [reflexivity|reflexivity|discriminate|exact Hauth|].
    rewrite (Hno (Hreject _ _)). simpl.
    split; [right; left; reflexivity|].
    split; [right; right; left; reflexivity|].
    split; [intros [H|[H|[H|[]]]]; discriminate|].
    split; reflexivity.
Qed.

(** C4 on the header "Bearer good.token" and the sample token library,
    which accepts this token: the request goes on with the principal
    attached, after one call of the library. *)
Lemma C4_witness :
  AuthMiddleware.authMiddleware Sample.jwt_verify None
    (Sample.request (Some "Bearer good.token") [] [] None)
  = (Sample.request (Some "Bearer good.token") [] [] (Some Sample.alice_principal),
     [JwtVerify "good.token" "defaultSecret"; NextCalled]).
Proof.
  destruct (C4_missing_token_never_verifies Sample.jwt_verify None)
    as (_ & Hbearer & _).
  destruct (Hbearer (Sample.request (Some "Bearer good.token") [] [] None) "good.token")
    as (_ & _ & _ & Haccepted); [reflexivity|discriminate|reflexivity|].
  exact (Haccepted Sample.alice_principal eq_refl).
Defined.

(** The four malformed headers that the spec names. *)
Example authMiddleware_malformed_headers :
  Forall (fun header =>
            snd (AuthMiddleware.authMiddleware Sample.jwt_verify None
                   (Sample.request header [] [] None))
            = [Status 401; SendJson (message_body "Access denied. No token provided.")])
         [None; Some ""; Some "Bearer"; Some "Bearer "].
Proof. repeat constructor. Qed.

(** ** Login *)

Lemma findOne_None {A : Type} (q : A -> bool) (l : list A) :
  List.find q l = None <-> forall a, In a l -> q a = false.
Proof.
  split.
  - intros Hf a Hin. exact (find_none q l Hf a Hin).
  - induction l as [|a l IH]; intros Hall; [reflexivity|]. simpl.
    rewrite (Hall a) by (left; reflexivity). apply IH.
    intros a' Hin. apply Hall. right. exact Hin.
Qed.

(** C7.  Whatever the hash comparison and the token library: [login] fails
    with the reference error "Not Authorized" when no user document has the
    email, and with the very same error when a user is found but the
    comparison of the supplied password with the stored hash fails, so the
    two failures are equal as results; when the comparison succeeds, it
    resolves to [{ id, roles, token }] where the token is signed over
    [{ id, roles }] with the configured secret and [expiresIn: "1h"].  The
    store is never written. *)
Theorem C7_login_outcomes
  (bcrypt_compare : string -> string -> bool)
  (jwt_sign : Json -> string -> string -> string)
  (JWT_SECRET : option string) (userLogin : UserLoginInput) (db : Db) :
  let login := AuthService.login bcrypt_compare jwt_sign JWT_SECRET in
  ((forall u, In u (users db) -> u_email u <> email userLogin) ->
     login userLogin db = (Throw (ReferenceError "Not Authorized"), db)) /\
  (forall u,
     Model.findOne (fun u => String.eqb (u_email u) (email userLogin)) (users db) = Some u ->
     bcrypt_compare (password userLogin) (u_password u) = false ->
     login userLogin db = (Throw (ReferenceError "Not Authorized"), db)) /\
  (forall u,
     Model.findOne (fun u => String.eqb (u_email u) (email userLogin)) (users db) = Some u ->
     bcrypt_compare (password userLogin) (u_password u) = true ->
     login userLogin db
     = (Ok {| out_id := u_id u; out_roles := u_roles u;
              token := jwt_sign (JObj [("id", JStr (u_id u));
                                       ("roles", JArr (List.map JStr (u_roles u)))])
                                (secret_or_default JWT_SECRET) "1h" |}, db)).
Proof.
  intros login. subst login.
  unfold AuthService.login, UserService.findByEmail, bind, query, ret, throw. simpl.
  split; [|split].
  - intros Hnone.
    assert (Hf : Model.findOne (fun u => String.eqb (u_email u) (email userLogin))
                   (users db) = None).
    { apply findOne_None. intros u Hin. apply String.eqb_neq. exact (Hnone u Hin). }
    rewrite Hf. reflexivity.
  - intros u Hu Hcmp. rewrite Hu. simpl. rewrite Hcmp. reflexivity.
  - intros u Hu Hcmp. rewrite Hu. simpl. rewrite Hcmp. reflexivity.
Qed.

(** The seeded user logs in with the right password and with no other. *)
Example login_seeded_user :
  let login := AuthService.login Sample.bcrypt_compare Sample.jwt_sign None in
  fst (login {| email := "user@demo.com"; password := "User123" |} Sample.db)
  = Ok {| out_id := Sample.alice_id; out_roles := [UserRole.USER];
          token := "signed:defaultSecret:1h" |} /\
  fst (login {| email := "user@demo.com"; password := "user123" |} Sample.db)
  = Throw (ReferenceError "Not Authorized") /\
  fst (login {| email := "nobody@demo.com"; password := "User123" |} Sample.db)
  = Throw (ReferenceError "Not Authorized").
Proof. vm_compute. repeat split. Qed.

(** ** Genre search *)







(** ** Field validation *)

Section ValidatorFacts.
Import Validator ValidatorSpec.

Lemma get_set_other l p v l' p' req :
  (l, p) <> (l', p') -> get l' p' (set l p v req) = get l' p' req.
Proof.
  intros Hne. destruct l, l'; simpl; try reflexivity.
  - apply lookup_insert_ne. congruence.
  - apply lookup_insert_ne. congruence.
Qed.

Lemma get_sanitize_one_other req r l' p' :
  target r <> (l', p') -> get l' p' (sanitize_one req r) = get l' p' req.
Proof.
  intros Hne. unfold sanitize_one.
  destruct (skipped req r); [reflexivity|].
  destruct (trim r); [|reflexivity].
  apply get_set_other. exact Hne.
Qed.

(** One chain, run on a request that agrees with [req0] on the chain's
    field, sanitizes the request and reports the rule if [req0] violates
    it. *)
Lemma run_chain_step req0 req errors r :
  get (location r) (path r) req = get (location r) (path r) req0 ->
  run_chain (req, errors) r
  = (sanitize_one req r,
     errors ++ (if violates req0 r
                then [ {| v_type := "field"; v_path := path r;
                          v_msg := withMessage r; v_value := sanitized req0 r |} ]
                else [])).
Proof.
  intros Hget. unfold run_chain, sanitize_one, violates, skipped, sanitized.
  rewrite Hget.
  destruct (get (location r) (path r) req0) as [s|], (optional r), (trim r); simpl;
    try (destruct (passes (check r) _); simpl; rewrite ?app_nil_r; reflexivity);
    rewrite ?app_nil_r; reflexivity.
Qed.

Lemma run_fold req0 rules :
  List.NoDup (List.map target rules) ->
  forall req errors,
    (forall r, In r rules ->
       get (location r) (path r) req = get (location r) (path r) req0) ->
    fold_left run_chain rules (req, errors)
    = (sanitize rules req,
       errors ++ List.map (fun r => {| v_type := "field"; v_path := path r;
                                       v_msg := withMessage r;
                                       v_value := sanitized req0 r |})
                          (List.filter (violates req0) rules)).
Proof.
  induction rules as [|r rules IH]; intros Hnd req errors Hagree.
  - simpl. rewrite app_nil_r. reflexivity.
  - inversion Hnd as [|? ? Hnotin Hnd']; subst.
    change (fold_left run_chain (r :: rules) (req, errors))
      with (fold_left run_chain rules (run_chain (req, errors) r)).
    change (sanitize (r :: rules) req) with (sanitize rules (sanitize_one req r)).
    rewrite (run_chain_step req0 req errors r) by (apply Hagree; left; reflexivity).
    rewrite IH; [| exact Hnd' |].
    + f_equal. cbn [List.filter]. destruct (violates req0 r); simpl.
      * rewrite <- app_assoc. reflexivity.
      * rewrite app_nil_r. reflexivity.
    + intros r' Hin. rewrite get_sanitize_one_other.
      * apply Hagree. right. exact Hin.
      * intros Heq. apply Hnotin. rewrite Heq. apply (in_map target). exact Hin.
Qed.

Lemma format_field_violation req r :
  format {| v_type := "field"; v_path := path r; v_msg := withMessage r;
            v_value := sanitized req r |} = entry req r.
Proof. reflexivity. Qed.

Lemma set_same l p s req : get l p req = Some s -> set l p s req = req.
Proof.
  destruct req as [a ps b bc u]. destruct l; simpl; intros Hget.
  - f_equal. apply insert_id. exact Hget.
  - f_equal. apply insert_id. exact Hget.
Qed.

Lemma sanitize_clean rules req :
  (forall r, In r rules -> clean req r) -> sanitize rules req = req.
Proof.
  unfold sanitize. induction rules as [|r rules IH]; intros Hclean; [reflexivity|].
  simpl. assert (Hone : sanitize_one req r = req).
  { unfold sanitize_one. destruct (skipped req r) eqn:Hs; [reflexivity|].
    destruct (trim r) eqn:Ht; [|reflexivity].
    destruct (Hclean r (or_introl eq_refl) Ht) as [Hsk | (s & Hget & Htrim)];
      [congruence|].
    rewrite Hget. simpl. rewrite Htrim. apply set_same. exact Hget. }
  rewrite Hone. apply IH. intros r' Hin. apply Hclean. right. exact Hin.
Qed.

End ValidatorFacts.

Lemma handleValidationErrors_keeps_request errors req :
  fst (Validator.handleValidationErrors errors req) = req.
Proof. destruct errors; reflexivity. Qed.

(** Every validation array of the two routers names each field once. *)
Lemma declared_rules_distinct :
  Forall (fun rules => List.NoDup (List.map ValidatorSpec.target rules))
    [postValidations.create; postValidations.update; postValidations.id;
     postValidations.userId; commentValidations.create; commentValidations.update;
     commentValidations.id; commentValidations.userId].
Proof.
  repeat (apply List.Forall_cons || apply List.Forall_nil);
    repeat (apply List.NoDup_cons || apply List.NoDup_nil); simpl; intuition discriminate.
Qed.

(** C8, counterexample.  A post body whose title is " a " violates none of
    the rules of [postValidations.create] and [next] is called once, but
    the request that goes downstream is not the one that came in: its title
    has become "a". *)
Lemma C8_sanitizer_rewrites_request :
  let req := Sample.request None []
               [("title", " a "); ("content", "c"); ("author", Sample.alice_id);
                ("genre", "g")] None in
  List.filter (ValidatorSpec.violates req) postValidations.create = [] /\
  snd (Validator.validate postValidations.create req) = [NextCalled] /\
  body req !! "title" = Some " a " /\
  body (fst (Validator.validate postValidations.create req)) !! "title" = Some "a" /\
  fst (Validator.validate postValidations.create req) <> req.
Proof.
  repeat split; try (vm_compute; reflexivity).
  intros Heq. apply (f_equal (fun r => body r !! "title")) in Heq.
  vm_compute in Heq. discriminate.
Qed.

(** C8, as amended.  For a validation array that names each field once (as
    all arrays of the routers do) and every request whose values under
    those fields are text within ASCII: if the request violates
    N > 0 of the rules, the validator answers 400 with
    [{ message: "Validation errors", errors }] where [errors] holds exactly
    the N triples [{ field, message, value }] of the violated rules, in the
    order in which the rules are declared, and [next] is not called; if it
    violates none, [next] is called exactly once and nothing is sent.  The
    request handed on is the incoming one with every trimmed field replaced
    by its trimmed value; it is the incoming request itself when no
    sanitizer has anything to remove. *)
Theorem C8_validation_outcomes (rules : list Validator.Rule) (req : Request) :
  List.NoDup (List.map ValidatorSpec.target rules) ->
  ValidatorSpec.ascii_fields rules req = true ->
  let violated := List.filter (ValidatorSpec.violates req) rules in
  let errors := List.map (ValidatorSpec.entry req) violated in
  (violated = [] ->
     Validator.validate rules req = (ValidatorSpec.sanitize rules req, [NextCalled]) /\
     count_next (snd (Validator.validate rules req)) = 1) /\
  (violated <> [] ->
     Validator.validate rules req
     = (ValidatorSpec.sanitize rules req,
        [Status 400; SendJson (ValidatorSpec.envelope errors)]) /\
     count_next (snd (Validator.validate rules req)) = 0) /\
  List.length errors = List.length violated /\
  ((forall r, In r rules -> ValidatorSpec.clean req r) ->
     fst (Validator.validate rules req) = req).
Proof.
  intros Hnd _ violated errors.
  assert (Hrun : Validator.run rules req
                 = (ValidatorSpec.sanitize rules req,
                    List.map (fun r => {| Validator.v_type := "field";
                                          Validator.v_path := Validator.path r;
                                          Validator.v_msg := Validator.withMessage r;
                                          Validator.v_value := ValidatorSpec.sanitized req r |})
                             violated)).
  { unfold Validator.run. rewrite (run_fold req rules Hnd req []); [reflexivity|].
    intros r _. reflexivity. }
  unfold Validator.validate. rewrite Hrun.
  split; [|split; [|split]].
  - intros Hnone. rewrite Hnone. simpl. split; reflexivity.
  - intros Hsome. subst errors. destruct violated as [|r rs]; [contradiction|].
    simpl. split; [|reflexivity]. unfold ValidatorSpec.envelope.
    rewrite map_map. reflexivity.
  - subst errors. apply length_map.
  - intros Hclean. rewrite (sanitize_clean rules req Hclean).
    apply handleValidationErrors_keeps_request.
Qed.

(** C8 on [postValidations.create] and a body with a blank title and an
    ill-formed author. *)
Lemma C8_witness :
  let rules := postValidations.create in
  let req := Sample.request None []
               [("title", "   "); ("content", "c"); ("author", "me"); ("genre", "g")]
               None in
  let violated := List.filter (ValidatorSpec.violates req) rules in
  let errors := List.map (ValidatorSpec.entry req) violated in
  (violated = [] ->
     Validator.validate rules req = (ValidatorSpec.sanitize rules req, [NextCalled]) /\
     count_next (snd (Validator.validate rules req)) = 1) /\
  (violated <> [] ->
     Validator.validate rules req
     = (ValidatorSpec.sanitize rules req,
        [Status 400; SendJson (ValidatorSpec.envelope errors)]) /\
     count_next (snd (Validator.validate rules req)) = 0) /\
  List.length errors = List.length violated /\
  ((forall r, In r rules -> ValidatorSpec.clean req r) ->
     fst (Validator.validate rules req) = req).
Proof.
  apply (C8_validation_outcomes postValidations.create
           (Sample.request None []
              [("title", "   "); ("content", "c"); ("author", "me"); ("genre", "g")]
              None)).
  - repeat (apply List.NoDup_cons || apply List.NoDup_nil); simpl; intuition discriminate.
  - vm_compute. reflexivity.
Defined.

(** The run of the request above: two rules violated, two entries, in the
    order of the declaration. *)
Example validate_two_violations :
  snd (Validator.validate postValidations.create
         (Sample.request None []
            [("title", "   "); ("content", "c"); ("author", "me"); ("genre", "g")]
            None))
  = [Status 400;
     SendJson (JObj [("message", JStr "Validation errors");
                     ("errors",
                      JArr [JObj [("field", JStr "title");
                                  ("message", JStr "Title must be between 1 and 100 characters");
                                  ("value", JStr "")];
                            JObj [("field", JStr "author");
                                  ("message", JStr "Invalid user ID format");
                                  ("value", JStr "me")]])])].
Proof. vm_compute. reflexivity. Qed.

(** * Further properties of the services, controllers, validators, routers
      and of the seeding *)

(** ** Updates in place *)

Section UpdateFacts.
Context {D : Type} `{DocumentLaws D}.
Variable u : D -> D.
Hypothesis u_keeps_id : forall d, doc_id (u d) = doc_id d.

Lemma updateOne_ids (q : D -> bool) (coll : list D) :
  List.map doc_id (Model.updateOne q u coll) = List.map doc_id coll.
Proof.
  induction coll as [|d coll IH]; [reflexivity|]. simpl.
  destruct (q d); simpl; [rewrite u_keeps_id|rewrite IH]; reflexivity.
Qed.

Lemma findById_updateOne_same (id : ObjectId) (coll : list D) :
  Model.findById id (Model.updateOne (Model.by_id id) u coll)
  = option_map u (Model.findById id coll).
Proof.
  unfold Model.findById, Model.findOne.
  induction coll as [|d coll IH]; [reflexivity|]. simpl.
  destruct (Model.by_id id d) eqn:E; simpl.
  - unfold Model.by_id in *. rewrite u_keeps_id, E. reflexivity.
  - rewrite E. exact IH.
Qed.


End UpdateFacts.


Lemma In_updateOne_kept {D : Type} (q : D -> bool) (u : D -> D) (coll : list D) (d : D) :
  In d coll -> q d = false -> In d (Model.updateOne q u coll).
Proof.
  induction coll as [|x coll IH]; simpl; [tauto|]. intros [->|Hin] Hq.
  - rewrite Hq. left. reflexivity.
  - destruct (q x); right; [exact Hin | exact (IH Hin Hq)].
Qed.

(** Two queries with the same first match update the same document. *)
Lemma updateOne_same_first {D : Type} (q q' : D -> bool) (u : D -> D) (coll : list D) (p : D) :
  List.find q' coll = Some p -> q p = true ->
  (forall d, q d = true -> q' d = true) ->
  Model.updateOne q u coll = Model.updateOne q' u coll.
Proof.
  intros Hf Hp Himp. induction coll as [|d coll IH]; [reflexivity|].
  simpl in *. destruct (q' d) eqn:E'.
  - injection Hf as ->. rewrite Hp. reflexivity.
  - destruct (q d) eqn:E; [rewrite (Himp d E) in E'; discriminate|].
    rewrite (IH Hf). reflexivity.
Qed.

Lemma by_id_false {D : Type} `{Document D} (id : ObjectId) (d : D) :
  Model.by_id id d = false <-> doc_id d <> id.
Proof. unfold Model.by_id. apply String.eqb_neq. Qed.





(** ** Queries by author *)

(** The two cases of [PostService.getByAuthorId]. *)
Lemma PostService_getByAuthorId_cases (userId : ObjectId) (db : Db) :
  ((forall u, In u (users db) -> u_id u <> userId) ->
     PostService.getByAuthorId userId db
     = (Throw (ReferenceError "User not found"), db)) /\
  ((exists u, In u (users db) /\ u_id u = userId) ->
     exists ps,
       PostService.getByAuthorId userId db = (Ok ps, db) /\
       (exists keep, List.map pp_doc ps = List.filter keep (posts db)) /\
       (forall p, In p (List.map pp_doc ps) <->
          In p (posts db) /\ p_author p = userId /\ p_deletedAt p = None) /\
       (forall v, In v ps -> exists all,
          PostService.getAll db = (Ok all, db) /\ In v all)).
Proof.
  pose proof (findById_None userId (users db)) as HN.
  pose proof (findById_is_Some userId (users db)) as HS.
  unfold PostService.getByAuthorId, PostService.getAll, bind, query, throw. simpl.
  split.
  - intros Hmiss. apply HN in Hmiss. rewrite Hmiss. reflexivity.
  - intros Hex. apply (proj2 HS) in Hex. destruct Hex as [u Hu]. rewrite Hu.
    eexists. split; [reflexivity|].
    rewrite !map_map. simpl. rewrite !map_id. unfold Model.find.
    split; [|split].
    + eexists. reflexivity.
    + intros p. rewrite filter_In, andb_true_iff, String.eqb_eq.
      pose proof (not_deleted_true p) as Hnd. simpl in Hnd. rewrite Hnd. tauto.
    + intros v Hv. eexists. split; [reflexivity|].
      apply in_map_iff in Hv. destruct Hv as (p & <- & Hp).
      apply in_map. apply filter_In in Hp. apply filter_In.
      destruct Hp as [Hin Hq]. apply andb_true_iff in Hq. tauto.
Qed.

(** The two cases of [CommentService.getByAuthorId]. *)
Lemma CommentService_getByAuthorId_cases (userId : ObjectId) (db : Db) :
  ((forall u, In u (users db) -> u_id u <> userId) ->
     CommentService.getByAuthorId userId db
     = (Throw (ReferenceError "User not found"), db)) /\
  ((exists u, In u (users db) /\ u_id u = userId) ->
     exists cs,
       CommentService.getByAuthorId userId db = (Ok cs, db) /\
       (exists keep, List.map pc_doc cs = List.filter keep (comments db)) /\
       (forall c, In c (List.map pc_doc cs) <->
          In c (comments db) /\ c_author c = userId /\ c_deletedAt c = None) /\
       (forall v, In v cs -> exists all,
          CommentService.getAll db = (Ok all, db) /\ In v all)).
Proof.
  pose proof (findById_None userId (users db)) as HN.
  pose proof (findById_is_Some userId (users db)) as HS.
  unfold CommentService.getByAuthorId, CommentService.getAll, bind, query, throw. simpl.
  split.
  - intros Hmiss. apply HN in Hmiss. rewrite Hmiss. reflexivity.
  - intros Hex. apply (proj2 HS) in Hex. destruct Hex as [u Hu]. rewrite Hu.
    eexists. split; [reflexivity|].
    rewrite !map_map. simpl. rewrite !map_id. unfold Model.find.
    split; [eexists; reflexivity|]. split.
    + intros c. rewrite filter_In, andb_true_iff, String.eqb_eq.
      pose proof (not_deleted_true c) as Hnd. simpl in Hnd. rewrite Hnd. tauto.
    + intros v Hv. eexists. split; [reflexivity|].
      apply in_map_iff in Hv. destruct Hv as (c & <- & Hc).
      apply in_map. apply filter_In in Hc. apply filter_In.
      destruct Hc as [Hin Hq]. apply andb_true_iff in Hq. tauto.
Qed.

(** X3.  Handed the rendering of an ObjectId,
    [PostService.getByAuthorId] never writes.  It fails with the reference
    error "User not found" exactly when no user document has the
    identifier; a user that exists, soft-deleted or not and with or
    without posts, makes it resolve to the posts that name the user as
    author and are not soft-deleted, in store order, each of them also a
    result of [getAll]. *)
Theorem PostService_getByAuthorId_outcome (userId : ObjectId) (db : Db) :
  canonical userId = true ->
  ((forall u, In u (users db) -> u_id u <> userId) ->
     PostService.getByAuthorId userId db
     = (Throw (ReferenceError "User not found"), db)) /\
  ((exists u, In u (users db) /\ u_id u = userId) ->
     exists ps,
       PostService.getByAuthorId userId db = (Ok ps, db) /\
       (exists keep, List.map pp_doc ps = List.filter keep (posts db)) /\
       (forall p, In p (List.map pp_doc ps) <->
          In p (posts db) /\ p_author p = userId /\ p_deletedAt p = None) /\
       (forall v, In v ps -> exists all,
          PostService.getAll db = (Ok all, db) /\ In v all)).
Proof. intros _. exact (PostService_getByAuthorId_cases userId db). Qed.

(** X4.  [CommentService.getByAuthorId] has the same shape: handed the
    rendering of an ObjectId, it fails with the reference error exactly
    when no user document has the identifier, and otherwise resolves to
    the comments of that author that are not soft-deleted, in store order,
    each of them also a result of [getAll]; the store is never written. *)
Theorem CommentService_getByAuthorId_outcome (userId : ObjectId) (db : Db) :
  canonical userId = true ->
  ((forall u, In u (users db) -> u_id u <> userId) ->
     CommentService.getByAuthorId userId db
     = (Throw (ReferenceError "User not found"), db)) /\
  ((exists u, In u (users db) /\ u_id u = userId) ->
     exists cs,
       CommentService.getByAuthorId userId db = (Ok cs, db) /\
       (exists keep, List.map pc_doc cs = List.filter keep (comments db)) /\
       (forall c, In c (List.map pc_doc cs) <->
          In c (comments db) /\ c_author c = userId /\ c_deletedAt c = None) /\
       (forall v, In v cs -> exists all,
          CommentService.getAll db = (Ok all, db) /\ In v all)).
Proof. intros _. exact (CommentService_getByAuthorId_cases userId db). Qed.

(** ** The link between a comment and its parent post *)

Lemma findById_app_last {D : Type} `{Document D} (id : ObjectId) (coll : list D) (d : D) :
  Model.findById id (coll ++ [d])
  = match Model.findById id coll with
    | Some x => Some x
    | None => if Model.by_id id d then Some d else None
    end.
Proof.
  unfold Model.findById, Model.findOne.
  induction coll as [|x coll IH]; simpl; [reflexivity|].
  destruct (Model.by_id id x); [reflexivity|exact IH].
Qed.

Lemma populate_comments_app (db : Db) (l1 l2 : list ObjectId) :
  populate_comments db (l1 ++ l2) = populate_comments db l1 ++ populate_comments db l2.
Proof.
  induction l1 as [|id l1 IH]; [reflexivity|]. simpl.
  destruct (Model.findById id (comments db)); simpl; rewrite IH; reflexivity.
Qed.

Lemma updateOne_app_last {D : Type} (q : D -> bool) (u : D -> D) (coll : list D) (d : D) :
  (forall x, In x coll -> q x = false) ->
  Model.updateOne q u (coll ++ [d]) = coll ++ [if q d then u d else d].
Proof.
  induction coll as [|x coll IH]; intros Hq; simpl.
  - destruct (q d); reflexivity.
  - rewrite (Hq x) by (left; reflexivity). f_equal. apply IH.
    intros y Hy. apply Hq. right. exact Hy.
Qed.

Lemma updateOne_twice {D : Type} (q : D -> bool) (u v : D -> D) (coll : list D) :
  (forall d, q (u d) = q d) ->
  Model.updateOne q v (Model.updateOne q u coll)
  = Model.updateOne q (fun d => v (u d)) coll.
Proof.
  intros Hq. induction coll as [|d coll IH]; [reflexivity|]. simpl.
  destruct (q d) eqn:E; simpl.
  - rewrite Hq, E. reflexivity.
  - rewrite E, IH. reflexivity.
Qed.

Lemma filter_out_absent (id : ObjectId) (l : list ObjectId) :
  ~ In id l -> List.filter (fun c => negb (String.eqb c id)) l = l.
Proof.
  induction l as [|x l IH]; intros Hn; [reflexivity|]. simpl.
  destruct (String.eqb x id) eqn:E.
  - apply String.eqb_eq in E. exfalso. apply Hn. left. exact E.
  - simpl. f_equal. apply IH. intros Hin. apply Hn. right. exact Hin.
Qed.

Lemma filter_out_gone (id : ObjectId) (l : list ObjectId) :
  ~ In id (List.filter (fun c => negb (String.eqb c id)) l).
Proof.
  intros Hin. apply filter_In in Hin. destruct Hin as [_ Hne].
  rewrite String.eqb_refl in Hne. discriminate.
Qed.

(** The push of [create] goes to the post that [findById] shows, when that
    post is not soft-deleted. *)
Lemma create_pushes_to_found (post : ObjectId) (u : PostDocument -> PostDocument)
  (coll : list PostDocument) (p : PostDocument) :
  Model.findById post coll = Some p -> p_deletedAt p = None ->
  Model.updateOne (fun p => Model.by_id post p && Model.not_deleted p) u coll
  = Model.updateOne (Model.by_id post) u coll.
Proof.
  intros Hp Hlive. apply (updateOne_same_first _ _ u coll p Hp).
  - destruct (findById_Some post coll p Hp) as [_ Hid].
    apply andb_true_iff. split.
    + apply (by_id_true (D := PostDocument)). exact Hid.
    + apply (not_deleted_true (D := PostDocument)). exact Hlive.
  - intros d Hd. apply andb_true_iff in Hd. tauto.
Qed.

(** X5.  When the author exists, the parent post exists and is not
    soft-deleted, and the content is not empty, [CommentService.create]
    resolves to the new comment, appends it to the comments collection and
    appends its identifier at the end of the parent's [comments] list and
    of no other post's; users and the identifiers and order of the posts
    are untouched, and a [getById] of the parent afterwards shows the new
    comment among the populated comments. *)
Theorem CommentService_create_links_parent
  (env : Env) (i : CommentInput) (db : Db) (u : UserDocument) (p : PostDocument) :
  Model.findById (ci_author i) (users db) = Some u ->
  Model.findById (ci_post i) (posts db) = Some p ->
  p_deletedAt p = None ->
  ci_content i <> "" ->
  let created := CommentModel.document env i in
  exists db' p',
    CommentService.create env i db = (Ok created, db') /\
    users db' = users db /\
    comments db' = comments db ++ [created] /\
    List.map p_id (posts db') = List.map p_id (posts db) /\
    Model.findById (ci_post i) (posts db') = Some p' /\
    p_comments p' = p_comments p ++ [c_id created] /\
    p_deletedAt p' = None /\
    (forall q, In q (posts db) -> p_id q <> ci_post i -> In q (posts db')) /\
    (exists view, fst (PostService.getById (ci_post i) db') = Ok (Some view) /\
                  In (c_id created) (List.map cr_id (pp_comments view))).
Proof.
  intros Hu Hp Hlive Hcontent created.
  set (push := PostModel.push_comment (now env) (c_id created)).
  assert (Hpush : forall d, doc_id (push d) = doc_id d) by reflexivity.
  exists {| users := users db;
            posts := Model.updateOne (Model.by_id (ci_post i)) push (posts db);
            comments := comments db ++ [created] |}, (push p).
  assert (Hfound : Model.findById (ci_post i)
                     (Model.updateOne (Model.by_id (ci_post i)) push (posts db))
                   = Some (push p)).
  { pose proof (findById_updateOne_same push Hpush (ci_post i) (posts db)) as Hs.
    simpl in Hs. rewrite Hs, Hp. reflexivity. }
  split.
  { unfold CommentService.create, bind, query, modify, ret. simpl. rewrite Hu, Hp.
    destruct (CommentModel_create_cases env i db) as [[_ Hc]|[Hc _]]; [|contradiction].
    rewrite Hc. simpl. unfold set_posts, set_comments, Model.insert. simpl.
    rewrite (create_pushes_to_found (ci_post i) _ (posts db) p Hp Hlive).
    reflexivity. }
  simpl. split; [reflexivity|]. split; [reflexivity|].
  split; [exact (updateOne_ids push Hpush _ (posts db))|].
  split; [exact Hfound|]. split; [reflexivity|]. split; [exact Hlive|].
  split.
  { intros q Hin Hne. apply In_updateOne_kept; [exact Hin|].
    apply (by_id_false (D := PostDocument)). exact Hne. }
  unfold PostService.getById, query. simpl. rewrite Hfound. simpl.
  eexists. split; [reflexivity|]. unfold populate_post. simpl.
  rewrite populate_comments_app, map_app. apply in_or_app. right. simpl.
  pose proof (findById_app_last (c_id created) (comments db) created) as Hlast.
  simpl in Hlast. rewrite Hlast.
  destruct (Model.findById (fresh env) (comments db)) as [c|] eqn:E.
  - left. simpl. apply (findById_Some (fresh env) (comments db) c E).
  - unfold Model.by_id. simpl. rewrite String.eqb_refl. left. reflexivity.
Qed.

(** X5 on the sample store: Alice comments on the active [Sample.post1]. *)
Lemma CommentService_create_links_parent_witness :
  exists db' p',
    CommentService.create Sample.env
      {| ci_content := "More"; ci_author := Sample.alice_id; ci_post := Sample.post1_id |}
      Sample.db
    = (Ok (CommentModel.document Sample.env
             {| ci_content := "More"; ci_author := Sample.alice_id;
                ci_post := Sample.post1_id |}), db') /\
    Model.findById Sample.post1_id (posts db') = Some p' /\
    p_comments p' = [Sample.comment1_id; fresh Sample.env].
Proof.
  destruct (CommentService_create_links_parent Sample.env
              {| ci_content := "More"; ci_author := Sample.alice_id;
                 ci_post := Sample.post1_id |}
              Sample.db Sample.alice Sample.post1
              eq_refl eq_refl eq_refl ltac:(discriminate))
    as (db' & p' & Hrun & _ & _ & _ & Hfound & Hlist & _).
  exists db', p'. split; [exact Hrun|]. split; [exact Hfound|exact Hlist].
Defined.

(** X6.  [CommentService.delete] of an existing comment resolves to [true],
    keeps the comment stored with [deletedAt] set, and takes every
    occurrence of its identifier out of the [comments] list of the post
    that the comment names as parent, keeping the other identifiers of
    that list in order; no other post, no user and no other comment is
    changed, and when the parent post does not exist no post is changed at
    all. *)
Theorem CommentService_delete_unlinks
  (env : Env) (id : ObjectId) (db : Db) (c : CommentDocument) :
  Model.findById id (comments db) = Some c ->
  exists db',
    CommentService.delete env id db = (Ok true, db') /\
    users db' = users db /\
    List.map c_id (comments db') = List.map c_id (comments db) /\
    Model.findById id (comments db') = Some (set_deletedAt (now env) c) /\
    (forall c', In c' (comments db) -> c_id c' <> id -> In c' (comments db')) /\
    List.map p_id (posts db') = List.map p_id (posts db) /\
    (forall p, Model.findById (c_post c) (posts db) = Some p ->
       exists p', Model.findById (c_post c) (posts db') = Some p' /\
         p_comments p'
         = List.filter (fun x => negb (String.eqb x id)) (p_comments p) /\
         ~ In id (p_comments p')) /\
    (Model.findById (c_post c) (posts db) = None -> posts db' = posts db) /\
    (forall q, In q (posts db) -> p_id q <> c_post c -> In q (posts db')).
Proof.
  intros Hc. destruct (findById_Some id (comments db) c Hc) as [_ Hid]. simpl in Hid.
  set (pull := PostModel.pull_comment (now env) (c_id c)).
  assert (Hpull : forall d, doc_id (pull d) = doc_id d) by reflexivity.
  assert (Hdel : forall d : CommentDocument,
             doc_id (set_deletedAt (now env) d) = doc_id d) by reflexivity.
  exists {| users := users db;
            posts := Model.updateOne (Model.by_id (c_post c)) pull (posts db);
            comments := Model.updateOne (Model.by_id id) (set_deletedAt (now env))
                          (comments db) |}.
  split.
  { unfold CommentService.delete, bind, ret, modify, Model.findByIdAndUpdate. simpl.
    rewrite Hc. reflexivity. }
  cbn [users posts comments]. split; [reflexivity|].
  split; [exact (updateOne_ids _ Hdel _ (comments db))|].
  split.
  { etransitivity; [exact (findById_updateOne_same _ Hdel id (comments db))|].
    rewrite Hc. reflexivity. }
  split.
  { intros c' Hin Hne. apply In_updateOne_kept; [exact Hin|].
    apply (by_id_false (D := CommentDocument)). exact Hne. }
  split; [exact (updateOne_ids pull Hpull _ (posts db))|].
  split.
  { intros p Hp. exists (pull p). split.
    - etransitivity;
        [exact (findById_updateOne_same pull Hpull (c_post c) (posts db))|].
      rewrite Hp. reflexivity.
    - unfold pull. simpl. rewrite Hid. split; [reflexivity|apply filter_out_gone]. }
  split.
  { intros Hnone. apply (updateOne_findById_None (c_post c) pull (posts db) Hnone). }
  intros q Hin Hne. apply In_updateOne_kept; [exact Hin|].
  apply (by_id_false (D := PostDocument)). exact Hne.
Qed.

(** X6 on the sample store: the only comment of [Sample.post1] is deleted
    and the post lists nothing afterwards. *)
Lemma CommentService_delete_unlinks_witness :
  exists db' p',
    CommentService.delete Sample.env Sample.comment1_id Sample.db = (Ok true, db') /\
    Model.findById Sample.post1_id (posts db') = Some p' /\
    p_comments p' = [].
Proof.
  destruct (CommentService_delete_unlinks Sample.env Sample.comment1_id Sample.db
              Sample.comment1 eq_refl)
    as (db' & Hrun & _ & _ & _ & _ & _ & Hparent & _).
  destruct (Hparent Sample.post1 eq_refl) as (p' & Hfound & Hlist & _).
  exists db', p'. split; [exact Hrun|]. split; [exact Hfound|exact Hlist].
Defined.

Lemma find_not_deleted_app_deleted {D : Type} `{DocumentLaws D} (coll : list D) (t : Date) (d : D) :
  Model.find Model.not_deleted (coll ++ [set_deletedAt t d])
  = Model.find Model.not_deleted coll.
Proof.
  unfold Model.find. rewrite List.filter_app. simpl.
  unfold Model.not_deleted at 2. rewrite deletedAt_set_deletedAt.
  apply app_nil_r.
Qed.

(** X7.  Creating a comment on an active post and then deleting it brings
    the parent back to the list it had: with an identifier that no stored
    comment carries and that the parent does not list, [create] followed by
    [delete] of the new identifier resolves to [true], leaves the parent's
    [comments] list, the users and the identifiers of the posts as they
    were before the creation, keeps the new comment stored as soft-deleted,
    and [getAll] of the comments finds the same documents as before. *)
Theorem CommentService_create_then_delete
  (env env' : Env) (i : CommentInput) (db : Db) (u : UserDocument) (p : PostDocument) :
  Model.findById (ci_author i) (users db) = Some u ->
  Model.findById (ci_post i) (posts db) = Some p ->
  p_deletedAt p = None ->
  ci_content i <> "" ->
  (forall c, In c (comments db) -> c_id c <> fresh env) ->
  ~ In (fresh env) (p_comments p) ->
  let created := CommentModel.document env i in
  let db1 := snd (CommentService.create env i db) in
  exists db2 p2,
    CommentService.delete env' (c_id created) db1 = (Ok true, db2) /\
    users db2 = users db /\
    comments db2 = comments db ++ [set_deletedAt (now env') created] /\
    List.map p_id (posts db2) = List.map p_id (posts db) /\
    Model.findById (ci_post i) (posts db2) = Some p2 /\
    p_comments p2 = p_comments p /\
    (forall q, In q (posts db) -> p_id q <> ci_post i -> In q (posts db2)) /\
    List.map pc_doc (resolved (CommentService.getAll db2))
    = List.map pc_doc (resolved (CommentService.getAll db)).
Proof.
  intros Hu Hp Hlive Hcontent Hfresh Hnew created db1.
  set (push := PostModel.push_comment (now env) (c_id created)).
  set (pull := PostModel.pull_comment (now env') (c_id created)).
  assert (Hboth : forall d, doc_id (pull (push d)) = doc_id d) by reflexivity.
  assert (Hdb1 : db1 = {| users := users db;
                          posts := Model.updateOne (Model.by_id (ci_post i)) push (posts db);
                          comments := comments db ++ [created] |}).
  { subst db1. unfold CommentService.create, bind, query, modify, ret. simpl.
    rewrite Hu, Hp.
    destruct (CommentModel_create_cases env i db) as [[_ Hc]|[Hc _]]; [|contradiction].
    rewrite Hc. simpl. unfold set_posts, set_comments, Model.insert. simpl.
    rewrite (create_pushes_to_found (ci_post i) _ (posts db) p Hp Hlive).
    reflexivity. }
  assert (Hnone : Model.findById (fresh env) (comments db) = None).
  { apply (findById_None (fresh env) (comments db)). exact Hfresh. }
  assert (Hfound : Model.findById (c_id created) (comments db ++ [created]) = Some created).
  { rewrite findById_app_last. simpl. rewrite Hnone.
    unfold Model.by_id. simpl. rewrite String.eqb_refl. reflexivity. }
  assert (Hcs : Model.updateOne (Model.by_id (c_id created)) (set_deletedAt (now env'))
                  (comments db ++ [created])
                = comments db ++ [set_deletedAt (now env') created]).
  { rewrite updateOne_app_last.
    - unfold Model.by_id at 1. simpl. rewrite String.eqb_refl. reflexivity.
    - intros x Hx. apply (by_id_false (D := CommentDocument)). exact (Hfresh x Hx). }
  assert (Hps : Model.updateOne (Model.by_id (c_post created)) pull
                  (Model.updateOne (Model.by_id (ci_post i)) push (posts db))
                = Model.updateOne (Model.by_id (ci_post i)) (fun d => pull (push d))
                    (posts db)).
  { apply updateOne_twice. reflexivity. }
  exists {| users := users db;
            posts := Model.updateOne (Model.by_id (ci_post i)) (fun d => pull (push d))
                       (posts db);
            comments := comments db ++ [set_deletedAt (now env') created] |},
         (pull (push p)).
  split.
  { rewrite Hdb1.
    unfold CommentService.delete, bind, ret, modify, Model.findByIdAndUpdate.
    cbn [users posts comments fst snd set_comments set_posts].
    rewrite Hfound. cbn [fst snd set_comments set_posts users posts comments].
    unfold set_posts, set_comments. cbn [users posts comments].
    f_equal. f_equal; [exact Hps|exact Hcs]. }
  cbn [users posts comments].
  split; [reflexivity|]. split; [reflexivity|].
  split; [exact (updateOne_ids _ Hboth _ (posts db))|].
  split.
  { etransitivity; [exact (findById_updateOne_same _ Hboth (ci_post i) (posts db))|].
    rewrite Hp. reflexivity. }
  split.
  { unfold pull, push. simpl. rewrite List.filter_app. simpl.
    rewrite String.eqb_refl. simpl. rewrite app_nil_r.
    apply filter_out_absent. exact Hnew. }
  split.
  { intros q Hin Hne. apply In_updateOne_kept; [exact Hin|].
    apply (by_id_false (D := PostDocument)). exact Hne. }
  unfold resolved, CommentService.getAll, query. cbn [comments fst].
  rewrite !map_map. simpl. rewrite !map_id.
  pose proof (find_not_deleted_app_deleted (comments db) (now env') created) as Hsame.
  exact Hsame.
Qed.

(** X7 on the sample store: Alice comments on [Sample.post1] and takes the
    comment back; the post lists what it listed. *)
Lemma CommentService_create_then_delete_witness :
  let i := {| ci_content := "More"; ci_author := Sample.alice_id;
              ci_post := Sample.post1_id |} in
  exists db2 p2,
    CommentService.delete Sample.later (fresh Sample.env)
      (snd (CommentService.create Sample.env i Sample.db)) = (Ok true, db2) /\
    Model.findById Sample.post1_id (posts db2) = Some p2 /\
    p_comments p2 = [Sample.comment1_id].
Proof.
  destruct (CommentService_create_then_delete Sample.env Sample.later
              {| ci_content := "More"; ci_author := Sample.alice_id;
                 ci_post := Sample.post1_id |}
              Sample.db Sample.alice Sample.post1 eq_refl eq_refl eq_refl
              ltac:(discriminate)
              ltac:(simpl; intros c [<-|[]]; discriminate)
              ltac:(simpl; intros [H|[]]; discriminate))
    as (db2 & p2 & Hrun & _ & _ & _ & Hfound & Hlist & _).
  exists db2, p2. split; [exact Hrun|]. split; [exact Hfound|exact Hlist].
Defined.

(** ** What the writes do to the store as a whole *)

Lemma PostService_create_store (env : Env) (i : PostInput) (db : Db) :
  snd (PostService.create env i db) = db \/
  snd (PostService.create env i db)
  = {| users := users db; posts := posts db ++ [PostModel.document env i];
       comments := comments db |}.
Proof.
  unfold PostService.create, PostModel.create, bind, query, throw, modify, ret. simpl.
  destruct (Model.findById (pi_author i) (users db)); [|left; reflexivity].
  destruct (missing_paths _); [right|left]; reflexivity.
Qed.

Lemma CommentService_create_store (env : Env) (i : CommentInput) (db : Db) :
  snd (CommentService.create env i db) = db \/
  snd (CommentService.create env i db)
  = {| users := users db;
       posts := Model.updateOne
                  (fun p => Model.by_id (ci_post i) p && Model.not_deleted p)
                  (PostModel.push_comment (now env) (fresh env)) (posts db);
       comments := comments db ++ [CommentModel.document env i] |}.
Proof.
  unfold CommentService.create, bind, query, throw, modify, ret. simpl.
  destruct (Model.findById (ci_author i) (users db)); [|left; reflexivity].
  destruct (Model.findById (ci_post i) (posts db)); [|left; reflexivity].
  destruct (CommentModel_create_cases env i db) as [[_ Hc]|[_ Hc]]; rewrite Hc;
    [right|left]; reflexivity.
Qed.

Lemma CommentService_delete_store (env : Env) (id : ObjectId) (db : Db) :
  (Model.findById id (comments db) = None /\
   snd (CommentService.delete env id db) = db) \/
  (exists c, Model.findById id (comments db) = Some c /\ c_id c = id /\
     snd (CommentService.delete env id db)
     = {| users := users db;
          posts := Model.updateOne (Model.by_id (c_post c))
                     (PostModel.pull_comment (now env) id) (posts db);
          comments := Model.updateOne (Model.by_id id) (set_deletedAt (now env))
                        (comments db) |}).
Proof.
  unfold CommentService.delete, bind, ret, modify, Model.findByIdAndUpdate. simpl.
  destruct (Model.findById id (comments db)) as [c|] eqn:E.
  - right. exists c. destruct (findById_Some id (comments db) c E) as [_ Hid].
    simpl in Hid. split; [reflexivity|]. split; [exact Hid|]. simpl.
    rewrite Hid. reflexivity.
  - left. split; [reflexivity|]. simpl.
    rewrite (updateOne_findById_None id _ (comments db) E). apply set_comments_id.
Qed.

Lemma NoDup_app_last {A : Type} (l : list A) (x : A) :
  List.NoDup l -> ~ In x l -> List.NoDup (l ++ [x]).
Proof.
  intros Hl Hx. induction Hl as [|y l Hy Hl IH]; simpl.
  - constructor; [intros []|constructor].
  - constructor.
    + intros Hin. apply in_app_or in Hin. destruct Hin as [Hin|[->|[]]].
      * exact (Hy Hin).
      * apply Hx. left. reflexivity.
    + apply IH. intros Hin. apply Hx. right. exact Hin.
Qed.

Lemma fresh_not_in_ids {D : Type} `{Document D} (id : ObjectId) (coll : list D) :
  (forall d, In d coll -> doc_id d <> id) -> ~ In id (List.map doc_id coll).
Proof.
  intros Hall Hin. apply in_map_iff in Hin. destruct Hin as (d & Hid & Hd).
  exact (Hall d Hd Hid).
Qed.

(** X8.  Every write of the post and comment services keeps identifiers
    unique within each collection: [create] when the identifier that the
    driver assigns is not yet used in the collection, and [update] and
    [delete] always, since they never add a document nor change an
    identifier. *)
Theorem unique_ids_preserved (env : Env) (db : Db) :
  unique_ids db ->
  (forall i, (forall p, In p (posts db) -> p_id p <> fresh env) ->
     unique_ids (snd (PostService.create env i db))) /\
  (forall i, (forall c, In c (comments db) -> c_id c <> fresh env) ->
     unique_ids (snd (CommentService.create env i db))) /\
  (forall id i, unique_ids (snd (PostService.update env id i db))) /\
  (forall id i, unique_ids (snd (CommentService.update env id i db))) /\
  (forall id, unique_ids (snd (PostService.delete env id db))) /\
  (forall id, unique_ids (snd (CommentService.delete env id db))).
Proof.
  intros (Hu & Hp & Hc). unfold unique_ids.
  assert (Hpids : forall q (f : PostDocument -> PostDocument),
             (forall d, p_id (f d) = p_id d) ->
             List.map p_id (Model.updateOne q f (posts db)) = List.map p_id (posts db)).
  { intros q f Hf. exact (updateOne_ids f Hf q (posts db)). }
  assert (Hcids : forall q (f : CommentDocument -> CommentDocument),
             (forall d, c_id (f d) = c_id d) ->
             List.map c_id (Model.updateOne q f (comments db))
             = List.map c_id (comments db)).
  { intros q f Hf. exact (updateOne_ids f Hf q (comments db)). }
  split; [|split; [|split; [|split; [|split]]]].
  - intros i Hfresh. destruct (PostService_create_store env i db) as [-> | ->].
    + auto.
    + simpl. rewrite map_app. simpl. repeat split; [exact Hu| |exact Hc].
      apply NoDup_app_last; [exact Hp|].
      exact (fresh_not_in_ids (fresh env) (posts db) Hfresh).
  - intros i Hfresh. destruct (CommentService_create_store env i db) as [-> | ->].
    + auto.
    + simpl. rewrite map_app. simpl. repeat split; [exact Hu| |].
      * rewrite Hpids by reflexivity. exact Hp.
      * apply NoDup_app_last; [exact Hc|].
        exact (fresh_not_in_ids (fresh env) (comments db) Hfresh).
  - intros id i. unfold PostService.update, Model.findOneAndUpdate. simpl.
    rewrite Hpids by reflexivity. auto.
  - intros id i. unfold CommentService.update, Model.findOneAndUpdate. simpl.
    rewrite Hcids by reflexivity. auto.
  - intros id. unfold PostService.delete, bind, ret, Model.findByIdAndUpdate. simpl.
    rewrite Hpids by reflexivity. auto.
  - intros id. destruct (CommentService_delete_store env id db)
      as [[_ ->] | (c & _ & _ & ->)]; [auto|]. simpl.
    rewrite Hpids, Hcids by reflexivity. auto.
Qed.

Lemma sample_unique_ids : unique_ids Sample.db.
Proof.
  unfold unique_ids. simpl.
  repeat split; repeat (apply List.NoDup_cons || apply List.NoDup_nil);
    simpl; intuition discriminate.
Qed.

(** X8 on the sample store. *)
Lemma unique_ids_preserved_witness :
  unique_ids (snd (PostService.create Sample.env
                     {| pi_title := "Stew"; pi_content := "Recipe";
                        pi_author := Sample.alice_id; pi_genre := "Cooking";
                        pi_comments := [] |} Sample.db)) /\
  unique_ids (snd (CommentService.delete Sample.env Sample.comment1_id Sample.db)).
Proof.
  destruct (unique_ids_preserved Sample.env Sample.db sample_unique_ids)
    as (Hcreate & _ & _ & _ & _ & Hdelete).
  split; [|exact (Hdelete Sample.comment1_id)].
  apply Hcreate. simpl. intros p [<-|[<-|[]]]; discriminate.
Defined.





Lemma filter_all_true {A : Type} (f : A -> bool) (l : list A) :
  (forall x, In x l -> f x = true) -> List.filter f l = l.
Proof.
  induction l as [|x l IH]; intros Hf; [reflexivity|]. simpl.
  rewrite (Hf x) by (left; reflexivity). f_equal. apply IH.
  intros y Hy. apply Hf. right. exact Hy.
Qed.

Lemma find_not_deleted_after_soft_delete {D : Type} `{DocumentLaws D}
  (id : ObjectId) (t : Date) (coll : list D) :
  List.NoDup (List.map doc_id coll) ->
  Model.find Model.not_deleted (Model.updateOne (Model.by_id id) (set_deletedAt t) coll)
  = List.filter (fun d => negb (Model.by_id id d)) (Model.find Model.not_deleted coll).
Proof.
  unfold Model.find. induction coll as [|d coll IH]; intros Hnd; [reflexivity|].
  inversion Hnd as [|? ? Hnotin Hnd']; subst. simpl.
  destruct (Model.by_id id d) eqn:E.
  - simpl. unfold Model.not_deleted at 1. rewrite deletedAt_set_deletedAt.
    assert (Hrest : List.filter (fun d0 => negb (Model.by_id id d0))
                      (List.filter Model.not_deleted coll)
                    = List.filter Model.not_deleted coll).
    { apply filter_all_true. intros x Hx. apply filter_In in Hx.
      destruct Hx as [Hx _]. apply negb_true_iff. apply by_id_false.
      intros Hk. apply Hnotin. apply by_id_true in E. rewrite E, <- Hk.
      apply in_map. exact Hx. }
    destruct (Model.not_deleted d); simpl; rewrite ?E; simpl; symmetry; exact Hrest.
  - simpl. destruct (Model.not_deleted d); simpl; rewrite ?E; simpl;
      rewrite (IH Hnd'); reflexivity.
Qed.

(** X10.  In a store with unique identifiers, what [getAll] finds after a
    [delete] of the rendering of an ObjectId is what it found before without the document of the deleted
    identifier, in the same order: this holds for posts after
    [PostService.delete] and for comments after [CommentService.delete].
    In particular no document with the deleted identifier is listed any
    more and no other document disappears. *)
Theorem delete_then_getAll (env : Env) (id : ObjectId) (db : Db) :
  canonical id = true ->
  unique_ids db ->
  List.map pp_doc (resolved (PostService.getAll (snd (PostService.delete env id db))))
  = List.filter (fun p => negb (String.eqb (p_id p) id))
      (List.map pp_doc (resolved (PostService.getAll db))) /\
  List.map pc_doc (resolved (CommentService.getAll (snd (CommentService.delete env id db))))
  = List.filter (fun c => negb (String.eqb (c_id c) id))
      (List.map pc_doc (resolved (CommentService.getAll db))).
Proof.
  intros _ (_ & Hp & Hc).
  unfold resolved, PostService.getAll, CommentService.getAll, query. cbn [fst].
  rewrite !map_map. cbn [pp_doc populate_post pc_doc populate_comment]. rewrite !map_id.
  split.
  - unfold PostService.delete, bind, ret, Model.findByIdAndUpdate. simpl.
    exact (find_not_deleted_after_soft_delete id (now env) (posts db) Hp).
  - destruct (CommentService_delete_store env id db) as [[Hnone ->] | (c & _ & _ & ->)].
    + symmetry. apply filter_all_true. intros x Hx. apply filter_In in Hx.
      destruct Hx as [Hx _]. apply negb_true_iff, String.eqb_neq.
      exact (proj1 (findById_None id (comments db)) Hnone x Hx).
    + cbn [comments].
      exact (find_not_deleted_after_soft_delete id (now env) (comments db) Hc).
Qed.

(** X10 on the sample store: after the delete of [Sample.post1] no post is
    listed, the other one being soft-deleted already. *)
Lemma delete_then_getAll_witness :
  List.map pp_doc (resolved (PostService.getAll
                     (snd (PostService.delete Sample.env Sample.post1_id Sample.db))))
  = [].
Proof.
  rewrite (proj1 (delete_then_getAll Sample.env Sample.post1_id Sample.db
                    eq_refl sample_unique_ids)).
  reflexivity.
Defined.

(** ** Outcomes of the controllers *)

Lemma no_user_with_id (id : ObjectId) (db : Db) :
  Model.findById id (users db) = None <-> forall u, In u (users db) -> u_id u <> id.
Proof. exact (findById_None id (users db)). Qed.

Lemma no_post_with_id (id : ObjectId) (db : Db) :
  Model.findById id (posts db) = None <-> forall p, In p (posts db) -> p_id p <> id.
Proof. exact (findById_None id (posts db)). Qed.

Lemma no_comment_with_id (id : ObjectId) (db : Db) :
  Model.findById id (comments db) = None <->
  forall c, In c (comments db) -> c_id c <> id.
Proof. exact (findById_None id (comments db)). Qed.

(** X11.  [getOne] of both controllers reads the identifier from the
    route and, when it is the rendering of an ObjectId, answers 404 with a
    message that names the identifier exactly when no document has it, and
    otherwise sends the populated document without setting a status, also
    when the document is soft-deleted; it calls [getById] once and never
    writes. *)
Theorem getOne_outcome (req : Request) (db : Db) :
  let id := field (params req) "id" in
  canonical id = true ->
  ((forall p, In p (posts db) -> p_id p <> id) ->
     PostController.getOne req db
     = ([ServiceCall "postsService.getById"; Status 404;
         SendJson (message_body ("Post with id " +:+ id +:+ " not found"))], db)) /\
  (forall p, Model.findById id (posts db) = Some p ->
     PostController.getOne req db
     = ([ServiceCall "postsService.getById";
         SendJson (json_of_populated_post (populate_post db p))], db)) /\
  ((forall c, In c (comments db) -> c_id c <> id) ->
     CommentController.getOne req db
     = ([ServiceCall "commentsService.getById"; Status 404;
         SendJson (message_body ("Comment with id " +:+ id +:+ " not found"))], db)) /\
  (forall c, Model.findById id (comments db) = Some c ->
     CommentController.getOne req db
     = ([ServiceCall "commentsService.getById";
         SendJson (json_of_populated_comment (populate_comment db c))], db)).
Proof.
  intros id _.
  unfold PostController.getOne, CommentController.getOne,
    PostService.getById, CommentService.getById, query.
  fold id. split; [|split; [|split]].
  - intros Hnone.
    rewrite (proj2 (no_post_with_id id db) Hnone). reflexivity.
  - intros p Hp. rewrite Hp. reflexivity.
  - intros Hnone.
    rewrite (proj2 (no_comment_with_id id db) Hnone). reflexivity.
  - intros c Hc. rewrite Hc. reflexivity.
Qed.

Lemma PostModel_create_cases env i db :
  (pi_title i <> "" /\ pi_content i <> "" /\ pi_genre i <> "" /\
   PostModel.create env i db
   = (Ok (PostModel.document env i),
      set_posts (Model.insert (PostModel.document env i)) db)) \/
  ((pi_title i = "" \/ pi_content i = "" \/ pi_genre i = "") /\
   exists paths, PostModel.create env i db = (Throw (ValidationError paths), db)).
Proof.
  unfold PostModel.create, missing_paths. simpl.
  destruct (String.eqb (pi_title i) "") eqn:Et;
    destruct (String.eqb (pi_content i) "") eqn:Ec;
    destruct (String.eqb (pi_genre i) "") eqn:Eg; simpl;
    first [apply String.eqb_eq in Et | apply String.eqb_neq in Et];
    first [apply String.eqb_eq in Ec | apply String.eqb_neq in Ec];
    first [apply String.eqb_eq in Eg | apply String.eqb_neq in Eg];
    first [ left; repeat split; first [assumption | reflexivity]
          | right; split; [tauto | eexists; reflexivity] ].
Qed.

(** X12.  [CommentController.create], once the principal is the author,
    on a body that carries no other key than [content], [author] and
    [post], the two references being renderings of ObjectIds: it answers 400 [{ message: "User not found" }] when no user document
    has the author's identifier and, with the same message, when the author
    exists but no post document has the parent's identifier; 500 when both
    exist but the content is empty; and 201 with the created comment
    otherwise, the comment then being stored.  In the three failing cases
    the store is as before. *)
Theorem CommentController_create_outcome (env : Env) (req : Request) (db : Db) :
  author_mismatch req = false ->
  only_keys ["content"; "author"; "post"] (body req) = true ->
  let i := as_CommentInput req in
  canonical (ci_author i) = true ->
  canonical (ci_post i) = true ->
  ((forall u, In u (users db) -> u_id u <> ci_author i) ->
     CommentController.create env req db
     = ([ServiceCall "commentsService.create"; Status 400;
         SendJson (message_body "User not found")], db)) /\
  ((exists u, In u (users db) /\ u_id u = ci_author i) ->
   (forall p, In p (posts db) -> p_id p <> ci_post i) ->
     CommentController.create env req db
     = ([ServiceCall "commentsService.create"; Status 400;
         SendJson (message_body "User not found")], db)) /\
  ((exists u, In u (users db) /\ u_id u = ci_author i) ->
   (exists p, In p (posts db) /\ p_id p = ci_post i) ->
   ci_content i = "" ->
     CommentController.create env req db
     = ([ServiceCall "commentsService.create"; Status 500;
         SendJson (json_of_error (ValidationError "content"))], db)) /\
  ((exists u, In u (users db) /\ u_id u = ci_author i) ->
   (exists p, In p (posts db) /\ p_id p = ci_post i) ->
   ci_content i <> "" ->
     let created := CommentModel.document env i in
     fst (CommentController.create env req db)
     = [ServiceCall "commentsService.create"; Status 201;
        SendJson (json_of_comment created)] /\
     comments (snd (CommentController.create env req db)) = comments db ++ [created] /\
     users (snd (CommentController.create env req db)) = users db /\
     c_id created = fresh env /\ c_content created = ci_content i /\
     c_author created = ci_author i /\ c_post created = ci_post i /\
     c_deletedAt created = None).
Proof.
  intros Hok _ i _ _.
  unfold CommentController.create. rewrite Hok. fold i. clearbody i.
  pose proof (no_user_with_id (ci_author i) db) as HNu.
  pose proof (no_post_with_id (ci_post i) db) as HNp.
  pose proof (findById_is_Some (ci_author i) (users db)) as HSu.
  pose proof (findById_is_Some (ci_post i) (posts db)) as HSp.
  unfold CommentService.create, bind, query, throw, modify, ret.
  cbn beta iota.
  split; [|split; [|split]].
  - intros Hmiss. rewrite (proj2 HNu Hmiss). reflexivity.
  - intros Hu Hmiss. apply (proj2 HSu) in Hu. destruct Hu as [u ->].
    rewrite (proj2 HNp Hmiss). reflexivity.
  - intros Hu Hp Hempty. apply (proj2 HSu) in Hu. destruct Hu as [u ->].
    apply (proj2 HSp) in Hp. destruct Hp as [p ->].
    destruct (CommentModel_create_cases env i db) as [[Hne _]|[_ Hc]];
      [contradiction|]. rewrite Hc. reflexivity.
  - intros Hu Hp Hcontent. apply (proj2 HSu) in Hu. destruct Hu as [u ->].
    apply (proj2 HSp) in Hp. destruct Hp as [p ->].
    destruct (CommentModel_create_cases env i db) as [[_ Hc]|[He _]];
      [|contradiction]. rewrite Hc. repeat split.
Qed.

(** X12 on the sample store: Alice, authenticated, comments on a post that
    does not exist, and is told that the user was not found. *)
Lemma CommentController_create_outcome_witness :
  CommentController.create Sample.env
    (Sample.request None []
       [("content", "Hi"); ("author", Sample.alice_id); ("post", Sample.unknown_id)]
       (Some Sample.alice_principal))
    Sample.db
  = ([ServiceCall "commentsService.create"; Status 400;
      SendJson (message_body "User not found")], Sample.db).
Proof.
  refine (proj1 (proj2 (CommentController_create_outcome Sample.env
            (Sample.request None []
               [("content", "Hi"); ("author", Sample.alice_id);
                ("post", Sample.unknown_id)]
               (Some Sample.alice_principal))
            Sample.db eq_refl eq_refl eq_refl eq_refl)) _ _).
  - exists Sample.alice. split; [left; reflexivity|reflexivity].
  - vm_compute. intros p [<-|[<-|[]]]; discriminate.
Defined.

(** X13.  [PostController.create], once the principal is the author, on a
    body that carries no other key than [title], [content], [author] and
    [genre] beside its [comments], the references being renderings of
    ObjectIds: 400
    [{ message: "User not found" }] when no user document has the author's
    identifier; 500 when the author exists but the title, the content or
    the genre is empty; and otherwise 201 with the created post, which
    starts with the [comments] of the body and is appended to the posts.
    In the two failing cases the store is as before. *)
Theorem PostController_create_outcome (env : Env) (req : Request) (db : Db) :
  author_mismatch req = false ->
  only_keys ["title"; "content"; "author"; "genre"] (body req) = true ->
  let i := as_PostInput req in
  canonical (pi_author i) = true ->
  forallb canonical (pi_comments i) = true ->
  ((forall u, In u (users db) -> u_id u <> pi_author i) ->
     PostController.create env req db
     = ([ServiceCall "postsService.create"; Status 400;
         SendJson (message_body "User not found")], db)) /\
  ((exists u, In u (users db) /\ u_id u = pi_author i) ->
   (pi_title i = "" \/ pi_content i = "" \/ pi_genre i = "") ->
     exists paths,
       PostController.create env req db
       = ([ServiceCall "postsService.create"; Status 500;
           SendJson (json_of_error (ValidationError paths))], db)) /\
  ((exists u, In u (users db) /\ u_id u = pi_author i) ->
   pi_title i <> "" -> pi_content i <> "" -> pi_genre i <> "" ->
     PostController.create env req db
     = ([ServiceCall "postsService.create"; Status 201;
         SendJson (json_of_post (PostModel.document env i))],
        {| users := users db; posts := posts db ++ [PostModel.document env i];
           comments := comments db |}) /\
     p_comments (PostModel.document env i) = body_comments req /\
     p_id (PostModel.document env i) = fresh env /\
     p_title (PostModel.document env i) = pi_title i /\
     p_content (PostModel.document env i) = pi_content i /\
     p_author (PostModel.document env i) = pi_author i /\
     p_genre (PostModel.document env i) = pi_genre i /\
     p_deletedAt (PostModel.document env i) = None).
Proof.
  intros Hok _ i _ _.
  assert (Hcomments : p_comments (PostModel.document env i) = body_comments req)
    by reflexivity.
  unfold PostController.create. rewrite Hok. fold i.
  revert Hcomments. generalize (body_comments req) as listed. clearbody i.
  intros listed Hcomments.
  pose proof (no_user_with_id (pi_author i) db) as HNu.
  pose proof (findById_is_Some (pi_author i) (users db)) as HSu.
  unfold PostService.create, bind, query, throw.
  cbn beta iota.
  split; [|split].
  - intros Hmiss. rewrite (proj2 HNu Hmiss). reflexivity.
  - intros Hu Hempty. apply (proj2 HSu) in Hu. destruct Hu as [u ->].
    destruct (PostModel_create_cases env i db) as [(Ht & Hc & Hg & _)|[_ [paths Hthrow]]].
    + tauto.
    + exists paths. rewrite Hthrow. reflexivity.
  - intros Hu Ht Hc Hg. apply (proj2 HSu) in Hu. destruct Hu as [u ->].
    destruct (PostModel_create_cases env i db) as [(_ & _ & _ & Hrun)|[Hempty _]].
    + rewrite Hrun. split; [reflexivity|]. split; [exact Hcomments|]. repeat split.
    + tauto.
Qed.

(** X13 on the sample store: Alice, authenticated, posts under her name. *)
Lemma PostController_create_outcome_witness :
  fst (PostController.create Sample.env
         (Sample.request None []
            [("title", "T"); ("content", "C"); ("author", Sample.alice_id);
             ("genre", "G")]
            (Some Sample.alice_principal))
         Sample.db)
  = [ServiceCall "postsService.create"; Status 201;
     SendJson (json_of_post
                 (PostModel.document Sample.env
                    {| pi_title := "T"; pi_content := "C";
                       pi_author := Sample.alice_id; pi_genre := "G";
                       pi_comments := [] |}))].
Proof.
  destruct (proj2 (proj2 (PostController_create_outcome Sample.env
              (Sample.request None []
                 [("title", "T"); ("content", "C"); ("author", Sample.alice_id);
                  ("genre", "G")]
                 (Some Sample.alice_principal))
              Sample.db eq_refl eq_refl eq_refl eq_refl))
              ltac:(exists Sample.alice; split; [left; reflexivity|reflexivity])
              ltac:(vm_compute; discriminate) ltac:(vm_compute; discriminate)
              ltac:(vm_compute; discriminate))
    as [Hrun _].
  rewrite Hrun. reflexivity.
Defined.

(** X14.  [getByAuthorId] of both controllers reads the user identifier
    from the route and, when it is the rendering of an ObjectId, answers
    400 [{ message: "User not found" }] exactly when no user document has
    it, and otherwise sends, without setting a
    status, the array that the service resolves to; it never writes. *)
Theorem getByAuthorId_outcome (req : Request) (db : Db) :
  let userId := field (params req) "userId" in
  canonical userId = true ->
  ((forall u, In u (users db) -> u_id u <> userId) ->
     PostController.getByAuthorId req db
     = ([ServiceCall "postsService.getByAuthorId"; Status 400;
         SendJson (message_body "User not found")], db) /\
     CommentController.getByAuthorId req db
     = ([ServiceCall "commentsService.getByAuthorId"; Status 400;
         SendJson (message_body "User not found")], db)) /\
  ((exists u, In u (users db) /\ u_id u = userId) ->
     PostController.getByAuthorId req db
     = ([ServiceCall "postsService.getByAuthorId";
         SendJson (JArr (List.map json_of_populated_post
                           (resolved (PostService.getByAuthorId userId db))))], db) /\
     CommentController.getByAuthorId req db
     = ([ServiceCall "commentsService.getByAuthorId";
         SendJson (JArr (List.map json_of_populated_comment
                           (resolved (CommentService.getByAuthorId userId db))))], db)).
Proof.
  intros userId _.
  destruct (PostService_getByAuthorId_cases userId db) as [HPn HPs].
  destruct (CommentService_getByAuthorId_cases userId db) as [HCn HCs].
  unfold PostController.getByAuthorId, CommentController.getByAuthorId. fold userId.
  split.
  - intros Hmiss. rewrite (HPn Hmiss), (HCn Hmiss). split; reflexivity.
  - intros Hex. destruct (HPs Hex) as (ps & -> & _). destruct (HCs Hex) as (cs & -> & _).
    split; reflexivity.
Qed.

(** ** What a validated request looks like *)

Section ValidatedFacts.
Import Validator ValidatorSpec.

Lemma get_set_same l p v req : get l p (set l p v req) = Some v.
Proof. destruct l; simpl; apply lookup_insert_eq. Qed.

(** What a chain leaves in its own field depends on what it found there. *)
Lemma get_sanitize_one_same req r :
  get (location r) (path r) (sanitize_one req r)
  = if skipped req r then get (location r) (path r) req else sanitized req r.
Proof.
  unfold sanitize_one, sanitized. destruct (skipped req r); [reflexivity|].
  destruct (trim r); [apply get_set_same|reflexivity].
Qed.

Lemma get_sanitize_notin rules req l p :
  ~ In (l, p) (List.map target rules) -> get l p (sanitize rules req) = get l p req.
Proof.
  unfold sanitize. revert req. induction rules as [|r rules IH]; intros req Hn;
    [reflexivity|]. simpl.
  rewrite IH by (intros Hin; apply Hn; right; exact Hin).
  apply get_sanitize_one_other. intros Heq. apply Hn. left. exact Heq.
Qed.

Lemma skipped_agrees req req1 r :
  get (location r) (path r) req1 = get (location r) (path r) req ->
  skipped req1 r = skipped req r /\ sanitized req1 r = sanitized req r.
Proof. intros Hg. unfold skipped, sanitized. rewrite Hg. split; reflexivity. Qed.

Lemma get_sanitize_in rules :
  List.NoDup (List.map target rules) ->
  forall req r, In r rules ->
    get (location r) (path r) (sanitize rules req)
    = if skipped req r then get (location r) (path r) req else sanitized req r.
Proof.
  induction rules as [|r0 rules IH]; intros Hnd req r Hin; [contradiction|].
  inversion Hnd as [|? ? Hnotin Hnd']; subst.
  change (sanitize (r0 :: rules) req) with (sanitize rules (sanitize_one req r0)).
  destruct Hin as [->|Hin].
  - rewrite get_sanitize_notin by exact Hnotin. apply get_sanitize_one_same.
  - rewrite (IH Hnd' (sanitize_one req r0) r Hin).
    assert (Hg : get (location r) (path r) (sanitize_one req r0)
                 = get (location r) (path r) req).
    { apply get_sanitize_one_other. intros Heq. apply Hnotin.
      rewrite Heq. apply (in_map target). exact Hin. }
    destruct (skipped_agrees req (sanitize_one req r0) r Hg) as [-> ->].
    rewrite Hg. reflexivity.
Qed.

Lemma user_sanitize rules req : user (sanitize rules req) = user req.
Proof.
  unfold sanitize. revert req. induction rules as [|r rules IH]; intros req;
    [reflexivity|]. simpl. rewrite IH. unfold sanitize_one.
  destruct (skipped req r); [reflexivity|].
  destruct (trim r); [|reflexivity]. destruct (location r); reflexivity.
Qed.

Lemma validate_result rules req :
  List.NoDup (List.map target rules) ->
  Validator.validate rules req
  = (sanitize rules req,
     match List.filter (violates req) rules with
     | [] => [NextCalled]
     | violated =>
         [Status 400; SendJson (envelope (List.map (entry req) violated))]
     end).
Proof.
  intros Hnd. unfold Validator.validate, Validator.run.
  rewrite (run_fold req rules Hnd req []) by (intros; reflexivity).
  destruct (List.filter (violates req) rules) as [|r rs]; [reflexivity|].
  simpl. unfold envelope. rewrite map_map. reflexivity.
Qed.

End ValidatedFacts.

(** What the request handed on by a validation array holds. *)
Lemma validated_request_facts
  (rules : list Validator.Rule) (req req' : Request) (trace : list Effect) :
  List.NoDup (List.map ValidatorSpec.target rules) ->
  Validator.validate rules req = (req', trace) ->
  count_next trace = 1 ->
  user req' = user req /\
  forall r, In r rules ->
    let value := Validator.get (Validator.location r) (Validator.path r) req' in
    (ValidatorSpec.skipped req r = true -> value = None) /\
    (ValidatorSpec.skipped req r = false ->
       value = ValidatorSpec.sanitized req r /\
       Validator.passes (Validator.check r) (Validator.toString value) = true).
Proof.
  intros Hnd Hrun Hnext. rewrite (validate_result rules req Hnd) in Hrun.
  injection Hrun as <- <-. split; [apply user_sanitize|].
  intros r Hin value. subst value. rewrite (get_sanitize_in rules Hnd req r Hin).
  destruct (List.filter (ValidatorSpec.violates req) rules) as [|v vs] eqn:Hfilter;
    [|discriminate].
  assert (Hok : ValidatorSpec.violates req r = false).
  { destruct (ValidatorSpec.violates req r) eqn:E; [|reflexivity].
    assert (Hv : In r (List.filter (ValidatorSpec.violates req) rules))
      by (apply filter_In; auto).
    rewrite Hfilter in Hv. contradiction. }
  unfold ValidatorSpec.violates in Hok. split.
  - intros Hskip. rewrite Hskip. unfold ValidatorSpec.skipped in Hskip.
    destruct (Validator.get _ _ req); [|reflexivity].
    rewrite andb_false_r in Hskip. discriminate.
  - intros Hskip. rewrite Hskip in *. simpl in Hok.
    apply negb_false_iff in Hok. split; [reflexivity|exact Hok].
Qed.

(** X15.  Behind a validation array that names each field once, the
    controller only sees requests that satisfy the rules.  For a request
    whose values under those fields are text within ASCII: when the array
    calls [next], every rule that is not skipped finds in the request
    handed on the sanitized value of its field, and that value passes the
    rule's check; a skipped optional rule leaves its field absent; and the
    principal attached to the request is not touched. *)
Theorem validated_request_satisfies_rules
  (rules : list Validator.Rule) (req req' : Request) (trace : list Effect) :
  List.NoDup (List.map ValidatorSpec.target rules) ->
  ValidatorSpec.ascii_fields rules req = true ->
  Validator.validate rules req = (req', trace) ->
  count_next trace = 1 ->
  user req' = user req /\
  forall r, In r rules ->
    let value := Validator.get (Validator.location r) (Validator.path r) req' in
    (ValidatorSpec.skipped req r = true -> value = None) /\
    (ValidatorSpec.skipped req r = false ->
       value = ValidatorSpec.sanitized req r /\
       Validator.passes (Validator.check r) (Validator.toString value) = true).
Proof.
  intros Hnd _ Hrun Hnext.
  exact (validated_request_facts rules req req' trace Hnd Hrun Hnext).
Qed.

(** X15 on [postValidations.create] and a well-formed body with a padded
    title. *)
Lemma validated_request_satisfies_rules_witness :
  let req := Sample.request None []
               [("title", " a "); ("content", "c"); ("author", Sample.alice_id);
                ("genre", "g")] None in
  List.Forall
    (fun r =>
       Validator.passes (Validator.check r)
         (Validator.toString
            (Validator.get (Validator.location r) (Validator.path r)
               (fst (Validator.validate postValidations.create req)))) = true)
    postValidations.create.
Proof.
  intros req.
  destruct (validated_request_satisfies_rules postValidations.create req
              (fst (Validator.validate postValidations.create req))
              (snd (Validator.validate postValidations.create req)))
    as [_ Hrules].
  - repeat (apply List.NoDup_cons || apply List.NoDup_nil); simpl; intuition discriminate.
  - vm_compute. reflexivity.
  - destruct (Validator.validate postValidations.create req); reflexivity.
  - vm_compute. reflexivity.
  - apply List.Forall_forall. intros r Hin.
    refine (proj2 (proj2 (Hrules r Hin) _)).
    simpl in Hin.
    repeat (destruct Hin as [<-|Hin]; [vm_compute; reflexivity|]).
    contradiction.
Defined.

Lemma isLength_bounds (min max : nat) (s : string) :
  Validator.isLength min max s = true <->
  (min <= String.length s /\ String.length s <= max)%nat.
Proof.
  unfold Validator.isLength. rewrite andb_true_iff, !Nat.leb_le. reflexivity.
Qed.

Lemma nonempty_of_length (s : string) : (1 <= String.length s)%nat -> s <> "".
Proof. intros Hlen ->. simpl in Hlen. lia. Qed.

Lemma distinct_targets_post_create :
  List.NoDup (List.map ValidatorSpec.target postValidations.create).
Proof.
  repeat (apply List.NoDup_cons || apply List.NoDup_nil); simpl; intuition discriminate.
Qed.

Lemma distinct_targets_comment_create :
  List.NoDup (List.map ValidatorSpec.target commentValidations.create).
Proof.
  repeat (apply List.NoDup_cons || apply List.NoDup_nil); simpl; intuition discriminate.
Qed.

(** X16.  A body of text within ASCII that [postValidations.create] lets
    through, with no other key than those of the input interface and with
    renderings of ObjectIds as references, meets the post schema: its
    title, content and genre have between 1 and 100, 5000
    and 20 characters and its author has the identifier shape, so that
    [PostService.create] on it either fails with "User not found" or
    stores the post; the schema's rejection of an empty required path
    cannot occur.  The same holds for [commentValidations.create], the
    content of at most 100 characters, and [CommentService.create], whose
    only failures are then the two reference errors. *)
Theorem validated_create_meets_schema (req req' : Request) (trace : list Effect)
  (env : Env) (db : Db) :
  count_next trace = 1 ->
  (Validator.validate postValidations.create req = (req', trace) ->
     ValidatorSpec.ascii_fields postValidations.create req = true ->
     only_keys ["title"; "content"; "author"; "genre"] (body req) = true ->
     let i := as_PostInput req' in
     canonical (pi_author i) = true ->
     forallb canonical (pi_comments i) = true ->
     (1 <= String.length (pi_title i) <= 100)%nat /\
     (1 <= String.length (pi_content i) <= 5000)%nat /\
     (1 <= String.length (pi_genre i) <= 20)%nat /\
     Validator.isMongoId (pi_author i) = true /\
     (PostService.create env i db = (Throw (ReferenceError "User not found"), db) \/
      exists db', PostService.create env i db = (Ok (PostModel.document env i), db') /\
                  posts db' = posts db ++ [PostModel.document env i] /\
                  p_title (PostModel.document env i) = pi_title i /\
                  p_content (PostModel.document env i) = pi_content i /\
                  p_genre (PostModel.document env i) = pi_genre i /\
                  p_author (PostModel.document env i) = pi_author i)) /\
  (Validator.validate commentValidations.create req = (req', trace) ->
     ValidatorSpec.ascii_fields commentValidations.create req = true ->
     only_keys ["content"; "author"; "post"] (body req) = true ->
     let i := as_CommentInput req' in
     canonical (ci_author i) = true ->
     canonical (ci_post i) = true ->
     (1 <= String.length (ci_content i) <= 100)%nat /\
     Validator.isMongoId (ci_author i) = true /\
     Validator.isMongoId (ci_post i) = true /\
     (CommentService.create env i db = (Throw (ReferenceError "User not found"), db) \/
      CommentService.create env i db = (Throw (ReferenceError "Post not found"), db) \/
      exists db', CommentService.create env i db
                  = (Ok (CommentModel.document env i), db') /\
                  comments db' = comments db ++ [CommentModel.document env i] /\
                  c_content (CommentModel.document env i) = ci_content i /\
                  c_author (CommentModel.document env i) = ci_author i /\
                  c_post (CommentModel.document env i) = ci_post i)).
Proof.
  intros Hnext. split.
  - intros Hrun _ _ i _ _.
    destruct (validated_request_facts _ req req' trace
                distinct_targets_post_create Hrun Hnext) as [_ Hrules].
    assert (Hpass : forall r, In r postValidations.create ->
              Validator.passes (Validator.check r)
                (field (body req') (Validator.path r)) = true).
    { intros r Hin. destruct (Hrules r Hin) as [_ Hp].
      assert (Hs : ValidatorSpec.skipped req r = false).
      { simpl in Hin. destruct Hin as [<-|[<-|[<-|[<-|[]]]]]; reflexivity. }
      assert (Hb : Validator.location r = Validator.InBody).
      { simpl in Hin. destruct Hin as [<-|[<-|[<-|[<-|[]]]]]; reflexivity. }
      destruct (Hp Hs) as [_ Hok]. rewrite Hb in Hok. exact Hok. }
    pose proof (Hpass _ (or_introl eq_refl)) as Ht.
    pose proof (Hpass _ (or_intror (or_introl eq_refl))) as Hc.
    pose proof (Hpass _ (or_intror (or_intror (or_introl eq_refl)))) as Ha.
    pose proof (Hpass _ (or_intror (or_intror (or_intror (or_introl eq_refl))))) as Hg.
    simpl in Ht, Hc, Ha, Hg.
    apply isLength_bounds in Ht. apply isLength_bounds in Hc. apply isLength_bounds in Hg.
    fold (pi_title i) in Ht. fold (pi_content i) in Hc. fold (pi_genre i) in Hg.
    split; [exact Ht|]. split; [exact Hc|]. split; [exact Hg|]. split; [exact Ha|].
    unfold PostService.create, bind, query, throw. cbn beta iota.
    destruct (Model.findById (pi_author i) (users db)); [|left; reflexivity].
    right. destruct (PostModel_create_cases env i db) as [(_ & _ & _ & Hok)|[Hempty _]].
    + eexists. split; [exact Hok|]. repeat split.
    + exfalso. destruct Hempty as [He|[He|He]].
      * exact (nonempty_of_length _ (proj1 Ht) He).
      * exact (nonempty_of_length _ (proj1 Hc) He).
      * exact (nonempty_of_length _ (proj1 Hg) He).
  - intros Hrun _ _ i _ _.
    destruct (validated_request_facts _ req req' trace
                distinct_targets_comment_create Hrun Hnext) as [_ Hrules].
    assert (Hpass : forall r, In r commentValidations.create ->
              Validator.passes (Validator.check r)
                (field (body req') (Validator.path r)) = true).
    { intros r Hin. destruct (Hrules r Hin) as [_ Hp].
      assert (Hs : ValidatorSpec.skipped req r = false).
      { simpl in Hin. destruct Hin as [<-|[<-|[<-|[]]]]; reflexivity. }
      assert (Hb : Validator.location r = Validator.InBody).
      { simpl in Hin. destruct Hin as [<-|[<-|[<-|[]]]]; reflexivity. }
      destruct (Hp Hs) as [_ Hok]. rewrite Hb in Hok. exact Hok. }
    pose proof (Hpass _ (or_introl eq_refl)) as Hc.
    pose proof (Hpass _ (or_intror (or_introl eq_refl))) as Ha.
    pose proof (Hpass _ (or_intror (or_intror (or_introl eq_refl)))) as Hp.
    simpl in Hc, Ha, Hp. apply isLength_bounds in Hc.
    fold (ci_content i) in Hc.
    split; [exact Hc|]. split; [exact Ha|]. split; [exact Hp|].
    unfold CommentService.create, bind, query, throw, modify, ret. cbn beta iota.
    destruct (Model.findById (ci_author i) (users db)); [|left; reflexivity].
    destruct (Model.findById (ci_post i) (posts db)); [|right; left; reflexivity].
    right. right.
    destruct (CommentModel_create_cases env i db) as [[_ Hok]|[Hempty _]].
    + rewrite Hok. eexists. split; [reflexivity|]. repeat split.
    + exfalso. exact (nonempty_of_length _ (proj1 Hc) Hempty).
Qed.

(** X16 on the validated form of a padded post body. *)
Lemma validated_create_meets_schema_witness :
  let req := Sample.request None []
               [("title", " a "); ("content", "c"); ("author", Sample.alice_id);
                ("genre", "g")] None in
  let req' := fst (Validator.validate postValidations.create req) in
  (1 <= String.length (pi_title (as_PostInput req')) <= 100)%nat.
Proof.
  intros req req'.
  destruct (validated_create_meets_schema req req' [NextCalled] Sample.env Sample.db
              eq_refl) as [Hpost _].
  exact (proj1 (Hpost eq_refl eq_refl eq_refl eq_refl eq_refl)).
Defined.

(** X17.  The two [update] arrays treat a body without fields differently.
    [commentValidations.update] has no [optional()]: for every request
    whose body has no [content], or a blank one, it answers 400 with the
    single entry of the content rule, reporting the empty string as value,
    and does not call [next].  [postValidations.update] is all optional:
    for every request whose body has none of [title], [genre] and
    [content] it calls [next] once and hands the request on unchanged. *)
Theorem update_validations_on_missing_fields (req : Request) :
  (Validator.trim_string (Validator.toString (body req !! "content")) = "" ->
     snd (Validator.validate commentValidations.update req)
     = [Status 400;
        SendJson (JObj [("message", JStr "Validation errors");
                        ("errors",
                         JArr [JObj [("field", JStr "content");
                                     ("message",
                                      JStr "Content must be between 1 and 100 characters");
                                     ("value", JStr "")]])])]) /\
  (body req !! "title" = None -> body req !! "genre" = None ->
   body req !! "content" = None ->
     Validator.validate postValidations.update req = (req, [NextCalled])).
Proof.
  split.
  - intros Hblank.
    unfold Validator.validate, Validator.run, commentValidations.update. simpl.
    unfold Validator.run_chain. simpl.
    destruct (body req !! "content") as [s|] eqn:E; simpl in *; rewrite Hblank;
      reflexivity.
  - intros Ht Hg Hc.
    unfold Validator.validate, Validator.run, postValidations.update. simpl.
    unfold Validator.run_chain. simpl. rewrite Ht, Hg, Hc. reflexivity.
Qed.

(** X17 on a request with an empty body. *)
Lemma update_validations_on_missing_fields_witness :
  Validator.validate postValidations.update (Sample.request None [] [] None)
  = (Sample.request None [] [] None, [NextCalled]).
Proof.
  exact (proj2 (update_validations_on_missing_fields (Sample.request None [] [] None))
           eq_refl eq_refl eq_refl).
Defined.

(** ** Seeding *)

Section SeedingFacts.
Variable bcrypt_hash : string -> nat -> string.

Lemma findOne_app_last {A : Type} (q : A -> bool) (l : list A) (d : A) :
  Model.findOne q (l ++ [d])
  = match Model.findOne q l with
    | Some x => Some x
    | None => if q d then Some d else None
    end.
Proof.
  unfold Model.findOne. induction l as [|x l IH]; simpl; [reflexivity|].
  destruct (q x); [reflexivity|exact IH].
Qed.

Lemma seedAdmin_cases (env : Env) (store : Db) :
  (exists a, Model.findOne (ConnectionDB.by_email ConnectionDB.adminEmail) (users store)
             = Some a /\
     ConnectionDB.seedAdmin bcrypt_hash env store
     = (Ok (Info "Admin already exists with admin@demo.com"), store)) \/
  (Model.findOne (ConnectionDB.by_email ConnectionDB.adminEmail) (users store) = None /\
   bcrypt_hash "Admin123" 10 <> "" /\
   ConnectionDB.seedAdmin bcrypt_hash env store
   = (Ok (Info ("Admin: " +:+ fresh env)),
      set_users (Model.insert (UserModel.document env (adminInput bcrypt_hash))) store)) \/
  (Model.findOne (ConnectionDB.by_email ConnectionDB.adminEmail) (users store) = None /\
   bcrypt_hash "Admin123" 10 = "" /\
   ConnectionDB.seedAdmin bcrypt_hash env store
   = (Throw (ValidationError "password"), store)).
Proof.
  unfold ConnectionDB.seedAdmin, bind, query. cbn beta iota.
  destruct (Model.findOne (ConnectionDB.by_email ConnectionDB.adminEmail) (users store))
    as [a|] eqn:E.
  - left. exists a. split; reflexivity.
  - right. unfold UserModel.create, missing_paths. simpl.
    destruct (String.eqb (bcrypt_hash "Admin123" 10) "") eqn:Eh; simpl.
    + right. apply String.eqb_eq in Eh. split; [reflexivity|]. split; [exact Eh|].
      reflexivity.
    + left. apply String.eqb_neq in Eh. split; [reflexivity|]. split; [exact Eh|].
      unfold bind, query, modify, ret, throw. cbn beta iota.
      change (Model.findOne (fun u => String.eqb (u_email u) ConnectionDB.adminEmail)
                (users store))
        with (Model.findOne (ConnectionDB.by_email ConnectionDB.adminEmail) (users store)).
      rewrite E. reflexivity.
Qed.

Lemma seedUser_cases (env : Env) (store : Db) :
  (exists a, Model.findOne (ConnectionDB.by_email ConnectionDB.userEmail) (users store)
             = Some a /\
     ConnectionDB.seedUser bcrypt_hash env store
     = (Ok (Info "User already exists with user@demo.com"), store)) \/
  (Model.findOne (ConnectionDB.by_email ConnectionDB.userEmail) (users store) = None /\
   bcrypt_hash "User123" 10 <> "" /\
   ConnectionDB.seedUser bcrypt_hash env store
   = (Ok (Info ("User: " +:+ fresh env)),
      set_users (Model.insert (UserModel.document env (userInput bcrypt_hash))) store)) \/
  (Model.findOne (ConnectionDB.by_email ConnectionDB.userEmail) (users store) = None /\
   bcrypt_hash "User123" 10 = "" /\
   ConnectionDB.seedUser bcrypt_hash env store
   = (Throw (ValidationError "password"), store)).
Proof.
  unfold ConnectionDB.seedUser, bind, query. cbn beta iota.
  destruct (Model.findOne (ConnectionDB.by_email ConnectionDB.userEmail) (users store))
    as [a|] eqn:E.
  - left. exists a. split; reflexivity.
  - right. unfold UserModel.create, missing_paths. simpl.
    destruct (String.eqb (bcrypt_hash "User123" 10) "") eqn:Eh; simpl.
    + right. apply String.eqb_eq in Eh. split; [reflexivity|]. split; [exact Eh|].
      reflexivity.
    + left. apply String.eqb_neq in Eh. split; [reflexivity|]. split; [exact Eh|].
      unfold bind, query, modify, ret, throw. cbn beta iota.
      change (Model.findOne (fun u => String.eqb (u_email u) ConnectionDB.userEmail)
                (users store))
        with (Model.findOne (ConnectionDB.by_email ConnectionDB.userEmail) (users store)).
      rewrite E. reflexivity.
Qed.

End SeedingFacts.

Section SeedingTheorems.
Variable bcrypt_hash : string -> nat -> string.

Let admin_found (s : Db) : Prop :=
  exists a, Model.findOne (ConnectionDB.by_email ConnectionDB.adminEmail) (users s) = Some a.
Let user_found (s : Db) : Prop :=
  exists a, Model.findOne (ConnectionDB.by_email ConnectionDB.userEmail) (users s) = Some a.

Lemma findOne_app_found {A : Type} (q : A -> bool) (l l' : list A) (a : A) :
  Model.findOne q l = Some a -> Model.findOne q (l ++ l') = Some a.
Proof.
  unfold Model.findOne. induction l as [|x l IH]; simpl; [discriminate|].
  destruct (q x); [auto|exact IH].
Qed.

(** A store in which neither block of the callback has anything to add. *)
Lemma seeding_fixed_point (ea eu : Env) (s : Db) :
  (admin_found s \/ bcrypt_hash "Admin123" 10 = "") ->
  (admin_found s -> user_found s \/ bcrypt_hash "User123" 10 = "") ->
  snd (ConnectionDB.db bcrypt_hash ea eu s) = s.
Proof.
  intros Ha Hu. unfold ConnectionDB.db.
  destruct (seedAdmin_cases bcrypt_hash ea s)
    as [(a & Hfa & ->) | [(Hna & Hha & ->) | (Hna & Hha & ->)]].
  - destruct (seedUser_cases bcrypt_hash eu s)
      as [(u & Hfu & ->) | [(Hnu & Hhu & ->) | (Hnu & Hhu & ->)]]; try reflexivity.
    exfalso. destruct (Hu (ex_intro _ a Hfa)) as [[u Hfu]|Hempty]; congruence.
  - exfalso. destruct Ha as [[a Hfa]|Hempty]; congruence.
  - reflexivity.
Qed.

Lemma seeding_reaches_fixed_point (ea eu : Env) (store : Db) :
  let s := snd (ConnectionDB.db bcrypt_hash ea eu store) in
  (admin_found s \/ bcrypt_hash "Admin123" 10 = "") /\
  (admin_found s -> user_found s \/ bcrypt_hash "User123" 10 = "").
Proof.
  unfold ConnectionDB.db, admin_found, user_found.
  destruct (seedAdmin_cases bcrypt_hash ea store)
    as [(a & Hfa & ->) | [(Hna & Hha & ->) | (Hna & Hha & ->)]].
  - destruct (seedUser_cases bcrypt_hash eu store)
      as [(u & Hfu & ->) | [(Hnu & Hhu & ->) | (Hnu & Hhu & ->)]];
      cbn [fst snd users set_users]; unfold Model.insert.
    + split; [left; exists a; exact Hfa | intros _; left; exists u; exact Hfu].
    + split.
      * left. exists a. apply findOne_app_found. exact Hfa.
      * intros _. left. eexists. rewrite findOne_app_last, Hnu. reflexivity.
    + split; [left; exists a; exact Hfa | intros _; right; exact Hhu].
  - set (s1 := set_users (Model.insert (UserModel.document ea (adminInput bcrypt_hash)))
                 store).
    assert (Hs1 : exists a, Model.findOne
                    (ConnectionDB.by_email ConnectionDB.adminEmail) (users s1) = Some a).
    { eexists. unfold s1, Model.insert. cbn [users set_users].
      rewrite findOne_app_last, Hna. reflexivity. }
    destruct (seedUser_cases bcrypt_hash eu s1)
      as [(u & Hfu & ->) | [(Hnu & Hhu & ->) | (Hnu & Hhu & ->)]];
      cbn [fst snd]; try (cbn [users set_users]; unfold Model.insert).
    + split; [left; exact Hs1 | intros _; left; exists u; exact Hfu].
    + split.
      * left. destruct Hs1 as [a Hfa]. exists a. apply findOne_app_found. exact Hfa.
      * intros _. left. eexists. rewrite findOne_app_last, Hnu. reflexivity.
    + split; [left; exact Hs1 | intros _; right; exact Hhu].
  - cbn [fst snd]. split; [right; exact Hha|]. intros [a Hfa]. congruence.
Qed.

(** X18.  The seeding is idempotent: whatever the hash function, the clock
    and the identifiers handed out, running the start-up callback on a
    store that it has already run on leaves that store exactly as it is,
    so that a restart never duplicates an account. *)
Theorem seeding_idempotent (ea eu ea' eu' : Env) (store : Db) :
  snd (ConnectionDB.db bcrypt_hash ea' eu'
         (snd (ConnectionDB.db bcrypt_hash ea eu store)))
  = snd (ConnectionDB.db bcrypt_hash ea eu store).
Proof.
  destruct (seeding_reaches_fixed_point ea eu store) as [Ha Hu].
  apply seeding_fixed_point; assumption.
Qed.


End SeedingTheorems.


(** ** What a controller may assume behind its guards *)

Section GuardFacts.
Variable jwt_verify : string -> string -> option Principal.
Variable JWT_SECRET : option string.

Lemma authMiddleware_next (req : Request) :
  (0 < count_next (snd (AuthMiddleware.authMiddleware jwt_verify JWT_SECRET req)))%nat ->
  exists token principal,
    AuthMiddleware.token_of req = Some token /\ token <> "" /\
    jwt_verify token (secret_or_default JWT_SECRET) = Some principal /\
    AuthMiddleware.authMiddleware jwt_verify JWT_SECRET req
    = (AuthMiddleware.attach principal req,
       [JwtVerify token (secret_or_default JWT_SECRET); NextCalled]).
Proof.
  unfold AuthMiddleware.authMiddleware, count_next.
  destruct (AuthMiddleware.token_of req) as [[|c t]|]; simpl; try lia.
  destruct (jwt_verify (String c t) (secret_or_default JWT_SECRET)) as [p|] eqn:E;
    simpl; try lia.
  intros _. exists (String c t), p. repeat split; [discriminate|exact E].
Qed.

Lemma checkRole_next (role : string) (req : Request) :
  (0 < count_next (snd (PreAuthorize.checkRole role req)))%nat ->
  PreAuthorize.checkRole role req = (req, [NextCalled]) /\
  exists u roles, user req = Some u /\ user_roles u = RolesArray roles /\ In role roles.
Proof.
  unfold PreAuthorize.checkRole, count_next.
  destruct (user req) as [u|]; simpl; try lia.
  destruct (user_roles u) as [| |v|roles] eqn:Er; simpl; try lia.
  destruct (existsb (String.eqb role) roles) eqn:E; simpl; try lia.
  intros _. split; [reflexivity|]. exists u, roles.
  split; [reflexivity|]. split; [exact Er|].
  apply existsb_exists in E. destruct E as (r & Hin & Heq).
  apply String.eqb_eq in Heq. subst. exact Hin.
Qed.

Lemma run_chain_keeps_user st r :
  user (fst (Validator.run_chain st r)) = user (fst st).
Proof.
  destruct st as [req errors]. unfold Validator.run_chain.
  destruct (Validator.get _ _ req), (Validator.optional r), (Validator.trim r); simpl;
    try reflexivity;
    destruct (Validator.passes _ _); simpl; try reflexivity;
    destruct (Validator.location r); reflexivity.
Qed.

Lemma validate_keeps_user rules req :
  user (fst (Validator.validate rules req)) = user req.
Proof.
  unfold Validator.validate, Validator.run.
  assert (Hfold : forall st, user (fst (fold_left Validator.run_chain rules st))
                             = user (fst st)).
  { induction rules as [|r rules IH]; intros st; [reflexivity|]. simpl.
    rewrite IH. apply run_chain_keeps_user. }
  specialize (Hfold (req, [])).
  destruct (fold_left Validator.run_chain rules (req, [])) as [req' errors].
  rewrite handleValidationErrors_keeps_request. exact Hfold.
Qed.

Lemma validate_never_verifies rules req :
  jwt_verify_calls (snd (Validator.validate rules req)) = [].
Proof.
  unfold Validator.validate.
  destruct (Validator.run rules req) as [req' [|e errors]]; reflexivity.
Qed.

Lemma checkRole_never_verifies role req :
  jwt_verify_calls (snd (PreAuthorize.checkRole role req)) = [].
Proof.
  unfold PreAuthorize.checkRole. destruct (user req) as [u|]; [|reflexivity].
  destruct (user_roles u); try reflexivity.
  destruct (existsb _ _); reflexivity.
Qed.

Lemma jwt_verify_calls_app t1 t2 :
  jwt_verify_calls (t1 ++ t2) = jwt_verify_calls t1 ++ jwt_verify_calls t2.
Proof. unfold jwt_verify_calls. apply flat_map_app. Qed.

(** Guards other than the token verifier keep the principal and demand
    their roles of it. *)
Lemma run_guards_after_auth (rest : list Guard) :
  forallb (fun g => match g with authMiddleware => false | _ => true end) rest = true ->
  forall req req' trace,
    Express.run_guards jwt_verify JWT_SECRET rest req = (Some req', trace) ->
    user req' = user req /\ jwt_verify_calls trace = [] /\
    forall role, In (checkRole role) rest ->
      exists u roles, user req = Some u /\ user_roles u = RolesArray roles /\
                      In role roles.
Proof.
  induction rest as [|g rest IH]; intros Hno req req' trace Hrun.
  - simpl in Hrun. injection Hrun as <- <-. repeat split. intros role [].
  - simpl in Hno. apply andb_true_iff in Hno. destruct Hno as [Hg Hno].
    simpl in Hrun.
    destruct (Express.run_guard jwt_verify JWT_SECRET g req) as [req1 t1] eqn:Eg.
    destruct (0 <? count_next t1)%nat eqn:En; [|discriminate].
    apply Nat.ltb_lt in En.
    destruct (Express.run_guards jwt_verify JWT_SECRET rest req1) as [reached t2] eqn:Er.
    injection Hrun as -> <-.
    destruct (IH Hno req1 req' t2 Er) as (Huser & Hcalls & Hroles).
    rewrite jwt_verify_calls_app, Hcalls, app_nil_r.
    destruct g as [|role|rules]; [discriminate| |]; simpl in Eg.
    + assert (Hn : (0 < count_next (snd (PreAuthorize.checkRole role req)))%nat)
        by (rewrite Eg; exact En).
      destruct (checkRole_next role req Hn) as (Hsame & u & roles & Hu & Hr & Hin).
      rewrite Hsame in Eg. injection Eg as <- <-.
      split; [exact Huser|]. split; [reflexivity|].
      intros role' [Heq|Hin'].
      * injection Heq as <-. exists u, roles. auto.
      * exact (Hroles role' Hin').
    + pose proof (validate_keeps_user rules req) as Hk.
      pose proof (validate_never_verifies rules req) as Hv.
      rewrite Eg in Hk, Hv. simpl in Hk, Hv.
      split; [rewrite Huser; exact Hk|]. split; [exact Hv|].
      intros role' [Heq|Hin']; [discriminate|].
      rewrite <- Hk. exact (Hroles role' Hin').
Qed.

(** X20.  On every route of the post router and of the comment router the
    controller is reached only by way of the token verifier: when the
    guards of a route let a request through, the header carried a
    non-empty token that the token library accepted under the configured
    secret, the library was called exactly once, the request that the
    controller receives carries the decoded principal, and that principal
    has, in an array of roles, every role that the route demands. *)
Theorem routers_guard_every_controller (route : Route) (req req' : Request)
  (trace : list Effect) :
  In route (postRouter.router ++ commentRouter.router) ->
  Express.run_guards jwt_verify JWT_SECRET (guards route) req = (Some req', trace) ->
  exists token principal,
    AuthMiddleware.token_of req = Some token /\ token <> "" /\
    jwt_verify token (secret_or_default JWT_SECRET) = Some principal /\
    user req' = Some principal /\
    jwt_verify_calls trace = [(token, secret_or_default JWT_SECRET)] /\
    forall role, In (checkRole role) (guards route) ->
      exists roles, user_roles principal = RolesArray roles /\ In role roles.
Proof.
  intros Hroute Hrun.
  assert (Hshape : exists rest, guards route = authMiddleware :: rest /\
            forallb (fun g => match g with authMiddleware => false | _ => true end) rest
            = true).
  { simpl in Hroute.
    repeat (destruct Hroute as [<-|Hroute]; [eexists; split; reflexivity|]).
    contradiction. }
  destruct Hshape as (rest & Hguards & Hno). rewrite Hguards in *. simpl in Hrun.
  destruct (AuthMiddleware.authMiddleware jwt_verify JWT_SECRET req) as [req1 t1] eqn:Ea.
  destruct (0 <? count_next t1)%nat eqn:En; [|discriminate].
  apply Nat.ltb_lt in En.
  assert (Hn : (0 < count_next
                    (snd (AuthMiddleware.authMiddleware jwt_verify JWT_SECRET req)))%nat)
    by (rewrite Ea; exact En).
  destruct (authMiddleware_next req Hn) as (token & principal & Htok & Hne & Hv & Hauth).
  rewrite Hauth in Ea. injection Ea as <- <-.
  destruct (Express.run_guards jwt_verify JWT_SECRET rest
              (AuthMiddleware.attach principal req)) as [reached t2] eqn:Er.
  injection Hrun as -> <-.
  destruct (run_guards_after_auth rest Hno _ req' t2 Er) as (Huser & Hcalls & Hroles).
  exists token, principal.
  split; [exact Htok|]. split; [exact Hne|]. split; [exact Hv|].
  split; [rewrite Huser; reflexivity|].
  split; [simpl; rewrite Hcalls; reflexivity|].
  intros role [Heq|Hin]; [discriminate|].
  destruct (Hroles role Hin) as (u & roles & Hu & Hr & Hi).
  simpl in Hu. injection Hu as <-. exists roles. auto.
Qed.

End GuardFacts.

(** X20 on the route [POST /] of the comment router and a request of the
    sample user: the guards let it through with Alice attached. *)
Lemma routers_guard_every_controller_witness :
  exists token principal,
    AuthMiddleware.token_of
      (Sample.request (Some "Bearer good.token") []
         [("content", "Hi"); ("author", Sample.alice_id); ("post", Sample.post1_id)] None)
    = Some token /\ token <> "" /\
    Sample.jwt_verify token (secret_or_default None) = Some principal /\
    principal = Sample.alice_principal.
Proof.
  destruct (routers_guard_every_controller Sample.jwt_verify None
              {| verb := "POST"; pattern := "/";
                 guards := [authMiddleware; checkRole UserRole.USER;
                            validations commentValidations.create];
                 controller := "commentController.create" |}
              (Sample.request (Some "Bearer good.token") []
                 [("content", "Hi"); ("author", Sample.alice_id);
                  ("post", Sample.post1_id)] None)
              (Sample.request (Some "Bearer good.token") []
                 [("content", "Hi"); ("author", Sample.alice_id);
                  ("post", Sample.post1_id)] (Some Sample.alice_principal))
              [JwtVerify "good.token" "defaultSecret"; NextCalled; NextCalled; NextCalled])
    as (token & principal & Htok & Hne & Hv & Hu & _).
  - simpl. tauto.
  - vm_compute. reflexivity.
  - exists token, principal. repeat split; try assumption.
    simpl in Hu. injection Hu as <-. reflexivity.
Defined.

(** ** The genre route *)

Lemma compile_trailing_backslash (s : string) :
  plain s = true ->
  Regex.compile (s +:+ "\") = Regex.Invalid "\ at end of pattern".
Proof.
  induction s as [|c s IH]; intros Hp; [reflexivity|].
  simpl in Hp. apply andb_true_iff in Hp. destruct Hp as [Hc Hs].
  apply andb_true_iff in Hc. destruct Hc as [Hc _].
  apply negb_true_iff in Hc.
  assert (Hbs : Ascii.eqb c "\" = false /\ Ascii.eqb c "." = false).
  { unfold Regex.is_meta in Hc. simpl in Hc.
    repeat (apply orb_false_iff in Hc; destruct Hc as [? Hc]). split; assumption. }
  rewrite append_cons. simpl. destruct Hbs as [-> ->]. rewrite Hc, (IH Hs). reflexivity.
Qed.

Lemma filter_filter_andb {A : Type} (f g : A -> bool) (l : list A) :
  List.filter (fun x => f x && g x) l = List.filter f (List.filter g l).
Proof.
  induction l as [|x l IH]; [reflexivity|]. simpl.
  destruct (g x); simpl; destruct (f x); simpl; rewrite ?IH; reflexivity.
Qed.

Lemma getAll_documents (db : Db) :
  List.map pp_doc (resolved (PostService.getAll db))
  = List.filter Model.not_deleted (posts db).
Proof.
  unfold resolved, PostService.getAll, query, Model.find. cbn [fst].
  rewrite map_map. cbn [pp_doc populate_post]. apply map_id.
Qed.

(** X21.  [PostController.getByGenre] reads the genre from the route and
    never writes.  Where the genre of the route and the genres of the
    stored posts are printable ASCII text: a genre that the store accepts
    as a pattern is answered
    without a status by an array of unpopulated posts: those documents of
    [getAll], in the same order, whose genre the pattern matches, so that a
    soft-deleted post is never listed and the empty genre lists every
    post that [getAll] lists.  A genre that the store rejects as a pattern
    is answered with 500 and the error of the store, which is what a
    genre of plain characters followed by a backslash gets. *)
Theorem PostController_getByGenre_outcome (req : Request) (db : Db) :
  let genre := field (params req) "genre" in
  let listed := List.map pp_doc (resolved (PostService.getAll db)) in
  printable genre = true ->
  (forall p, In p (posts db) -> printable (p_genre p) = true) ->
  (forall atoms, Regex.compile genre = Regex.Pattern atoms ->
     PostController.getByGenre req db
     = Some ([ServiceCall "postsService.getByGenre";
              SendJson (JArr (List.map json_of_post
                 (List.filter (fun p => Regex.search atoms (p_genre p)) listed)))], db)) /\
  (genre = "" ->
     PostController.getByGenre req db
     = Some ([ServiceCall "postsService.getByGenre";
              SendJson (JArr (List.map json_of_post listed))], db)) /\
  (forall reason, Regex.compile genre = Regex.Invalid reason ->
     PostController.getByGenre req db
     = Some ([ServiceCall "postsService.getByGenre"; Status 500;
              SendJson (json_of_error
                 (MongoServerError ("Regular expression is invalid: " +:+ reason)))],
             db)) /\
  (forall s, plain s = true -> genre = s +:+ "\" ->
     PostController.getByGenre req db
     = Some ([ServiceCall "postsService.getByGenre"; Status 500;
              SendJson (json_of_error
                 (MongoServerError
                    "Regular expression is invalid: \ at end of pattern"))], db)) /\
  (forall out, PostController.getByGenre req db = Some out -> snd out = db).
Proof.
  intros genre listed _ _.
  assert (Hpattern : forall atoms, Regex.compile genre = Regex.Pattern atoms ->
     PostController.getByGenre req db
     = Some ([ServiceCall "postsService.getByGenre";
              SendJson (JArr (List.map json_of_post
                 (List.filter (fun p => Regex.search atoms (p_genre p)) listed)))], db)).
  { intros atoms Hc. unfold PostController.getByGenre, PostService.getByGenre.
    fold genre. rewrite Hc. unfold query, Model.find. cbn beta iota.
    unfold listed. rewrite getAll_documents, <- filter_filter_andb. reflexivity. }
  assert (Hinvalid : forall reason, Regex.compile genre = Regex.Invalid reason ->
     PostController.getByGenre req db
     = Some ([ServiceCall "postsService.getByGenre"; Status 500;
              SendJson (json_of_error
                 (MongoServerError ("Regular expression is invalid: " +:+ reason)))],
             db)).
  { intros reason Hc. unfold PostController.getByGenre, PostService.getByGenre.
    fold genre. rewrite Hc. reflexivity. }
  split; [exact Hpattern|]. split; [|split; [exact Hinvalid|split]].
  - intros Hempty. rewrite (Hpattern []) by (rewrite Hempty; reflexivity).
    assert (Hall : List.filter (fun p => Regex.search [] (p_genre p)) listed = listed).
    { apply filter_all_true. intros p _. destruct (p_genre p); reflexivity. }
    rewrite Hall. reflexivity.
  - intros s Hs Hg.
    rewrite (Hinvalid "\ at end of pattern")
      by (rewrite Hg; exact (compile_trailing_backslash s Hs)).
    reflexivity.
  - intros out. destruct (Regex.compile genre) as [atoms|reason|] eqn:Hc.
    + rewrite (Hpattern atoms eq_refl). intros [= <-]. reflexivity.
    + rewrite (Hinvalid reason eq_refl). intros [= <-]. reflexivity.
    + unfold PostController.getByGenre, PostService.getByGenre. fold genre.
      rewrite Hc. discriminate.
Qed.

(** X21 on the sample store: the genre [tech\] is answered with 500. *)
Lemma PostController_getByGenre_outcome_witness :
  option_map fst
    (PostController.getByGenre (Sample.request None [("genre", "tech\")] [] None)
       Sample.db)
  = Some [ServiceCall "postsService.getByGenre"; Status 500;
          SendJson (json_of_error
             (MongoServerError "Regular expression is invalid: \ at end of pattern"))].
Proof.
  destruct (PostController_getByGenre_outcome
              (Sample.request None [("genre", "tech\")] [] None) Sample.db)
    as (_ & _ & _ & Hbackslash & _).
  { reflexivity. }
  { intros p [<-|[<-|[]]]; reflexivity. }
  rewrite (Hbackslash "tech" eq_refl eq_refl). reflexivity.
Defined.

(** ** Instances on the sample store *)

(** X3 on the sample store: no user has the unknown identifier. *)
Lemma PostService_getByAuthorId_outcome_witness :
  PostService.getByAuthorId Sample.unknown_id Sample.db
  = (Throw (ReferenceError "User not found"), Sample.db).
Proof.
  apply (proj1 (PostService_getByAuthorId_outcome Sample.unknown_id Sample.db eq_refl)).
  intros u [<-|[<-|[]]]; discriminate.
Defined.

(** X4 on the sample store: no user has the unknown identifier. *)
Lemma CommentService_getByAuthorId_outcome_witness :
  CommentService.getByAuthorId Sample.unknown_id Sample.db
  = (Throw (ReferenceError "User not found"), Sample.db).
Proof.
  apply (proj1 (CommentService_getByAuthorId_outcome Sample.unknown_id Sample.db eq_refl)).
  intros u [<-|[<-|[]]]; discriminate.
Defined.

(** X11 on the sample store: the soft-deleted [Sample.post2] is sent. *)
Lemma getOne_outcome_witness :
  PostController.getOne (Sample.request None [("id", Sample.post2_id)] [] None) Sample.db
  = ([ServiceCall "postsService.getById";
      SendJson (json_of_populated_post (populate_post Sample.db Sample.post2))],
     Sample.db).
Proof.
  pose proof (getOne_outcome (Sample.request None [("id", Sample.post2_id)] [] None)
                Sample.db) as H.
  cbv zeta in H. destruct (H eq_refl) as (_ & Hfound & _).
  apply Hfound. reflexivity.
Defined.

(** X14 on the sample store: no user has the unknown identifier. *)
Lemma getByAuthorId_outcome_witness :
  CommentController.getByAuthorId
    (Sample.request None [("userId", Sample.unknown_id)] [] None) Sample.db
  = ([ServiceCall "commentsService.getByAuthorId"; Status 400;
      SendJson (message_body "User not found")], Sample.db).
Proof.
  pose proof (getByAuthorId_outcome
                (Sample.request None [("userId", Sample.unknown_id)] [] None)
                Sample.db) as H.
  cbv zeta in H. destruct (H eq_refl) as (Hmissing & _).
  apply Hmissing. intros u [<-|[<-|[]]]; vm_compute; discriminate.
Defined.
